(** * Unemployment dashboards: data-assembly pipeline

    Shallow embedding of [economics_dashboard.py] and
    [economics_dashboard_3cols.py].  Both files are sequential Streamlit
    scripts over pandas frames: the FRED series fetcher [get_series], the
    state-level comparison table [comparison_df], the common date range
    ([common_start], [common_end]), the window [mask], the yearly map data
    [state_map_data] and the parish loader [load_county_data].

    Modelling choices, in one place:
    - a pandas cell is a [cell]; [NaN] stands for every missing marker
      (NaN, NaT, None);
    - a float is an exact rational ([Q]): rounding of the binary
      representation is not modelled, [round(x, 2)] is;
    - a frame is its column labels and its rows, a row being a finite map
      from labels to cells (a label absent from a row reads [NaN]);
    - a script is a computation over the page rendered so far that either
      finishes or raises a Python exception. *)

From Stdlib Require Import QArith Qround Lqa.
From stdpp Require Import gmap strings list fin_maps pretty sorting.

Close Scope Q_scope.
Set Warnings "-clear-no-such-hyp".

(** ** pandas *)

Module Pandas.

(** [pd.Timestamp] of a calendar day (FRED observations and the parish file
    carry no time of day). *)
Record Timestamp := mkTimestamp { ts_year : Z; ts_month : Z; ts_day : Z }.

#[global] Instance Timestamp_eq_dec : EqDecision Timestamp.
Proof. solve_decision. Defined.

Definition ts_le (a b : Timestamp) : Prop :=
  (ts_year a < ts_year b
   ∨ (ts_year a = ts_year b
      ∧ (ts_month a < ts_month b
         ∨ (ts_month a = ts_month b ∧ ts_day a ≤ ts_day b))))%Z.

#[global] Instance ts_le_dec a b : Decision (ts_le a b).
Proof. unfold ts_le. apply _. Defined.

Definition ts_lt (a b : Timestamp) : Prop := ts_le a b ∧ a ≠ b.

#[global] Instance ts_lt_dec a b : Decision (ts_lt a b).
Proof. unfold ts_lt. apply _. Defined.

#[global] Instance Q_eq_dec : EqDecision Q.
Proof. solve_decision. Defined.

Inductive cell :=
  | NaN
  | Str (s : string)
  | Num (q : Q)
  | Ts (t : Timestamp).

#[global] Instance cell_eq_dec : EqDecision cell.
Proof. solve_decision. Defined.

Definition num (v : option Q) : cell :=
  match v with Some q => Num q | None => NaN end.

Definition isnull (c : cell) : bool :=
  match c with NaN => true | _ => false end.

(** Elementwise comparisons of a datetime column with a timestamp; a
    comparison with a missing value is [False]. *)
Definition cell_ge (c : cell) (t : Timestamp) : bool :=
  match c with Ts d => bool_decide (ts_le t d) | _ => false end.

Definition cell_le (c : cell) (t : Timestamp) : bool :=
  match c with Ts d => bool_decide (ts_le d t) | _ => false end.

Record DataFrame := mkDataFrame {
  columns : list string;
  rows : list (gmap string cell)
}.

(** [pd.DataFrame()] *)
Definition empty_frame : DataFrame := mkDataFrame [] [].

(** [df.empty]: some axis has length 0. *)
Definition empty (df : DataFrame) : bool :=
  match columns df, rows df with
  | [], _ | _, [] => true
  | _, _ => false
  end.

Definition at_ (r : gmap string cell) (c : string) : cell := default NaN (r !! c).

(** The values of column [c], without the check that [c] is a label. *)
Definition col (df : DataFrame) (c : string) : list cell :=
  (λ r, at_ r c) <$> rows df.

(** [df.rename(columns={old: new})] *)
Definition rename_row (old new : string) (r : gmap string cell) : gmap string cell :=
  match r !! old with
  | Some v => <[new := v]> (delete old r)
  | None => r
  end.

Definition rename (df : DataFrame) (old new : string) : DataFrame :=
  mkDataFrame ((λ c, if decide (c = old) then new else c) <$> columns df)
              (rename_row old new <$> rows df).

(** [df.loc[mask]], the mask given row by row. *)
Definition loc (df : DataFrame) (mask : gmap string cell → bool) : DataFrame :=
  mkDataFrame (columns df) (List.filter mask (rows df)).

(** [pd.merge(left, right, on="Date", how="left")].  Every left row is kept,
    in order; it is paired with each right row of the same date, in the
    order of [right], or kept alone when there is none (the columns of
    [right] then read [NaN]).  The labels of [right] other than the key are
    taken to be new to [left]: pandas would suffix a label present on both
    sides. *)
Definition merge_row (right : list (gmap string cell)) (l : gmap string cell)
  : list (gmap string cell) :=
  match List.filter (λ r, bool_decide (at_ r "Date" = at_ l "Date")) right with
  | [] => [l]
  | ms => (λ r, l ∪ r) <$> ms
  end.

Definition merge_left_on_Date (left right : DataFrame) : DataFrame :=
  mkDataFrame (columns left ++ List.filter (λ c, negb (String.eqb c "Date")) (columns right))
              (flat_map (merge_row (rows right)) (rows left)).

(** [series.dropna()] *)
Definition dropna (s : list cell) : list cell :=
  List.filter (λ c, negb (isnull c)) s.

(** The timestamps of a datetime column, missing values skipped. *)
Definition timestamps (s : list cell) : list Timestamp :=
  omap (λ c, match c with Ts t => Some t | _ => None end) s.

(** The numbers of a float column, missing values skipped. *)
Definition numbers (s : list cell) : list Q :=
  omap (λ c, match c with Num q => Some q | _ => None end) s.

Definition ts_min2 (a b : Timestamp) : Timestamp := if decide (ts_le a b) then a else b.
Definition ts_max2 (a b : Timestamp) : Timestamp := if decide (ts_le a b) then b else a.

(** [series.min()] and [series.max()] of a datetime column: missing values
    are skipped, and the result is [NaT] when nothing is left. *)
Definition series_min (s : list cell) : cell :=
  match timestamps s with
  | [] => NaN
  | t :: ts => Ts (foldl ts_min2 t ts)
  end.

Definition series_max (s : list cell) : cell :=
  match timestamps s with
  | [] => NaN
  | t :: ts => Ts (foldl ts_max2 t ts)
  end.

(** [series.min()] and [series.max()] of the numbers of a float column. *)
Definition Qmin_list (xs : list Q) : option Q :=
  match xs with
  | [] => None
  | x :: xs' => Some (foldl (λ m y, if Qle_bool y m then y else m) x xs')
  end.

Definition Qmax_list (xs : list Q) : option Q :=
  match xs with
  | [] => None
  | x :: xs' => Some (foldl (λ m y, if Qle_bool m y then y else m) x xs')
  end.

(** A float entry: a number or [NaN]. *)
Definition is_float (c : cell) : bool :=
  match c with NaN | Num _ => true | _ => false end.

(** A timestamp within the range of a datetime column: not before its
    minimum, not after its maximum. *)
Definition within (s : list cell) (t : Timestamp) : Prop :=
  (∀ lo, series_min s = Ts lo → ts_le lo t) ∧ (∀ hi, series_max s = Ts hi → ts_le t hi).

(** Every column but "Date" holds floats. *)
Definition floats_off_Date (rs : list (gmap string cell)) : Prop :=
  ∀ r c, r ∈ rs → c ≠ "Date" → is_float (at_ r c) = true.

(** [series == x] on one entry of a float column. *)
Definition cell_eq_num (c : cell) (x : Q) : bool :=
  match c with Num q => Qeq_bool q x | _ => false end.

(** [series.dt.year] *)
Definition dt_year (c : cell) : option Z :=
  match c with Ts t => Some (ts_year t) | _ => None end.

End Pandas.
Export Pandas.

(** ** Python and Streamlit *)

Module Streamlit.

(** The exceptions the scripts can raise.  [KeyError key] is the error of
    [d[key]] and of [df[key]] on one label, whose argument is the key.
    [df[[c1, ...]]] raises a [KeyError] too, with a message of pandas that
    names the labels not found: [KeyError_not_found].  The messages of
    [AttributeError] and of Streamlit's exception are texts of pandas and
    of Streamlit that change with their versions: they are left out. *)
Inductive exn :=
  | KeyError (key : string)
  | KeyError_not_found (labels : list string)
  | ValueError (msg : string)
  | AttributeError
  | StreamlitAPIException
  | RequestException (msg : string).

Inductive outcome (A : Type) :=
  | Done (a : A)
  | Raised (e : exn).
Arguments Done {A} a.
Arguments Raised {A} e.

(** [go.Scatter(x=..., y=..., mode='lines', name=...)] *)
Record Scatter := mkScatter {
  sc_name : string;
  sc_x : list cell;
  sc_y : list cell
}.

(** What a script has put on the page. *)
Inductive element :=
  | error (msg : string)
  | warning (msg : string)
  | info (msg : string)
  | plotly_chart (fig : list Scatter)
  | choropleth (title : string) (locations : list cell) (z : list cell)
  | dataframe (df : DataFrame)
  | download_button (label : string) (data : DataFrame).

(** A script run: from the page so far to an outcome and the page after. *)
Definition App (A : Type) : Type := list element → outcome A * list element.

Definition ret {A} (a : A) : App A := λ page, (Done a, page).

Definition bind {A B} (m : App A) (k : A → App B) : App B :=
  λ page,
    match m page with
    | (Done a, page') => k a page'
    | (Raised e, page') => (Raised e, page')
    end.

Definition raise {A} (e : exn) : App A := λ page, (Raised e, page).

Definition lift {A} (o : outcome A) : App A := λ page, (o, page).

Definition st (e : element) : App unit := λ page, (Done tt, page ++ [e]).

Notation "'let*' x ':=' m 'in' k" := (bind m (λ x, k))
  (at level 10, x name, m at level 100, k at level 200) : stdpp_scope.

(** [for x in xs: acc = body(x, acc)] *)
Fixpoint for_ {A S} (xs : list A) (acc : S) (body : A → S → App S) : App S :=
  match xs with
  | [] => ret acc
  | x :: xs' => let* acc' := body x acc in for_ xs' acc' body
  end.

(** [[f(x) for x in xs]] *)
Fixpoint comprehension {A B} (xs : list A) (f : A → App B) : App (list B) :=
  match xs with
  | [] => ret []
  | x :: xs' => let* y := f x in let* ys := comprehension xs' f in ret (y :: ys)
  end.

(** [d[k]] on a dict *)
Definition dict_getitem (d : gmap string string) (k : string) : outcome string :=
  match d !! k with
  | Some v => Done v
  | None => Raised (KeyError k)
  end.

(** [df[c]] *)
Definition getitem (df : DataFrame) (c : string) : outcome (list cell) :=
  if decide (c ∈ columns df) then Done (col df c) else Raised (KeyError c).

(** [df[[c1, c2, ...]].copy()]; the [KeyError] names the labels that are
    not columns. *)
Definition getitems (df : DataFrame) (cs : list string) : outcome DataFrame :=
  match List.filter (λ c, negb (bool_decide (c ∈ columns df))) cs with
  | [] => Done (mkDataFrame cs ((λ r, filter (λ kv, kv.1 ∈ cs) r) <$> rows df))
  | missing => Raised (KeyError_not_found missing)
  end.

(** Python's [a > b] and [a < b] on timestamps; [False] as soon as one side
    is [NaT]. *)
Definition py_gt (a b : cell) : bool :=
  match a, b with Ts x, Ts y => bool_decide (ts_lt y x) | _, _ => false end.

Definition py_lt (a b : cell) : bool :=
  match a, b with Ts x, Ts y => bool_decide (ts_lt x y) | _, _ => false end.

(** The builtins [max] and [min]: the first item is kept until a later one
    compares strictly greater (smaller). *)
Definition py_max (xs : list cell) : outcome cell :=
  match xs with
  | [] => Raised (ValueError "max() arg is an empty sequence")
  | x :: xs' => Done (foldl (λ m y, if py_gt y m then y else m) x xs')
  end.

Definition py_min (xs : list cell) : outcome cell :=
  match xs with
  | [] => Raised (ValueError "min() arg is an empty sequence")
  | x :: xs' => Done (foldl (λ m y, if py_lt y m then y else m) x xs')
  end.

(** [st.date_input(label, value, min_value=..., max_value=...)].  The widget
    refuses a default outside its bounds; it offers the days from
    [min_value] to [max_value] only, so a [pick] outside them is not taken
    and the default stays.  A missing bound or default is refused too. *)
Definition date_input (value min_value max_value : cell) (pick : option Timestamp)
  : App Timestamp :=
  match value, min_value, max_value with
  | Ts v, Ts lo, Ts hi =>
      if bool_decide (ts_le lo v) && bool_decide (ts_le v hi) then
        match pick with
        | Some d => if bool_decide (ts_le lo d) && bool_decide (ts_le d hi) then ret d else ret v
        | None => ret v
        end
      else raise StreamlitAPIException
  | _, _, _ => raise StreamlitAPIException
  end.

(** [st.slider(label, min_value, max_value, value, step=1)]: [min_value]
    must be less than [max_value] (equal bounds are refused too), and only
    a value between them can be picked. *)
Definition slider (min_value max_value value : Z) (pick : option Z) : App Z :=
  if bool_decide (min_value < max_value)%Z then
    match pick with
    | Some y => if bool_decide (min_value ≤ y ≤ max_value)%Z then ret y else ret value
    | None => ret value
    end
  else raise StreamlitAPIException.

End Streamlit.
Export Streamlit.

(** ** Code shared by the two scripts *)

Module Shared.

(** The items of the dict [STATE_SERIES_IDS], in source order. *)
Definition STATE_SERIES_IDS_items : list (string * string) :=
  [ ("Alabama", "ALUR"); ("Alaska", "AKUR"); ("Arizona", "AZUR"); ("Arkansas", "ARUR");
    ("California", "CAUR"); ("Colorado", "COUR"); ("Connecticut", "CTUR"); ("Delaware", "DEUR");
    ("District of Columbia", "DCUR"); ("Florida", "FLUR"); ("Georgia", "GAUR"); ("Hawaii", "HIUR");
    ("Idaho", "IDUR"); ("Illinois", "ILUR"); ("Indiana", "INUR"); ("Iowa", "IAUR"); ("Kansas", "KSUR");
    ("Kentucky", "KYUR"); ("Louisiana", "LAUR"); ("Maine", "MEUR"); ("Maryland", "MDUR");
    ("Massachusetts", "MAUR"); ("Michigan", "MIUR"); ("Minnesota", "MNUR"); ("Mississippi", "MSUR");
    ("Missouri", "MOUR"); ("Montana", "MTUR"); ("Nebraska", "NEUR"); ("Nevada", "NVUR");
    ("New Hampshire", "NHUR"); ("New Jersey", "NJUR"); ("New Mexico", "NMUR"); ("New York", "NYUR");
    ("North Carolina", "NCUR"); ("North Dakota", "NDUR"); ("Ohio", "OHUR"); ("Oklahoma", "OKUR");
    ("Oregon", "ORUR"); ("Pennsylvania", "PAUR"); ("Rhode Island", "RIUR"); ("South Carolina", "SCUR");
    ("South Dakota", "SDUR"); ("Tennessee", "TNUR"); ("Texas", "TXUR"); ("Utah", "UTUR");
    ("Vermont", "VTUR"); ("Virginia", "VAUR"); ("Washington", "WAUR"); ("West Virginia", "WVUR");
    ("Wisconsin", "WIUR"); ("Wyoming", "WYUR") ].

Definition STATE_SERIES_IDS : gmap string string := list_to_map STATE_SERIES_IDS_items.
Arguments STATE_SERIES_IDS : simpl never.

(** What the multiselect over [list(STATE_SERIES_IDS.keys())] can return:
    distinct options, each a key of the dict. *)
Definition selectable (states_selected : list string) : Prop :=
  NoDup states_selected ∧ Forall (λ s, is_Some (STATE_SERIES_IDS !! s)) states_selected.

Section Fred.

(** [fred.get_series]: the observations of a series as (date, value) pairs,
    a missing value being [None], or the text of the exception raised. *)
Variable fred : string → string + list (Timestamp * option Q).

(** The frame [get_series] builds from a fetched series:
    [pd.DataFrame(data).reset_index()] with the two labels assigned. *)
Definition series_frame (data : list (Timestamp * option Q)) : DataFrame :=
  mkDataFrame ["Date"; "Unemployment Rate"]
    ((λ o, {[ "Date" := Ts o.1; "Unemployment Rate" := num o.2 ]}) <$> data).

(** [get_series]; a call answered from the cache replays its [st.error]. *)
Definition get_series (series_id : string) : App DataFrame :=
  match fred series_id with
  | inr data => ret (series_frame data)
  | inl e =>
      let* _ := st (error ("Failed to fetch data for series " +:+ series_id +:+ ": " +:+ e)) in
      ret empty_frame
  end.

Definition us_df : App DataFrame :=
  let* df := get_series "UNRATE" in
  ret (rename df "Unemployment Rate" "United States").

(** An observation series has distinct dates. *)
Definition distinct_dates : Prop :=
  ∀ series_id data, fred series_id = inr data → NoDup data.*1.

(** What [get_series] returns and reports, as functions of the answer of
    FRED. *)
Definition fetched (series_id : string) : DataFrame :=
  match fred series_id with inr data => series_frame data | inl _ => empty_frame end.

Definition reported (series_id : string) : list element :=
  match fred series_id with
  | inr _ => []
  | inl e => [error ("Failed to fetch data for series " +:+ series_id +:+ ": " +:+ e)]
  end.

(** The comparison table before the window is applied. *)
Definition comparison_df (us_df : DataFrame) (states_selected : list string) : App DataFrame :=
  let* backbone := lift (getitems us_df ["Date"; "United States"]) in
  for_ states_selected backbone (λ state comparison_df,
    let* series_id := lift (dict_getitem STATE_SERIES_IDS state) in
    let* state_data := get_series series_id in
    if empty state_data then ret comparison_df
    else ret (merge_left_on_Date comparison_df
                (rename state_data "Unemployment Rate" state))).

(** One turn of the merge loop and the whole loop as functions of the
    table, the page left aside. *)
Definition merge_state (comparison_df : DataFrame) (state : string) : DataFrame :=
  match STATE_SERIES_IDS !! state with
  | Some series_id =>
      if empty (fetched series_id) then comparison_df
      else merge_left_on_Date comparison_df
             (rename (fetched series_id) "Unemployment Rate" state)
  | None => comparison_df
  end.

(** Whether the fetch for a state brought rows. *)
Definition has_data (state : string) : bool :=
  match STATE_SERIES_IDS !! state with
  | Some series_id => negb (empty (fetched series_id))
  | None => false
  end.

Definition state_reports (states_selected : list string) : list element :=
  concat ((λ s, match STATE_SERIES_IDS !! s with
                | Some series_id => reported series_id
                | None => []
                end) <$> states_selected).

(** The date column a selected state contributes to the common range. *)
Definition state_dates (state : string) : list cell :=
  match STATE_SERIES_IDS !! state with
  | Some series_id => col (fetched series_id) "Date"
  | None => []
  end.

(** The national fetch followed by the merge loop. *)
Definition build_comparison (states_selected : list string) : App DataFrame :=
  let* us_df := us_df in
  comparison_df us_df states_selected.

(** [(comparison_df["Date"] >= start_date) & (comparison_df["Date"] <= end_date)]
    on a datetime column, which the "Date" column of the table is when the
    national series has observations. *)
Definition mask (start_date end_date : Timestamp) (r : gmap string cell) : bool :=
  cell_ge (at_ r "Date") start_date && cell_le (at_ r "Date") end_date.

(** The line chart: the national trace, then one trace per selected state. *)
Definition fig (comparison_df : DataFrame) (states_selected : list string)
  : App (list Scatter) :=
  let* x := lift (getitem comparison_df "Date") in
  let* y := lift (getitem comparison_df "United States") in
  for_ states_selected [mkScatter "United States" x y] (λ state fig,
    let* x := lift (getitem comparison_df "Date") in
    let* y := lift (getitem comparison_df state) in
    ret (fig ++ [mkScatter state x y])).

End Fred.

End Shared.
Export Shared.

(** ** [economics_dashboard.py]: the state-level section *)

Module Dashboard.

(** What the user set in the sidebar. *)
Record Inputs := mkInputs {
  states_selected : list string;
  start_pick : option Timestamp;
  end_pick : option Timestamp
}.

Section Script.

Variable fred : string → string + list (Timestamp * option Q).

(** [[us_df["Date"]] + [get_series(STATE_SERIES_IDS[s])["Date"] for s in states_selected]] *)
Definition all_dates (us_df : DataFrame) (states_selected : list string)
  : App (list (list cell)) :=
  let* d := lift (getitem us_df "Date") in
  let* ds := comprehension states_selected (λ s,
               let* series_id := lift (dict_getitem STATE_SERIES_IDS s) in
               let* df := get_series fred series_id in
               lift (getitem df "Date")) in
  ret (d :: ds).

Definition common_start (all_dates : list (list cell)) : outcome cell :=
  py_max (series_min <$> all_dates).

Definition common_end (all_dates : list (list cell)) : outcome cell :=
  py_min (series_max <$> all_dates).

(** The two date inputs of the sidebar. *)
Definition window (us_df : DataFrame) (inp : Inputs) : App (Timestamp * Timestamp) :=
  let* dates := all_dates us_df (states_selected inp) in
  let* common_start := lift (common_start dates) in
  let* common_end := lift (common_end dates) in
  let* start_date := date_input common_start common_start common_end (start_pick inp) in
  let* end_date := date_input common_end common_start common_end (end_pick inp) in
  ret (start_date, end_date).

(** The script from the national fetch to the table and its download
    button; the value is the table shown. *)
Definition state_level (inp : Inputs) : App DataFrame :=
  let* us_df := us_df fred in
  let* comparison_df := comparison_df fred us_df (states_selected inp) in
  let* w := window us_df inp in
  let comparison_df := loc comparison_df (mask w.1 w.2) in
  let* fig := fig comparison_df (states_selected inp) in
  let* _ := st (plotly_chart fig) in
  let* _ := st (dataframe comparison_df) in
  let* _ := st (download_button "Download CSV" comparison_df) in
  ret comparison_df.

End Script.

End Dashboard.

(** ** [economics_dashboard_3cols.py]: sidebar, state-level section, state map *)

Module Dashboard3Cols.

Record Inputs := mkInputs {
  selected_state_options : list string;
  start_pick : option Timestamp;
  end_pick : option Timestamp;
  year_pick : option Z
}.

(** [list(STATE_SERIES_IDS.keys())] *)
Definition states : list string := STATE_SERIES_IDS_items.*1.

Definition states_selected (selected_state_options : list string) : list string :=
  if decide ("Select All States" ∈ selected_state_options) then states
  else selected_state_options.

(** Arithmetic mean of the numbers of a column, [NaN] when there is none.
    The sum and the quotient are exact; the float64 mean of the code is
    within rounding error of it. *)
Definition Qsum (xs : list Q) : Q := foldr Qplus 0%Q xs.

Definition Qmean (xs : list Q) : Q := (Qsum xs / inject_Z (Z.of_nat (length xs)))%Q.

Definition mean (s : list cell) : cell :=
  match numbers s with
  | [] => NaN
  | xs => Num (Qmean xs)
  end.

(** Nearest integer, a tie going to the even one. *)
Definition rint (x : Q) : Z :=
  let f := Qfloor x in
  match (x - inject_Z f ?= 1 # 2)%Q with
  | Lt => f
  | Gt => (f + 1)%Z
  | Eq => if Z.even f then f else (f + 1)%Z
  end.

(** [round(x, 2)] computed exactly: the hundredth nearest to [x], a tie
    going to the even one.  The float64 result of the code is the float
    nearest to a hundredth that is nearest to [x] up to rounding error. *)
Definition round2 (x : Q) : Q := (inject_Z (rint (x * 100)) / 100)%Q.

Definition py_round2 (c : cell) : cell :=
  match c with Num q => Num (round2 q) | _ => c end.

(** [comparison_df[comparison_df["Date"].dt.year == selected_year_state]] *)
Definition df_year (comparison_df : DataFrame) (selected_year_state : Z) : DataFrame :=
  loc comparison_df (λ r, bool_decide (dt_year (at_ r "Date") = Some selected_year_state)).

(** The columns of the selected states hold floats. *)
Definition float_columns (df : DataFrame) (states_selected : list string) : Prop :=
  ∀ state r, state ∈ states_selected → r ∈ rows df → is_float (at_ r state) = true.

(** The list [state_map_data], an entry being the pair of its "State" and
    its "Rate". *)
Fixpoint state_map_data (df_year : DataFrame) (states_selected : list string)
  : list (string * cell) :=
  match states_selected with
  | [] => []
  | state :: rest =>
      if bool_decide (state ∈ columns df_year)
         && negb (bool_decide (dropna (col df_year state) = []))
      then (state, py_round2 (mean (col df_year state))) :: state_map_data df_year rest
      else state_map_data df_year rest
  end.

Section Script.

Variable fred : string → string + list (Timestamp * option Q).

(** [[get_series(STATE_SERIES_IDS[s])["Date"] for s in states_selected
      if not get_series(STATE_SERIES_IDS[s]).empty]] *)
Fixpoint all_state_dates (states_selected : list string) : App (list (list cell)) :=
  match states_selected with
  | [] => ret []
  | s :: rest =>
      let* series_id := lift (dict_getitem STATE_SERIES_IDS s) in
      let* df := get_series fred series_id in
      if empty df then all_state_dates rest
      else
        let* series_id := lift (dict_getitem STATE_SERIES_IDS s) in
        let* df := get_series fred series_id in
        let* d := lift (getitem df "Date") in
        let* ds := all_state_dates rest in
        ret (d :: ds)
  end.

(** [common_start, common_end]: [None] when no selected state has data. *)
Definition common_range (all_state_dates : list (list cell)) : App (option (cell * cell)) :=
  match all_state_dates with
  | [] => ret None
  | _ =>
      let* common_start := lift (py_max (series_min <$> all_state_dates)) in
      let* common_end := lift (py_min (series_max <$> all_state_dates)) in
      ret (Some (common_start, common_end))
  end.

(** [start_date, end_date] of the sidebar. *)
Definition window (common : option (cell * cell)) (inp : Inputs)
  : App (option (Timestamp * Timestamp)) :=
  match common with
  | Some (common_start, common_end) =>
      let* start_date := date_input common_start common_start common_end (start_pick inp) in
      let* end_date := date_input common_end common_start common_end (end_pick inp) in
      ret (Some (start_date, end_date))
  | None => ret None
  end.

(** [if start_date and end_date: comparison_df = comparison_df.loc[mask]] *)
Definition apply_window (comparison_df : DataFrame) (w : option (Timestamp * Timestamp))
  : DataFrame :=
  match w with
  | Some (start_date, end_date) => loc comparison_df (mask start_date end_date)
  | None => comparison_df
  end.

(** The dict [state_abbr] of the map section. *)
Definition state_abbr : gmap string string := list_to_map
  [ ("Alabama", "AL"); ("Alaska", "AK"); ("Arizona", "AZ"); ("Arkansas", "AR"); ("California", "CA");
    ("Colorado", "CO"); ("Connecticut", "CT"); ("Delaware", "DE"); ("District of Columbia", "DC");
    ("Florida", "FL"); ("Georgia", "GA"); ("Hawaii", "HI"); ("Idaho", "ID"); ("Illinois", "IL");
    ("Indiana", "IN"); ("Iowa", "IA"); ("Kansas", "KS"); ("Kentucky", "KY"); ("Louisiana", "LA");
    ("Maine", "ME"); ("Maryland", "MD"); ("Massachusetts", "MA"); ("Michigan", "MI"); ("Minnesota", "MN");
    ("Mississippi", "MS"); ("Missouri", "MO"); ("Montana", "MT"); ("Nebraska", "NE"); ("Nevada", "NV");
    ("New Hampshire", "NH"); ("New Jersey", "NJ"); ("New Mexico", "NM"); ("New York", "NY");
    ("North Carolina", "NC"); ("North Dakota", "ND"); ("Ohio", "OH"); ("Oklahoma", "OK"); ("Oregon", "OR");
    ("Pennsylvania", "PA"); ("Rhode Island", "RI"); ("South Carolina", "SC"); ("South Dakota", "SD");
    ("Tennessee", "TN"); ("Texas", "TX"); ("Utah", "UT"); ("Vermont", "VT"); ("Virginia", "VA");
    ("Washington", "WA"); ("West Virginia", "WV"); ("Wisconsin", "WI"); ("Wyoming", "WY") ].

(** [map_df["State"].map(state_abbr)] *)
Definition state_code (state : string) : cell :=
  match state_abbr !! state with Some c => Str c | None => NaN end.

(** The state map under the table (a timestamp is truthy, so the guard
    only asks for a selection and a common range). *)
Definition state_map (comparison_df : DataFrame) (states_selected : list string)
    (common : option (cell * cell)) (inp : Inputs) : App unit :=
  match states_selected, common with
  | _ :: _, Some (Ts common_start, Ts common_end) =>
      let* selected_year_state :=
        slider (ts_year common_start) (ts_year common_end) (ts_year common_start)
               (year_pick inp) in
      let df_year := df_year comparison_df selected_year_state in
      match state_map_data df_year states_selected with
      | [] => st (warning "No valid state data available for the selected year.")
      | data =>
          st (choropleth ("Unemployment Rate by State in " +:+ pretty selected_year_state)
                (state_code <$> data.*1) data.*2)
      end
  | _, _ => st (info "Please select a state to start data visualization.")
  end.

(** The state part of the sidebar: the common range and the window. *)
Definition sidebar (states_selected : list string) (inp : Inputs)
  : App (option (cell * cell) * option (Timestamp * Timestamp)) :=
  let* dates := all_state_dates states_selected in
  let* common := common_range dates in
  let* w := window common inp in
  ret (common, w).

Definition state_level (inp : Inputs) : App DataFrame :=
  let states_selected := states_selected (selected_state_options inp) in
  let* side := sidebar states_selected inp in
  let common := side.1 in
  let w := side.2 in
  let* us_df := us_df fred in
  let* comparison_df := comparison_df fred us_df states_selected in
  let comparison_df := apply_window comparison_df w in
  let* fig := fig comparison_df states_selected in
  let* _ := st (plotly_chart fig) in
  let* _ := st (dataframe comparison_df) in
  let* _ := st (download_button "Download CSV" comparison_df) in
  let* _ := state_map comparison_df states_selected common inp in
  ret comparison_df.

End Script.

End Dashboard3Cols.

(** ** The parish loader, the same text in both scripts *)

Module County.

(** [str.strip()].  A [str] is held as its UTF-8 bytes.  Python strips the
    characters of [str.isspace]: U+0009 to U+000D, U+001C to U+0020,
    U+0085, U+00A0, U+1680, U+2000 to U+200A, U+2028, U+2029, U+202F,
    U+205F and U+3000.  [is_space] is the test on those of one byte,
    [is_space2] and [is_space3] on the encodings of two and of three
    bytes. *)
Definition is_space (a : Ascii.ascii) : bool :=
  let n := Ascii.nat_of_ascii a in
  ((9 <=? n) && (n <=? 13)) || ((28 <=? n) && (n <=? 32)).

Definition is_space2 (a b : Ascii.ascii) : bool :=
  let m := Ascii.nat_of_ascii a in
  let n := Ascii.nat_of_ascii b in
  (m =? 194) && ((n =? 133) || (n =? 160)).

Definition is_space3 (a b c : Ascii.ascii) : bool :=
  let l := Ascii.nat_of_ascii a in
  let m := Ascii.nat_of_ascii b in
  let n := Ascii.nat_of_ascii c in
  ((l =? 225) && (m =? 154) && (n =? 128))
  || ((l =? 226) && (m =? 128)
      && (((128 <=? n) && (n <=? 138)) || (n =? 168) || (n =? 169) || (n =? 175)))
  || ((l =? 226) && (m =? 129) && (n =? 159))
  || ((l =? 227) && (m =? 128) && (n =? 128)).

Fixpoint lstrip (s : string) : string :=
  match s with
  | String a s1 =>
      if is_space a then lstrip s1
      else
        match s1 with
        | String b s2 =>
            if is_space2 a b then lstrip s2
            else
              match s2 with
              | String c s3 => if is_space3 a b c then lstrip s3 else s
              | EmptyString => s
              end
        | EmptyString => s
        end
  | EmptyString => EmptyString
  end.

(** [rstrip] on the reversed bytes: the last byte of a character comes
    first. *)
Fixpoint rstrip_reversed (s : string) : string :=
  match s with
  | String c s1 =>
      if is_space c then rstrip_reversed s1
      else
        match s1 with
        | String b s2 =>
            if is_space2 b c then rstrip_reversed s2
            else
              match s2 with
              | String a s3 => if is_space3 a b c then rstrip_reversed s3 else s
              | EmptyString => s
              end
        | EmptyString => s
        end
  | EmptyString => EmptyString
  end.

Definition rstrip (s : string) : string := String.rev (rstrip_reversed (String.rev s)).

Definition strip (s : string) : string := rstrip (lstrip s).

(** The dict [LA_PARISH_FIPS]. *)
Definition LA_PARISH_FIPS : gmap string string := list_to_map
  [ ("Acadia", "22001"); ("Allen", "22003"); ("Ascension", "22005"); ("Assumption", "22007");
    ("Avoyelles", "22009"); ("Beauregard", "22011"); ("Bienville", "22013"); ("Bossier", "22015");
    ("Caddo", "22017"); ("Calcasieu", "22019"); ("Caldwell", "22021"); ("Cameron", "22023");
    ("Catahoula", "22025"); ("Claiborne", "22027"); ("Concordia", "22029"); ("De Soto", "22031");
    ("East Baton Rouge", "22033"); ("East Carroll", "22035"); ("East Feliciana", "22037");
    ("Evangeline", "22039"); ("Franklin", "22041"); ("Grant", "22043"); ("Iberia", "22045");
    ("Iberville", "22047"); ("Jackson", "22049"); ("Jefferson", "22051"); ("Jefferson Davis", "22053");
    ("Lafayette", "22055"); ("Lafourche", "22057"); ("LaSalle", "22059"); ("Lincoln", "22061");
    ("Livingston", "22063"); ("Madison", "22065"); ("Morehouse", "22067"); ("Natchitoches", "22069");
    ("Orleans", "22071"); ("Ouachita", "22073"); ("Plaquemines", "22075"); ("Pointe Coupee", "22077");
    ("Rapides", "22079"); ("Red River", "22081"); ("Richland", "22083"); ("Sabine", "22085");
    ("St. Bernard", "22087"); ("St. Charles", "22089"); ("St. Helena", "22091"); ("St. James", "22093");
    ("St. John the Baptist", "22095"); ("St. Landry", "22097"); ("St. Martin", "22099");
    ("St. Mary", "22101"); ("St. Tammany", "22103"); ("Tangipahoa", "22105"); ("Tensas", "22107");
    ("Terrebonne", "22109"); ("Union", "22111"); ("Vermilion", "22113"); ("Vernon", "22115");
    ("Washington", "22117"); ("Webster", "22119"); ("West Baton Rouge", "22121");
    ("West Carroll", "22123"); ("West Feliciana", "22125"); ("Winn", "22127") ].

Arguments LA_PARISH_FIPS : simpl never.

(** A delimited file as [pd.read_csv] sees it: the header line and the
    records, a field being text, a number or missing.  A record is read
    against the header, field by field. *)
Record CsvFile := mkCsvFile {
  header : list string;
  records : list (list cell)
}.

(** [df[c] = f(row)] for every row: the label is appended when new. *)
Definition assign (df : DataFrame) (c : string) (f : gmap string cell → cell) : DataFrame :=
  mkDataFrame (if decide (c ∈ columns df) then columns df else columns df ++ [c])
              ((λ r, <[c := f r]> r) <$> rows df).

(** [series.str.strip()] on one entry: an entry that is not text reads
    missing. *)
Definition str_strip (c : cell) : cell :=
  match c with Str s => Str (strip s) | _ => NaN end.

(** Whether [.str] applies: the column holds text (a column without rows
    does, a column of numbers or of missing values only does not). *)
Definition has_str_accessor (s : list cell) : bool :=
  match s with
  | [] => true
  | _ => existsb (λ c, match c with Str _ => true | _ => false end) s
  end.

(** [series.map(d)] on one entry *)
Definition map_dict (d : gmap string string) (c : cell) : cell :=
  match c with
  | Str s => match d !! s with Some v => Str v | None => NaN end
  | _ => NaN
  end.

(** [df.dropna(subset=[c])] *)
Definition dropna_subset (df : DataFrame) (c : string) : DataFrame :=
  loc df (λ r, negb (isnull (at_ r c))).

(** [series.dt.year] as a column entry *)
Definition year_cell (c : cell) : cell :=
  match dt_year c with Some y => Num (inject_Z y) | None => NaN end.

Section Loader.

(** [pd.read_csv("merged_national_county_1990_2025.csv")]: the file, or the
    text of the exception. *)
Variable read_csv : string + CsvFile.

(** [pd.to_datetime(x, errors='coerce')] on one entry: the timestamp read,
    or [None] when the entry does not parse. *)
Variable to_datetime : cell → option Timestamp.

(** [pd.to_numeric(x, errors='coerce')] on one entry. *)
Variable to_numeric : cell → option Q.

Definition coerce_datetime (c : cell) : cell :=
  match to_datetime c with Some t => Ts t | None => NaN end.

(** The frame read, its labels stripped ([df.columns.str.strip()]).  A row
    maps each label to its entry, which is the frame pandas holds when the
    stripped labels are distinct ([distinct_labels] below); with a repeated
    label pandas keeps both columns and [df[label]] is a frame. *)
Definition read_frame (csv : CsvFile) : DataFrame :=
  let labels := strip <$> header csv in
  mkDataFrame labels ((λ rec, list_to_map (zip labels rec)) <$> records csv).

(** Step 3 of the loader: the [year] column, from "Date" or from "year". *)
Definition derive_year (df : DataFrame) : App (option DataFrame) :=
  if decide ("Date" ∈ columns df) then
    let df := assign df "Date" (λ r, coerce_datetime (at_ r "Date")) in
    if forallb isnull (col df "Date") then
      let* _ := st (error "The 'Date' column exists but none of the dates could be parsed.") in
      ret None
    else ret (Some (assign df "year" (λ r, year_cell (at_ r "Date"))))
  else if decide ("year" ∈ columns df) then
    ret (Some (assign df "year" (λ r, num (to_numeric (at_ r "year")))))
  else
    let* _ := st (error "The county data must contain either a 'Date' or 'year' column.") in
    ret None.

(** The frame after the "Parish" entries are stripped and the rate column
    is renamed. *)
Definition prepared (df : DataFrame) : DataFrame :=
  let df := assign df "Parish" (λ r, str_strip (at_ r "Parish")) in
  if decide ("Unemployment rate" ∈ columns df)
  then rename df "Unemployment rate" "Unemployment Rate" else df.

(** The last step of the loader, from the frame with its [year]. *)
Definition with_fips (df : DataFrame) : DataFrame :=
  dropna_subset (assign df "fips" (λ r, map_dict LA_PARISH_FIPS (at_ r "Parish"))) "fips".

(** The code the catalog gives to the parish of a row as read. *)
Definition parish_code (r : gmap string cell) : cell :=
  map_dict LA_PARISH_FIPS (str_strip (at_ r "Parish")).

Definition load_county_data : App DataFrame :=
  match read_csv with
  | inl e =>
      let* _ := st (error ("Failed to load county data: " +:+ e)) in
      ret empty_frame
  | inr csv =>
      let df := read_frame csv in
      if decide ("Parish" ∈ columns df) then
        if has_str_accessor (col df "Parish") then
          let df := assign df "Parish" (λ r, str_strip (at_ r "Parish")) in
          let df := if decide ("Unemployment rate" ∈ columns df)
                    then rename df "Unemployment rate" "Unemployment Rate" else df in
          let* dated := derive_year df in
          match dated with
          | None => ret empty_frame
          | Some df =>
              let df := assign df "fips" (λ r, map_dict LA_PARISH_FIPS (at_ r "Parish")) in
              ret (dropna_subset df "fips")
          end
        else raise AttributeError
      else
        let* _ := st (error "The county data must contain a 'Parish' column.") in
        ret empty_frame
  end.

End Loader.

End County.
Export County.

(** ** [economics_dashboard_3cols.py]: the parish section *)

Module CountyView3Cols.

Record Inputs := mkInputs {
  metric_index : nat;
  county_pick : option (list string);
  county_start_pick : option Timestamp;
  county_end_pick : option Timestamp;
  map_year_pick : option Z
}.

Definition metric_options : list string :=
  ["Unemployment Rate"; "Labor force size"; "Employment"; "Unemployment"].

(** [st.sidebar.selectbox(label, options, index=0)] *)
Definition selectbox (options : list string) (pick : nat) : string :=
  match options !! pick with
  | Some o => o
  | None => default "" (options !! 0%nat)
  end.

(** [st.sidebar.multiselect(label, options, default)]: every default must be
    an option; what is picked is a list of options. *)
Definition multiselect (options default_ : list string) (pick : option (list string))
  : App (list string) :=
  if forallb (λ d, bool_decide (d ∈ options)) default_ then
    match pick with
    | Some l => ret (List.filter (λ o, bool_decide (o ∈ options)) l)
    | None => ret default_
    end
  else raise StreamlitAPIException.

(** The text entries of a column. *)
Definition texts (s : list cell) : list string :=
  omap (λ c, match c with Str t => Some t | _ => None end) s.

(** [sorted(series.unique())] of a text column *)
Definition sorted_unique (s : list cell) : list string :=
  merge_sort String.le (remove_dups (texts s)).

(** [series.isin(values)] on one entry *)
Definition isin (c : cell) (values : list string) : bool :=
  match c with Str t => bool_decide (t ∈ values) | _ => false end.

(** [int(x)] of a float: truncation towards zero, an error on [NaN]. *)
Definition py_int (v : option Q) : outcome Z :=
  match v with
  | Some q => Done (Z.quot (Qnum q) (Z.pos (Qden q)))
  | None => Raised (ValueError "cannot convert float NaN to integer")
  end.

Section View.

Variable read_csv : string + CsvFile.
Variable to_datetime : cell → option Timestamp.
Variable to_numeric : cell → option Q.

(** [requests.get(url).json()]: [Some e] when it raises [e]. *)
Variable load_geojson : option string.

(** The time-series chart: one trace per selected parish. *)
Definition fig_line (filtered_line_df : DataFrame) (selected_parishes : list string)
    (selected_metric : string) : App (list Scatter) :=
  for_ selected_parishes [] (λ parish fig,
    let df_parish := loc filtered_line_df
                       (λ r, bool_decide (at_ r "Parish" = Str parish)) in
    if decide (selected_metric ∈ columns df_parish) then
      let* x := lift (getitem df_parish "Date") in
      let* y := lift (getitem df_parish selected_metric) in
      ret (fig ++ [mkScatter parish x y])
    else ret fig).

Definition county_view (inp : Inputs) : App unit :=
  let* county_df := load_county_data read_csv to_datetime to_numeric in
  if empty county_df then st (error "County-level data could not be loaded.")
  else
    let selected_metric := selectbox metric_options (metric_index inp) in
    let* parish := lift (getitem county_df "Parish") in
    let parishes := sorted_unique parish in
    let county_options := "Select All Parishes" :: parishes in
    let* selected_county_options :=
      multiselect county_options
        ["St. Tammany"; "Tangipahoa"; "Livingston"; "Washington"; "St. Helena"]
        (county_pick inp) in
    let selected_parishes :=
      if decide ("Select All Parishes" ∈ selected_county_options) then parishes
      else selected_county_options in
    let* date := lift (getitem county_df "Date") in
    let county_common_start := series_min date in
    let* date := lift (getitem county_df "Date") in
    let county_common_end := series_max date in
    let* county_start_date :=
      date_input county_common_start county_common_start county_common_end
                 (county_start_pick inp) in
    let* county_end_date :=
      date_input county_common_end county_common_start county_common_end
                 (county_end_pick inp) in
    let filtered_line_df :=
      loc county_df (λ r, isin (at_ r "Parish") selected_parishes
                          && cell_ge (at_ r "Date") county_start_date
                          && cell_le (at_ r "Date") county_end_date) in
    let* _ :=
      if empty filtered_line_df then st (warning "No data available for selected filters.")
      else
        let* fig := fig_line filtered_line_df selected_parishes selected_metric in
        let* _ := st (plotly_chart fig) in
        let* shown := lift (getitems filtered_line_df ["Date"; "Parish"; selected_metric]) in
        let* _ := st (dataframe shown) in
        st (download_button "Download CSV" filtered_line_df) in
    let* year := lift (getitem county_df "year") in
    let* min_year := lift (py_int (Qmin_list (numbers year))) in
    let* max_year := lift (py_int (Qmax_list (numbers year))) in
    let* selected_year := slider min_year max_year min_year (map_year_pick inp) in
    let filtered_map_df :=
      loc county_df (λ r, cell_eq_num (at_ r "year") (inject_Z selected_year)
                          && isin (at_ r "Parish") selected_parishes) in
    if empty filtered_map_df then st (warning "No parish data available for the selected year.")
    else
      match load_geojson with
      | Some e => raise (RequestException e)
      | None =>
          let* z := lift (getitem filtered_map_df selected_metric) in
          let* locations := lift (getitem filtered_map_df "fips") in
          st (choropleth (selected_metric +:+ " by Parish in " +:+ pretty selected_year)
                locations z)
      end.

End View.

End CountyView3Cols.

(** ** [economics_dashboard.py]: the state map under the table *)

Module DashboardMap.

(** [series == latest_date] on one entry of the "Date" column; a comparison
    with [NaT] is [False]. *)
Definition cell_eq_date (c latest_date : cell) : bool :=
  match c, latest_date with
  | Ts a, Ts b => bool_decide (a = b)
  | _, _ => false
  end.

(** The body of the [try]:
    [comparison_df.loc[comparison_df["Date"] == latest_date, state].values[0]],
    [None] when it raises (no such column, or no row of that date). *)
Definition latest_rate (comparison_df : DataFrame) (latest_date : cell) (state : string)
  : option cell :=
  if decide (state ∈ columns comparison_df) then
    head (col (loc comparison_df (λ r, cell_eq_date (at_ r "Date") latest_date)) state)
  else None.

(** The list [latest_values], an entry being the pair of its "State" and
    its "Rate"; a state whose [try] raises is passed over ([except:
    continue]). *)
Fixpoint latest_values (comparison_df : DataFrame) (latest_date : cell)
    (states_selected : list string) : list (string * cell) :=
  match states_selected with
  | [] => []
  | state :: rest =>
      match latest_rate comparison_df latest_date state with
      | Some latest_rate =>
          (state, Dashboard3Cols.py_round2 latest_rate)
            :: latest_values comparison_df latest_date rest
      | None => latest_values comparison_df latest_date rest
      end
  end.

(** [str.zfill(width)] of the digits of a number *)
Definition zfill (width : nat) (n : Z) : string :=
  let digits := pretty n in
  String.concat "" (replicate (width - String.length digits) "0") +:+ digits.

(** [f"{latest_date.date()}"] *)
Definition date_text (latest_date : cell) : string :=
  match latest_date with
  | Ts t => zfill 4 (ts_year t) +:+ "-" +:+ zfill 2 (ts_month t) +:+ "-" +:+ zfill 2 (ts_day t)
  | _ => "NaT"
  end.

(** The map section.  [pd.DataFrame(latest_values)] of an empty list has no
    column, so [map_df["State"]] raises. *)
Definition state_map (comparison_df : DataFrame) (states_selected : list string) : App unit :=
  match states_selected with
  | [] => st (info "Please select a state to start data visualization.")
  | _ :: _ =>
      let* date := lift (getitem comparison_df "Date") in
      let latest_date := series_max date in
      match latest_values comparison_df latest_date states_selected with
      | [] => raise (KeyError "State")
      | map_df =>
          st (choropleth ("Unemployment Rate by State – " +:+ date_text latest_date)
                (Dashboard3Cols.state_code <$> map_df.*1) map_df.*2)
      end
  end.

Section Script.

Variable fred : string → string + list (Timestamp * option Q).

(** The state-level part of the script, map included. *)
Definition state_section (inp : Dashboard.Inputs) : App unit :=
  let* comparison_df := Dashboard.state_level fred inp in
  state_map comparison_df (Dashboard.states_selected inp).

End Script.

End DashboardMap.

(** ** [economics_dashboard.py]: the parish section *)

Module CountyView.

Section View.

Variable read_csv : string + CsvFile.
Variable to_datetime : cell → option Timestamp.
Variable to_numeric : cell → option Q.

(** [requests.get(url).json()]: [Some e] when it raises [e]. *)
Variable load_geojson : option string.

Definition county_view (year_pick : option Z) : App unit :=
  let* county_df := load_county_data read_csv to_datetime to_numeric in
  if empty county_df then st (error "County-level data could not be loaded.")
  else
    let* year := lift (getitem county_df "year") in
    let* min_year_county := lift (CountyView3Cols.py_int (Qmin_list (numbers year))) in
    let* year := lift (getitem county_df "year") in
    let* max_year_county := lift (CountyView3Cols.py_int (Qmax_list (numbers year))) in
    let* selected_year_county :=
      slider min_year_county max_year_county min_year_county year_pick in
    let filtered_county_df :=
      loc county_df (λ r, cell_eq_num (at_ r "year") (inject_Z selected_year_county)) in
    if empty filtered_county_df
    then st (warning "No parish data available for the selected year.")
    else
      match load_geojson with
      | Some e => raise (RequestException e)
      | None =>
          let* z := lift (getitem filtered_county_df "Unemployment Rate") in
          let* locations := lift (getitem filtered_county_df "fips") in
          st (choropleth ("Unemployment Rate by Parish in " +:+ pretty selected_year_county)
                locations z)
      end.

End View.

End CountyView.

(** ** [economics_dashboard_3cols.py]: the boundaries kept by [load_geojson] *)

Module Geojson3Cols.

(** [[f for f in geojson["features"] if f["id"].startswith("22")]], a
    feature being given by its id. *)
Definition load_geojson_features (features : list string) : list string :=
  List.filter (String.prefix "22") features.

End Geojson3Cols.

(** ** Helpers of the statements *)

Module Statements.

(** The observation of a series at a date, as a left join on the date reads
    it: the value of the first observation of that date, missing when
    there is none. *)
Definition value_at (data : list (Timestamp * option Q)) (d : Timestamp) : cell :=
  match List.find (λ o, bool_decide (o.1 = d)) data with
  | Some o => num o.2
  | None => NaN
  end.

(** The options of the state multiselect of [economics_dashboard_3cols.py]. *)
Definition state_options : list string := "Select All States" :: Dashboard3Cols.states.

(** The rows of a frame have no entry under a label that is not a column. *)
Definition keys_in_columns (df : DataFrame) : Prop :=
  ∀ r c, r ∈ rows df → c ∉ columns df → r !! c = None.

(** A number with at most two decimals. *)
Definition hundredths (x : Q) : Prop := ∃ k : Z, (x == inject_Z k / 100)%Q.

(** The labels of the file are distinct once stripped and once the rate
    column is renamed.  A frame is held as rows that map labels to
    entries, which is what pandas has when no label is repeated; with a
    repeated label [df[label]] is a frame, not a column. *)
Definition distinct_labels (csv : CsvFile) : Prop :=
  NoDup ((λ c, if decide (c = "Unemployment rate") then "Unemployment Rate" else c)
           <$> columns (read_frame csv)).



End Statements.
Export Statements.

(** ** Sample data *)

Module Samples.

Definition month (y m : Z) : Timestamp := mkTimestamp y m 1.

(** A FRED that knows the national series and Texas, and fails on the
    rest. *)
Definition fred (series_id : string) : string + list (Timestamp * option Q) :=
  if String.eqb series_id "UNRATE" then
    inr [(month 2020 1, Some 5%Q); (month 2020 2, Some (26 # 5)%Q)]
  else if String.eqb series_id "TXUR" then
    inr [(month 2020 1, Some 4%Q)]
  else inl "Bad Request.  The series does not exist.".

(** A FRED whose Texas series starts before the national series and ends
    after it. *)
Definition fred_long (series_id : string) : string + list (Timestamp * option Q) :=
  if String.eqb series_id "UNRATE" then
    inr [(month 2020 1, Some 5%Q); (month 2020 2, Some (26 # 5)%Q)]
  else if String.eqb series_id "TXUR" then
    inr [(month 2019 1, Some 4%Q); (month 2020 1, Some 4%Q); (month 2021 1, Some 6%Q)]
  else inl "Bad Request.  The series does not exist.".

(** A comparison table with one Texas observation in 2020, 4.0625, and
    none in 2021. *)
Definition table : DataFrame :=
  mkDataFrame ["Date"; "United States"; "Texas"]
    [ {[ "Date" := Ts (month 2020 1); "United States" := Num 5; "Texas" := Num (65 # 16) ]};
      {[ "Date" := Ts (month 2021 1); "United States" := Num 6; "Texas" := NaN ]} ].

Definition digit (a : Ascii.ascii) : option Z := Z.of_nat <$> Ascii.is_nat a.

Fixpoint digits (s : string) (acc : Z) : option Z :=
  match s with
  | EmptyString => Some acc
  | String a s' =>
      match digit a with
      | Some d => digits s' (acc * 10 + d)%Z
      | None => None
      end
  end.

(** A reader of "YYYY-MM-DD", one of the formats [pd.to_datetime] reads. *)
Definition to_datetime (c : cell) : option Timestamp :=
  match c with
  | Str s =>
      if (String.length s =? 10)%nat
         && String.eqb (String.substring 4 1 s) "-" && String.eqb (String.substring 7 1 s) "-"
      then
        match digits (String.substring 0 4 s) 0, digits (String.substring 5 2 s) 0,
              digits (String.substring 8 2 s) 0 with
        | Some y, Some m, Some d =>
            if bool_decide (1 ≤ m ≤ 12)%Z && bool_decide (1 ≤ d ≤ 31)%Z
            then Some (mkTimestamp y m d) else None
        | _, _, _ => None
        end
      else None
  | _ => None
  end.

(** A reader of numbers and of unsigned integers in text. *)
Definition to_numeric (c : cell) : option Q :=
  match c with
  | Num q => Some q
  | Str (String a s) => inject_Z <$> digits (String a s) 0
  | _ => None
  end.

(** A parish file with a "Date" column: a good row, a row whose date does
    not parse, a row named "St.Tammany " and the statewide row. *)
Definition csv_dates : CsvFile :=
  mkCsvFile ["Parish"; "Date"; "Unemployment rate "]
    [ [Str "Acadia"; Str "2020-01-01"; Num 5];
      [Str "Allen "; Str "in January"; Num 6];
      [Str "St.Tammany "; Str "2020-01-01"; Num 4];
      [Str "St. Tammany "; Str "2020-02-01"; Num 4];
      [Str "Louisiana"; Str "2020-01-01"; Num 5] ].

(** A parish file with a "year" column and no "Date" column, holding the
    five parishes the parish multiselect shows by default. *)
Definition csv_years : CsvFile :=
  mkCsvFile ["Parish"; "year"; "Unemployment Rate"]
    [ [Str "St. Tammany"; Num 2020; Num 4];
      [Str "Tangipahoa"; Num 2020; Num 5];
      [Str "Livingston"; Num 2020; Num 4];
      [Str "Washington"; Num 2021; Num 6];
      [Str "St. Helena"; Num 2021; Num 7] ].

(** A parish file with a "Date" column and the five default parishes. *)
Definition csv_dates_full : CsvFile :=
  mkCsvFile ["Parish"; "Date"; "Unemployment Rate"]
    [ [Str "St. Tammany"; Str "2020-01-01"; Num 4];
      [Str "Tangipahoa"; Str "2020-01-01"; Num 5];
      [Str "Livingston"; Str "2020-02-01"; Num 4];
      [Str "Washington"; Str "2021-01-01"; Num 6];
      [Str "St. Helena"; Str "2021-01-01"; Num 7] ].

(** The same without Washington parish. *)
Definition csv_years_short : CsvFile :=
  mkCsvFile ["Parish"; "year"; "Unemployment Rate"]
    [ [Str "St. Tammany"; Num 2020; Num 4];
      [Str "Tangipahoa"; Num 2020; Num 5] ].

(** What the loader returns for [csv_dates]. *)
Definition loaded_dates : DataFrame :=
  match load_county_data (inr csv_dates) to_datetime to_numeric [] with
  | (Done df, _) => df
  | (Raised _, _) => empty_frame
  end.

(** What the loader returns for [csv_years]. *)
Definition loaded_years : DataFrame :=
  match load_county_data (inr csv_years) to_datetime to_numeric [] with
  | (Done df, _) => df
  | (Raised _, _) => empty_frame
  end.

(** What the loader returns for [csv_dates_full]. *)
Definition loaded_dates_full : DataFrame :=
  match load_county_data (inr csv_dates_full) to_datetime to_numeric [] with
  | (Done df, _) => df
  | (Raised _, _) => empty_frame
  end.

(** A comparison table of values with one decimal, as FRED publishes
    them: the Texas values of 2020 are 4.1, 4.2 and 4.2. *)
Definition table_published : DataFrame :=
  mkDataFrame ["Date"; "United States"; "Texas"]
    [ {[ "Date" := Ts (month 2020 1); "United States" := Num 5; "Texas" := Num (41 # 10) ]};
      {[ "Date" := Ts (month 2020 2); "United States" := Num 5; "Texas" := Num (42 # 10) ]};
      {[ "Date" := Ts (month 2020 3); "United States" := Num 5; "Texas" := Num (42 # 10) ]} ].

(** A parish file whose "Parish" column holds numbers. *)
Definition csv_numbered : CsvFile :=
  mkCsvFile ["Parish"; "Date"; "Unemployment Rate"]
    [ [Num 1; Str "2020-01-01"; Num 5];
      [Num 2; Str "2020-01-01"; Num 6] ].

(** A parish file that holds the statewide row only. *)
Definition csv_state_rows : CsvFile :=
  mkCsvFile ["Parish"; "Date"; "Unemployment Rate"]
    [ [Str "Louisiana"; Str "2020-01-01"; Num 5] ].

(** A parish file whose only readable date is in the statewide row. *)
Definition csv_undated : CsvFile :=
  mkCsvFile ["Parish"; "Date"; "Unemployment Rate"]
    [ [Str "Louisiana"; Str "2020-01-01"; Num 5];
      [Str "Acadia"; Str "in January"; Num 6] ].

End Samples.

(** * Properties *)

(** ** Frames and the left join *)

Section FrameFacts.

Implicit Types (r l : gmap string cell) (df : DataFrame).

#[global] Instance Ts_inj : Inj (=) (=) Ts.
Proof. by intros a b [= ->]. Qed.

Lemma at_union_same_date l r :
  at_ r "Date" = at_ l "Date" → at_ (l ∪ r) "Date" = at_ l "Date".
Proof.
  unfold at_. rewrite lookup_union.
  destruct (l !! "Date"), (r !! "Date"); simpl; congruence.
Qed.

Lemma at_rename_row_other old new r c :
  c ≠ old → c ≠ new → at_ (rename_row old new r) c = at_ r c.
Proof.
  intros Ho Hn. unfold at_, rename_row.
  destruct (r !! old); [|done].
  by rewrite lookup_insert_ne, lookup_delete_ne.
Qed.

(** Among rows with distinct dates at most one has a given date. *)
Lemma filter_distinct_dates (right : list (gmap string cell)) (d : cell) :
  NoDup ((λ r, at_ r "Date") <$> right) →
  List.filter (λ r, bool_decide (at_ r "Date" = d)) right = []
  ∨ ∃ r, List.filter (λ r, bool_decide (at_ r "Date" = d)) right = [r]
         ∧ at_ r "Date" = d.
Proof.
  induction right as [|r right IH]; simpl; [by left|].
  intros [Hr Hnd]%NoDup_cons. case_bool_decide as Hd.
  - right. exists r. split; [|done]. f_equal.
    destruct (IH Hnd) as [->|(r' & Hf & Hr')]; [done|].
    exfalso. apply Hr. rewrite Hd, <- Hr'.
    apply list_elem_of_fmap. exists r'. split; [done|].
    apply list_elem_of_In.
    eapply (proj1 (filter_In _ r' right)). rewrite Hf. by left.
  - by apply IH.
Qed.

Lemma merge_row_dates right l :
  NoDup ((λ r, at_ r "Date") <$> right) →
  (λ r, at_ r "Date") <$> merge_row right l = [at_ l "Date"].
Proof.
  intros Hnd. unfold merge_row.
  destruct (filter_distinct_dates right (at_ l "Date") Hnd) as [->|(r & -> & Hr)];
    [done|].
  simpl. by rewrite at_union_same_date.
Qed.

(** A left join on a right side with distinct dates keeps the date column
    of the left side: no row is lost, none is added. *)
Lemma merge_left_dates left right :
  NoDup (col right "Date") →
  col (merge_left_on_Date left right) "Date" = col left "Date".
Proof.
  unfold col. simpl. intros Hnd.
  induction (rows left) as [|l ls IH]; [done|].
  simpl. rewrite fmap_app, IH. by rewrite (merge_row_dates _ _ Hnd).
Qed.

Lemma merge_left_columns left right :
  columns (merge_left_on_Date left right)
  = columns left ++ List.filter (λ c, negb (String.eqb c "Date")) (columns right).
Proof. done. Qed.

(** With two right rows of one date the left row is doubled. *)
Example merge_left_duplicate_date :
  let l := {[ "Date" := Ts (mkTimestamp 2020 1 1); "United States" := Num 5 ]} in
  let r v := {[ "Date" := Ts (mkTimestamp 2020 1 1); "Texas" := Num v ]} in
  length (rows (merge_left_on_Date
                  (mkDataFrame ["Date"; "United States"] [l])
                  (mkDataFrame ["Date"; "Texas"] [r 4%Q; r 3%Q]))) = 2%nat.
Proof. reflexivity. Qed.

Lemma col_loc_date df (p : cell → bool) :
  col (loc df (λ r, p (at_ r "Date"))) "Date" = List.filter p (col df "Date").
Proof.
  unfold col, loc. cbn [rows]. induction (rows df) as [|r rs IH]; [done|].
  cbn [List.filter]. rewrite fmap_cons. cbn [List.filter].
  destruct (p (at_ r "Date")); rewrite ?fmap_cons; by rewrite IH.
Qed.

Lemma filter_Ts (q : cell → bool) (p : Timestamp → bool) (ds : list Timestamp) :
  (∀ d, q (Ts d) = p d) →
  List.filter q (Ts <$> ds) = Ts <$> List.filter p ds.
Proof.
  intros Hq. induction ds as [|d ds IH]; [done|].
  rewrite fmap_cons. cbn [List.filter]. rewrite Hq.
  destruct (p d); rewrite ?fmap_cons; by rewrite IH.
Qed.

End FrameFacts.

(** ** The fetcher and the merge loop *)

Section FetchFacts.

Variable fred : string → string + list (Timestamp * option Q).

(** [get_series] always returns: the frame fetched, the page extended by what
    it reports. *)
Lemma get_series_run series_id page :
  get_series fred series_id page
  = (Done (fetched fred series_id), page ++ reported fred series_id).
Proof.
  unfold get_series, fetched, reported.
  destruct (fred series_id) as [e|data]; [done|].
  unfold ret. by rewrite app_nil_r.
Qed.

Lemma empty_fetched_inl series_id e :
  fred series_id = inl e → empty (fetched fred series_id) = true.
Proof. unfold fetched. by intros ->. Qed.

Lemma selectable_not_reserved state :
  is_Some (STATE_SERIES_IDS !! state) →
  state ≠ "Date" ∧ state ≠ "United States" ∧ state ≠ "Unemployment Rate".
Proof.
  intros Hs. repeat split; intros ->; by apply is_Some_None in Hs.
Qed.

(** The rows of a fetched series under the label of its state: the dates
    and the values of the series. *)
Lemma col_renamed_series_date data state :
  state ≠ "Date" →
  col (rename (series_frame data) "Unemployment Rate" state) "Date" = Ts <$> data.*1.
Proof.
  intros Hs. unfold col, rename, series_frame. cbn [rows].
  rewrite <- !list_fmap_compose. apply list_fmap_ext. intros _ [d v] _. simpl.
  rewrite at_rename_row_other by done. done.
Qed.

Lemma col_us_backbone us :
  ∃ backbone,
    getitems (rename (series_frame us) "Unemployment Rate" "United States")
             ["Date"; "United States"] = Done backbone
    ∧ columns backbone = ["Date"; "United States"]
    ∧ col backbone "Date" = Ts <$> us.*1
    ∧ col backbone "United States" = num <$> us.*2.
Proof.
  exists (mkDataFrame ["Date"; "United States"]
            ((λ r, filter (λ kv, kv.1 ∈ ["Date"; "United States"]) r)
               <$> rows (rename (series_frame us) "Unemployment Rate" "United States"))).
  split; [reflexivity|]. split; [done|].
  unfold col, rename, series_frame. cbn [rows]. rewrite <- !list_fmap_compose.
  split; apply list_fmap_ext; intros _ [d v] _; reflexivity.
Qed.

(** The merge loop never raises on a selection the widget can return; its
    value and its reports are those of [merge_state] and [state_reports]. *)
Lemma merge_loop_run states_selected : ∀ backbone page,
  Forall (λ s, is_Some (STATE_SERIES_IDS !! s)) states_selected →
  for_ states_selected backbone (λ state comparison_df,
    let* series_id := lift (dict_getitem STATE_SERIES_IDS state) in
    let* state_data := get_series fred series_id in
    if empty state_data then ret comparison_df
    else ret (merge_left_on_Date comparison_df
                (rename state_data "Unemployment Rate" state))) page
  = (Done (foldl (merge_state fred) backbone states_selected),
     page ++ state_reports fred states_selected).
Proof.
  induction states_selected as [|s states IH]; intros backbone page Hsel.
  - unfold state_reports. simpl. unfold ret. by rewrite app_nil_r.
  - apply Forall_cons in Hsel as [[series_id Hid] Hsel].
    cbn [for_ foldl]. unfold bind at 1. unfold bind at 1. unfold lift, dict_getitem.
    rewrite Hid. unfold bind at 1. rewrite get_series_run.
    unfold merge_state at 2. rewrite Hid.
    unfold state_reports. rewrite fmap_cons. cbn [concat]. rewrite Hid.
    rewrite app_assoc.
    destruct (empty (fetched fred series_id)); unfold ret; by rewrite IH.
Qed.

End FetchFacts.

(** ** The date backbone of the comparison table *)

Section Backbone.

Variable fred : string → string + list (Timestamp * option Q).

Lemma merged_dates states_selected : ∀ backbone,
  distinct_dates fred →
  Forall (λ s, is_Some (STATE_SERIES_IDS !! s)) states_selected →
  col (foldl (merge_state fred) backbone states_selected) "Date" = col backbone "Date".
Proof.
  intros backbone Hdd Hsel. revert backbone. unfold distinct_dates in Hdd.
  induction Hsel as [|s states [series_id Hid] Hsel IH]; intros backbone; [done|].
  cbn [foldl]. rewrite IH. unfold merge_state. rewrite Hid.
  destruct (empty (fetched fred series_id)) eqn:He; [done|].
  apply merge_left_dates.
  unfold fetched in *. destruct (fred series_id) as [e|data] eqn:Hf; [done|].
  rewrite col_renamed_series_date.
  - apply (NoDup_fmap_2 _). by eapply Hdd.
  - by apply selectable_not_reserved.
Qed.

Lemma build_comparison_run us states_selected page :
  fred "UNRATE" = inr us →
  Forall (λ s, is_Some (STATE_SERIES_IDS !! s)) states_selected →
  ∃ backbone,
    columns backbone = ["Date"; "United States"]
    ∧ col backbone "Date" = Ts <$> us.*1
    ∧ col backbone "United States" = num <$> us.*2
    ∧ build_comparison fred states_selected page
      = (Done (foldl (merge_state fred) backbone states_selected),
         page ++ state_reports fred states_selected).
Proof.
  intros Hus Hsel.
  destruct (col_us_backbone us) as (backbone & Hget & Hcols & Hdate & Hval).
  exists backbone. repeat split; [done..|].
  unfold build_comparison, us_df. unfold bind at 1. unfold bind at 1.
  rewrite get_series_run. unfold fetched, reported. rewrite Hus.
  unfold ret at 1. unfold comparison_df. unfold bind at 1. unfold lift at 1.
  rewrite Hget, app_nil_r. by apply merge_loop_run.
Qed.

End Backbone.

(** C1.  With the national series fetched and every series of FRED an
    observation series (distinct dates), the comparison table is built for
    every selection the widget can return, and after the window filter its
    date column is the date column of the national series restricted to
    the window: the left joins remove no date row and add none. *)
Theorem comparison_dates_are_national_dates
    (fred : string → string + list (Timestamp * option Q))
    (us : list (Timestamp * option Q)) (states_selected : list string)
    (start_date end_date : Timestamp) (page : list element) :
  fred "UNRATE" = inr us →
  selectable states_selected →
  distinct_dates fred →
  ∃ comparison_df page',
    build_comparison fred states_selected page = (Done comparison_df, page')
    ∧ col (loc comparison_df (mask start_date end_date)) "Date"
      = Ts <$> List.filter (λ d, bool_decide (ts_le start_date d)
                                 && bool_decide (ts_le d end_date)) us.*1.
Proof.
  intros Hus [_ Hsel] Hdd.
  destruct (build_comparison_run fred us states_selected page Hus Hsel)
    as (backbone & _ & Hdate & _ & Hrun).
  eexists _, _. split; [exact Hrun|].
  change (mask start_date end_date)
    with (λ r, (λ c, cell_ge c start_date && cell_le c end_date) (at_ r "Date")).
  rewrite col_loc_date, merged_dates, Hdate by done.
  by apply filter_Ts.
Qed.

Lemma samples_fred_distinct_dates : distinct_dates Samples.fred.
Proof.
  intros series_id data. unfold Samples.fred.
  destruct (String.eqb series_id "UNRATE");
    [|destruct (String.eqb series_id "TXUR")]; intros [= <-];
    apply (bool_decide_unpack _); by vm_compute.
Qed.

Lemma samples_selectable : selectable ["Texas"; "Louisiana"].
Proof.
  split.
  - apply (bool_decide_unpack _). by vm_compute.
  - repeat constructor; by eexists.
Qed.

Lemma comparison_dates_are_national_dates_witness :
  ∃ comparison_df page',
    build_comparison Samples.fred ["Texas"; "Louisiana"] [] = (Done comparison_df, page')
    ∧ col (loc comparison_df (mask (Samples.month 2020 2) (Samples.month 2020 3))) "Date"
      = [Ts (Samples.month 2020 2)].
Proof.
  apply (comparison_dates_are_national_dates Samples.fred
           [(Samples.month 2020 1, Some 5%Q); (Samples.month 2020 2, Some (26 # 5)%Q)]
           ["Texas"; "Louisiana"] (Samples.month 2020 2) (Samples.month 2020 3) []).
  - reflexivity.
  - exact samples_selectable.
  - exact samples_fred_distinct_dates.
Defined.

(** ** A region whose fetch fails *)

Section FailedFetch.

Variable fred : string → string + list (Timestamp * option Q).

Lemma columns_renamed_series data state :
  columns (rename (series_frame data) "Unemployment Rate" state) = ["Date"; state].
Proof. done. Qed.

(** The labels of the merged table: the backbone's, then the selected
    states whose fetch brought rows, in the order of the selection. *)
Lemma merged_columns states_selected : ∀ backbone,
  Forall (λ s, is_Some (STATE_SERIES_IDS !! s)) states_selected →
  columns (foldl (merge_state fred) backbone states_selected)
  = columns backbone ++ List.filter (has_data fred) states_selected.
Proof.
  intros backbone Hsel. revert backbone.
  induction Hsel as [|s states Hs Hsel IH]; intros backbone.
  - simpl. by rewrite app_nil_r.
  - cbn [foldl List.filter]. rewrite IH.
    destruct (selectable_not_reserved s Hs) as (Hdate & _).
    destruct Hs as [series_id Hid].
    unfold merge_state, has_data. rewrite Hid.
    destruct (empty (fetched fred series_id)) eqn:He; [done|].
    cbn [negb]. unfold fetched in *. destruct (fred series_id) as [e|data]; [done|].
    rewrite merge_left_columns, columns_renamed_series. cbn [List.filter].
    apply String.eqb_neq in Hdate. rewrite Hdate. cbn [negb].
    by rewrite <- app_assoc.
Qed.

Lemma failed_fetch_reported states_selected state series_id e :
  state ∈ states_selected →
  STATE_SERIES_IDS !! state = Some series_id →
  fred series_id = inl e →
  error ("Failed to fetch data for series " +:+ series_id +:+ ": " +:+ e)
    ∈ state_reports fred states_selected.
Proof.
  intros Hin Hid He. unfold state_reports.
  apply list_elem_of_In, in_concat.
  exists (reported fred series_id). split.
  - apply list_elem_of_In, list_elem_of_fmap. exists state. by rewrite Hid.
  - unfold reported. rewrite He. by left.
Qed.

End FailedFetch.

(** C2, as the code has it.  When the fetch of a selected region fails,
    [get_series] reports the failure and returns the empty frame without
    raising, and the merge loop still completes; the loop skips the
    region, so the table has no column under its name. *)
Theorem failed_fetch_is_skipped
    (fred : string → string + list (Timestamp * option Q))
    (us : list (Timestamp * option Q)) (states_selected : list string)
    (state series_id e : string) (page : list element) :
  fred "UNRATE" = inr us →
  selectable states_selected →
  state ∈ states_selected →
  STATE_SERIES_IDS !! state = Some series_id →
  fred series_id = inl e →
  get_series fred series_id page
    = (Done empty_frame,
       page ++ [error ("Failed to fetch data for series " +:+ series_id +:+ ": " +:+ e)])
  ∧ ∃ comparison_df page',
      build_comparison fred states_selected page = (Done comparison_df, page')
      ∧ (error ("Failed to fetch data for series " +:+ series_id +:+ ": " +:+ e) ∈ page')
      ∧ (state ∉ columns comparison_df).
Proof.
  intros Hus [_ Hsel] Hin Hid He. split.
  - rewrite get_series_run. unfold fetched, reported. by rewrite He.
  - destruct (build_comparison_run fred us states_selected page Hus Hsel)
      as (backbone & Hcols & _ & _ & Hrun).
    assert (Hnot : state ∉ columns (foldl (merge_state fred) backbone states_selected)).
    { rewrite merged_columns, Hcols by done.
      destruct (selectable_not_reserved state) as (Hd & Hu & _); [by rewrite Hid|].
      intros [Hb|Hf%list_elem_of_In%filter_In]%elem_of_app.
      - rewrite !elem_of_cons, elem_of_nil in Hb. by destruct Hb as [?|[?|[]]].
      - destruct Hf as [_ Hf]. unfold has_data in Hf. rewrite Hid in Hf.
        by rewrite (empty_fetched_inl fred series_id e He) in Hf. }
    eexists _, _. split; [exact Hrun|]. split; [|done].
    apply elem_of_app. right. by eapply failed_fetch_reported.
Qed.

Lemma failed_fetch_is_skipped_witness :
  get_series Samples.fred "LAUR" []
    = (Done empty_frame,
       [error "Failed to fetch data for series LAUR: Bad Request.  The series does not exist."])
  ∧ ∃ comparison_df page',
      build_comparison Samples.fred ["Texas"; "Louisiana"] [] = (Done comparison_df, page')
      ∧ (error "Failed to fetch data for series LAUR: Bad Request.  The series does not exist."
          ∈ page')
      ∧ ("Louisiana" ∉ columns comparison_df).
Proof.
  apply (failed_fetch_is_skipped Samples.fred
           [(Samples.month 2020 1, Some 5%Q); (Samples.month 2020 2, Some (26 # 5)%Q)]
           ["Texas"; "Louisiana"] "Louisiana" "LAUR"
           "Bad Request.  The series does not exist." []).
  - reflexivity.
  - exact samples_selectable.
  - set_solver.
  - reflexivity.
  - reflexivity.
Defined.

(** C2 as stated fails: with the fetch of Louisiana failing, the table has
    no Louisiana column at all (so no all-null one), and both scripts stop
    on a [KeyError] before the chart is drawn. *)
Lemma failed_fetch_no_null_column_and_abort :
  (∃ e, Samples.fred "LAUR" = inl e)
  ∧ (∃ comparison_df page',
       build_comparison Samples.fred ["Texas"; "Louisiana"] [] = (Done comparison_df, page')
       ∧ columns comparison_df = ["Date"; "United States"; "Texas"])
  ∧ (Dashboard.state_level Samples.fred
       (Dashboard.mkInputs ["Texas"; "Louisiana"] None None) []).1
    = Raised (KeyError "Date")
  ∧ (Dashboard3Cols.state_level Samples.fred
       (Dashboard3Cols.mkInputs ["Texas"; "Louisiana"] None None None) []).1
    = Raised (KeyError "Louisiana").
Proof.
  split; [by eexists|]. split; [|split]; [|by vm_compute..].
  eexists _, _. split; [by vm_compute|]. by vm_compute.
Qed.

(** ** Means, rounding and the yearly map data *)

Section Rounding.

Open Scope Q_scope.



Lemma Qsum_bounds (xs : list Q) (lo hi : Q) :
  Forall (λ x, lo <= x <= hi) xs →
  lo * inject_Z (Z.of_nat (length xs)) <= Dashboard3Cols.Qsum xs
    <= hi * inject_Z (Z.of_nat (length xs)).
Proof.
  induction 1 as [|x xs Hx _ IH].
  - change (inject_Z (Z.of_nat (length (@nil Q)))) with 0.
    change (Dashboard3Cols.Qsum []) with 0. lra.
  - cbn [length].
    change (Dashboard3Cols.Qsum (x :: xs)) with (x + Dashboard3Cols.Qsum xs).
    rewrite Nat2Z.inj_succ, <- Z.add_1_r, inject_Z_plus.
    change (inject_Z 1) with 1. lra.
Qed.

(** The mean of a non-empty list lies within any bounds of its items. *)
Lemma Qmean_bounds (xs : list Q) (lo hi : Q) :
  xs ≠ [] →
  Forall (λ x, lo <= x <= hi) xs →
  lo <= Dashboard3Cols.Qmean xs <= hi.
Proof.
  intros Hne Hall. pose proof (Qsum_bounds xs lo hi Hall) as [Hlo Hhi].
  assert (0 < inject_Z (Z.of_nat (length xs))) as Hn.
  { destruct xs; [done|]. change 0 with (inject_Z 0). rewrite <- Zlt_Qlt. simpl. lia. }
  unfold Dashboard3Cols.Qmean. split.
  - by apply Qle_shift_div_l.
  - by apply Qle_shift_div_r.
Qed.

Lemma foldl_min_le (xs : list Q) : ∀ m,
  foldl (λ m y, if Qle_bool y m then y else m) m xs <= m
  ∧ Forall (λ x, foldl (λ m y, if Qle_bool y m then y else m) m xs <= x) xs.
Proof.
  induction xs as [|x xs IH]; intros m; cbn [foldl].
  - split; [lra|constructor].
  - destruct (Qle_bool x m) eqn:Hx.
    + apply Qle_bool_iff in Hx. destruct (IH x) as [H1 H2].
      split; [lra|]. by constructor.
    + assert (m < x) as Hlt.
      { apply Qnot_le_lt. intros H%Qle_bool_iff. congruence. }
      destruct (IH m) as [H1 H2]. split; [done|]. constructor; [lra|done].
Qed.

Lemma foldl_max_ge (xs : list Q) : ∀ m,
  m <= foldl (λ m y, if Qle_bool m y then y else m) m xs
  ∧ Forall (λ x, x <= foldl (λ m y, if Qle_bool m y then y else m) m xs) xs.
Proof.
  induction xs as [|x xs IH]; intros m; cbn [foldl].
  - split; [lra|constructor].
  - destruct (Qle_bool m x) eqn:Hx.
    + apply Qle_bool_iff in Hx. destruct (IH x) as [H1 H2].
      split; [lra|]. by constructor.
    + assert (x < m) as Hlt.
      { apply Qnot_le_lt. intros H%Qle_bool_iff. congruence. }
      destruct (IH m) as [H1 H2]. split; [done|]. constructor; [lra|done].
Qed.

(** [min()] and [max()] of a non-empty float column bound its numbers. *)
Lemma Qmin_max_bounds (xs : list Q) :
  xs ≠ [] →
  ∃ lo hi, Qmin_list xs = Some lo ∧ Qmax_list xs = Some hi
           ∧ Forall (λ x, lo <= x <= hi) xs.
Proof.
  destruct xs as [|x xs]; [done|]. intros _. eexists _, _.
  split; [reflexivity|]. split; [reflexivity|].
  destruct (foldl_min_le xs x) as [H1 H2]. destruct (foldl_max_ge xs x) as [H3 H4].
  constructor; [done|].
  apply Forall_forall. intros y Hy.
  rewrite Forall_forall in H2, H4. split; [by apply H2|by apply H4].
Qed.

End Rounding.

Section StateMap.

Import Dashboard3Cols.

Lemma df_year_rows df year r :
  r ∈ rows (df_year df year)
  ↔ r ∈ rows df ∧ ∃ t, at_ r "Date" = Ts t ∧ ts_year t = year.
Proof.
  unfold df_year, loc. cbn [rows].
  rewrite list_elem_of_In, filter_In, <- list_elem_of_In, bool_decide_eq_true.
  split; intros [Hr Hy]; (split; [done|]).
  - destruct (at_ r "Date") as [| | |t]; try done. exists t. split; [done|].
    by injection Hy.
  - destruct Hy as (t & -> & <-). done.
Qed.

Lemma float_columns_df_year df year states_selected :
  float_columns df states_selected → float_columns (df_year df year) states_selected.
Proof.
  intros Hf state r Hs [Hr _]%df_year_rows. by apply Hf.
Qed.

Lemma float_column_col df states_selected state :
  float_columns df states_selected → state ∈ states_selected →
  Forall (λ c, is_float c = true) (col df state).
Proof.
  intros Hf Hs. unfold col. apply Forall_fmap, Forall_forall. intros r Hr.
  by apply Hf.
Qed.

(** On a float column [dropna] leaves the numbers. *)
Lemma dropna_float (s : list cell) :
  Forall (λ c, is_float c = true) s → dropna s = Num <$> numbers s.
Proof.
  induction 1 as [|c s Hc _ IH]; [done|].
  unfold dropna, numbers in *. destruct c; try done; cbn; by rewrite IH.
Qed.

Lemma mean_float (s : list cell) :
  numbers s ≠ [] → mean s = Num (Qmean (numbers s)).
Proof. unfold mean. by destruct (numbers s). Qed.

(** The entries of [state_map_data], one by one. *)
Lemma state_map_data_entry dfy states_selected state c :
  (state, c) ∈ state_map_data dfy states_selected
  ↔ state ∈ states_selected ∧ state ∈ columns dfy ∧ dropna (col dfy state) ≠ []
    ∧ c = py_round2 (mean (col dfy state)).
Proof.
  induction states_selected as [|s states IH]; cbn [state_map_data].
  - split; [by intros ?%elem_of_nil|by intros [?%elem_of_nil _]].
  - destruct (bool_decide (s ∈ columns dfy)
              && negb (bool_decide (dropna (col dfy s) = []))) eqn:Hg.
    + apply andb_true_iff in Hg as [Hc%bool_decide_eq_true Hd%negb_true_iff%bool_decide_eq_false].
      rewrite !elem_of_cons, IH. split.
      * intros [[= -> ->]|(? & ? & ? & ?)]; naive_solver.
      * intros ([->|?] & ? & ? & ->); [by left|right; naive_solver].
    + rewrite IH, elem_of_cons. split; [naive_solver|].
      intros ([->|?] & Hc & Hd & ->); [|done]. exfalso.
      apply andb_false_iff in Hg as [Hg%bool_decide_eq_false|Hg%negb_false_iff%bool_decide_eq_true];
        done.
Qed.

End StateMap.

Lemma samples_table_published_float :
  Dashboard3Cols.float_columns Samples.table_published ["Texas"].
Proof.
  intros state r ->%list_elem_of_singleton Hr.
  unfold Samples.table_published in Hr. cbn [rows] in Hr.
  rewrite !elem_of_cons, elem_of_nil in Hr. by destruct Hr as [->|[->|[->|[]]]].
Qed.








(** ** The common date range and the window *)

Section Order.

Lemma ts_le_refl a : ts_le a a.
Proof. unfold ts_le. lia. Qed.

Lemma ts_le_trans a b c : ts_le a b → ts_le b c → ts_le a c.
Proof. unfold ts_le. lia. Qed.

Lemma ts_le_total a b : ts_le a b ∨ ts_le b a.
Proof. unfold ts_le. lia. Qed.

Lemma not_ts_lt a b : ¬ ts_lt a b → ts_le b a.
Proof.
  unfold ts_lt. intros H. destruct (decide (a = b)) as [->|Hne].
  - apply ts_le_refl.
  - destruct (ts_le_total a b); [|done]. exfalso. by apply H.
Qed.

(** The builtin [max] returns a timestamp only when it started from one, and
    that timestamp is not before any timestamp of the list. *)
Lemma foldl_py_max (xs : list cell) : ∀ (acc : cell) (m : Timestamp),
  foldl (λ m y, if py_gt y m then y else m) acc xs = Ts m →
  (∃ a, acc = Ts a ∧ ts_le a m) ∧ ∀ t, Ts t ∈ xs → ts_le t m.
Proof.
  induction xs as [|y ys IH]; intros acc m; cbn [foldl].
  - intros ->. split; [exists m; split; [done|apply ts_le_refl]|].
    by intros t ?%elem_of_nil.
  - intros [(a' & Ha' & Hle) Hys]%IH.
    destruct acc as [| | |a]; try (destruct y; discriminate Ha').
    destruct y as [| | |b]; cbn [py_gt] in Ha'.
    1-3: injection Ha' as <-; split; [by eexists|];
         intros t [[=]|Ht]%elem_of_cons; by apply Hys.
    case_bool_decide as Hlt; injection Ha' as <-.
    + destruct Hlt as [Hab _]. split; [exists a; split; [done|by eapply ts_le_trans]|].
      intros t [[= ->]|Ht]%elem_of_cons; [done|by apply Hys].
    + apply not_ts_lt in Hlt. split; [by eexists|].
      intros t [[= ->]|Ht]%elem_of_cons; [by eapply ts_le_trans|by apply Hys].
Qed.

Lemma foldl_py_min (xs : list cell) : ∀ (acc : cell) (m : Timestamp),
  foldl (λ m y, if py_lt y m then y else m) acc xs = Ts m →
  (∃ a, acc = Ts a ∧ ts_le m a) ∧ ∀ t, Ts t ∈ xs → ts_le m t.
Proof.
  induction xs as [|y ys IH]; intros acc m; cbn [foldl].
  - intros ->. split; [exists m; split; [done|apply ts_le_refl]|].
    by intros t ?%elem_of_nil.
  - intros [(a' & Ha' & Hle) Hys]%IH.
    destruct acc as [| | |a]; try (destruct y; discriminate Ha').
    destruct y as [| | |b]; cbn [py_lt] in Ha'.
    1-3: injection Ha' as <-; split; [by eexists|];
         intros t [[=]|Ht]%elem_of_cons; by apply Hys.
    case_bool_decide as Hlt; injection Ha' as <-.
    + destruct Hlt as [Hab _]. split; [exists a; split; [done|by eapply ts_le_trans]|].
      intros t [[= ->]|Ht]%elem_of_cons; [done|by apply Hys].
    + apply not_ts_lt in Hlt. split; [by eexists|].
      intros t [[= ->]|Ht]%elem_of_cons; [by eapply ts_le_trans|by apply Hys].
Qed.

Lemma py_max_bound (xs : list cell) (m : Timestamp) :
  py_max xs = Done (Ts m) → ∀ t, Ts t ∈ xs → ts_le t m.
Proof.
  destruct xs as [|x xs]; [done|]. cbn [py_max]. intros [= H].
  apply foldl_py_max in H as [(a & -> & Ha) Hxs].
  intros t [[= ->]|Ht]%elem_of_cons; [done|by apply Hxs].
Qed.

Lemma py_min_bound (xs : list cell) (m : Timestamp) :
  py_min xs = Done (Ts m) → ∀ t, Ts t ∈ xs → ts_le m t.
Proof.
  destruct xs as [|x xs]; [done|]. cbn [py_min]. intros [= H].
  apply foldl_py_min in H as [(a & -> & Ha) Hxs].
  intros t [[= ->]|Ht]%elem_of_cons; [done|by apply Hxs].
Qed.

(** What a date input returns lies between its bounds. *)
Lemma date_input_range value min_value max_value pick page d page' :
  date_input value min_value max_value pick page = (Done d, page') →
  ∃ lo hi, min_value = Ts lo ∧ max_value = Ts hi ∧ ts_le lo d ∧ ts_le d hi.
Proof.
  unfold date_input.
  destruct value as [| | |v]; try done.
  destruct min_value as [| | |lo]; try done.
  destruct max_value as [| | |hi]; try done.
  destruct (bool_decide (ts_le lo v) && bool_decide (ts_le v hi)) eqn:Hv; [|done].
  apply andb_true_iff in Hv as [H1%bool_decide_eq_true H2%bool_decide_eq_true].
  destruct pick as [p|].
  - destruct (bool_decide (ts_le lo p) && bool_decide (ts_le p hi)) eqn:Hp.
    + apply andb_true_iff in Hp as [H3%bool_decide_eq_true H4%bool_decide_eq_true].
      intros [= <- _]. by exists lo, hi.
    + intros [= <- _]. by exists lo, hi.
  - intros [= <- _]. by exists lo, hi.
Qed.

(** A window between the largest minimum and the smallest maximum of some
    date columns lies within the range of each of them. *)
Lemma within_common_range (dates : list (list cell)) cs ce (d : list cell) t :
  py_max (series_min <$> dates) = Done (Ts cs) →
  py_min (series_max <$> dates) = Done (Ts ce) →
  ts_le cs t → ts_le t ce → d ∈ dates → within d t.
Proof.
  intros Hmax Hmin Hs He Hd. split.
  - intros lo Hlo. eapply ts_le_trans; [|exact Hs].
    apply (py_max_bound _ _ Hmax). rewrite <- Hlo. by apply list_elem_of_fmap_2.
  - intros hi Hhi. eapply ts_le_trans; [exact He|].
    apply (py_min_bound _ _ Hmin). rewrite <- Hhi. by apply list_elem_of_fmap_2.
Qed.

End Order.

Section Monad.

Lemma bind_Done {A B} (m : App A) (k : A → App B) page b page' :
  bind m k page = (Done b, page') →
  ∃ a page1, m page = (Done a, page1) ∧ k a page1 = (Done b, page').
Proof. unfold bind. destruct (m page) as [[a|e] page1]; [eauto|done]. Qed.

Lemma lift_Done {A} (o : outcome A) page a page' :
  lift o page = (Done a, page') → o = Done a ∧ page' = page.
Proof. by intros [= -> ->]. Qed.

Lemma ret_Done {A} (x : A) page a page' :
  ret x page = (Done a, page') → a = x ∧ page' = page.
Proof. by intros [= -> ->]. Qed.

Lemma getitem_Done df c l : getitem df c = Done l → l = col df c ∧ c ∈ columns df.
Proof. unfold getitem. case_decide; [by intros [= <-]|done]. Qed.

Lemma dict_getitem_Done d k v : dict_getitem d k = Done v → d !! k = Some v.
Proof. unfold dict_getitem. by destruct (d !! k); intros [= ->]. Qed.

End Monad.

Section Window.

Variable fred : string → string + list (Timestamp * option Q).

(** The filter keeps the rows dated within the window, both ends included. *)
Lemma loc_mask_rows df start_date end_date r :
  r ∈ rows (loc df (mask start_date end_date))
  ↔ r ∈ rows df ∧ ∃ t, at_ r "Date" = Ts t ∧ ts_le start_date t ∧ ts_le t end_date.
Proof.
  unfold loc, mask, cell_ge, cell_le. cbn [rows].
  rewrite list_elem_of_In, filter_In, <- list_elem_of_In.
  split; intros [Hr Hm]; (split; [done|]).
  - destruct (at_ r "Date") as [| | |t]; try done.
    apply andb_true_iff in Hm as [H1%bool_decide_eq_true H2%bool_decide_eq_true].
    by exists t.
  - destruct Hm as (t & -> & H1 & H2).
    apply andb_true_iff. by rewrite !bool_decide_eq_true.
Qed.

(** [economics_dashboard.py]: the columns that enter the common range. *)
Lemma all_dates_Done us_df states_selected page dates page' :
  Dashboard.all_dates fred us_df states_selected page = (Done dates, page') →
  dates = col us_df "Date" :: (state_dates fred <$> states_selected).
Proof.
  unfold Dashboard.all_dates.
  intros (d & p1 & [Hd ->]%lift_Done & (ds & p2 & Hds & [-> _]%ret_Done)%bind_Done)%bind_Done.
  apply getitem_Done in Hd as [-> _]. f_equal.
  clear us_df. revert page ds p2 Hds.
  induction states_selected as [|s states IH]; intros page ds p2; cbn [comprehension].
  - by intros [-> _]%ret_Done.
  - intros (y & p3 & Hy & (ys & p4 & Hys & [-> _]%ret_Done)%bind_Done)%bind_Done.
    apply bind_Done in Hy as (series_id & p5 & [Hid ->]%lift_Done & Hy).
    apply bind_Done in Hy as (df & p6 & Hdf & [Hcol _]%lift_Done).
    rewrite get_series_run in Hdf. injection Hdf as <- <-.
    apply dict_getitem_Done in Hid. apply getitem_Done in Hcol as [-> _].
    rewrite fmap_cons. f_equal; [|by eapply IH].
    unfold state_dates. by rewrite Hid.
Qed.

Lemma dashboard_window_within us_df inp page s e page' :
  Dashboard.window fred us_df inp page = (Done (s, e), page') →
  ∀ d, d ∈ col us_df "Date" :: (state_dates fred <$> Dashboard.states_selected inp) →
       within d s ∧ within d e.
Proof.
  unfold Dashboard.window.
  intros (dates & p1 & Hdates & H)%bind_Done.
  apply bind_Done in H as (cs & p2 & [Hcs ->]%lift_Done & H).
  apply bind_Done in H as (ce & p3 & [Hce ->]%lift_Done & H).
  apply bind_Done in H as (sd & p4 & Hsd & H).
  apply bind_Done in H as (ed & p5 & Hed & [[= <- <-] _]%ret_Done).
  apply all_dates_Done in Hdates as ->.
  apply date_input_range in Hsd as (lo & hi & -> & -> & Hs1 & Hs2).
  apply date_input_range in Hed as (lo' & hi' & [= <-] & [= <-] & He1 & He2).
  intros d Hd. split; by eapply within_common_range.
Qed.

(** [economics_dashboard_3cols.py]: only the selected states whose fetch
    brought rows enter the common range. *)
Lemma all_state_dates_Done states_selected : ∀ page dates page',
  Dashboard3Cols.all_state_dates fred states_selected page = (Done dates, page') →
  dates = state_dates fred <$> List.filter (has_data fred) states_selected.
Proof.
  induction states_selected as [|s states IH]; intros page dates page';
    cbn [Dashboard3Cols.all_state_dates List.filter].
  - by intros [-> _]%ret_Done.
  - intros (series_id & p1 & [Hid ->]%lift_Done & H)%bind_Done.
    apply dict_getitem_Done in Hid.
    apply bind_Done in H as (df & p2 & Hdf & H).
    rewrite get_series_run in Hdf. injection Hdf as <- <-.
    unfold has_data at 1. rewrite Hid.
    destruct (empty (fetched fred series_id)) eqn:He; cbn [negb].
    + by eapply IH.
    + apply bind_Done in H as (series_id' & p3 & [Hid' ->]%lift_Done & H).
      apply dict_getitem_Done in Hid'. rewrite Hid in Hid'. injection Hid' as <-.
      apply bind_Done in H as (df' & p4 & Hdf' & H).
      rewrite get_series_run in Hdf'. injection Hdf' as <- <-.
      apply bind_Done in H as (d & p5 & [Hd ->]%lift_Done & H).
      apply getitem_Done in Hd as [-> _].
      apply bind_Done in H as (ds & p6 & Hds & [-> _]%ret_Done).
      rewrite fmap_cons. f_equal; [|by eapply IH].
      unfold state_dates. by rewrite Hid.
Qed.

Lemma sidebar_window_within states_selected inp page common w page' :
  Dashboard3Cols.sidebar fred states_selected inp page = (Done (common, w), page') →
  match w with
  | Some (s, e) =>
      ∀ state, state ∈ states_selected → has_data fred state = true →
               within (state_dates fred state) s ∧ within (state_dates fred state) e
  | None => ∀ state, state ∈ states_selected → has_data fred state = false
  end.
Proof.
  unfold Dashboard3Cols.sidebar.
  intros (dates & p1 & Hdates & H)%bind_Done.
  apply bind_Done in H as (common' & p2 & Hcommon & H).
  apply bind_Done in H as (w' & p3 & Hw & [[= <- <-] _]%ret_Done).
  apply all_state_dates_Done in Hdates.
  unfold Dashboard3Cols.common_range in Hcommon. destruct dates as [|d0 dates'].
  - apply ret_Done in Hcommon as [-> _]. cbn in Hw. apply ret_Done in Hw as [-> _].
    intros state Hs. destruct (has_data fred state) eqn:Hd; [|done]. exfalso.
    assert (state ∈ List.filter (has_data fred) states_selected) as Hin.
    { apply list_elem_of_In, filter_In. split; [by apply list_elem_of_In|done]. }
    destruct (List.filter (has_data fred) states_selected); [by apply elem_of_nil in Hin|done].
  - apply bind_Done in Hcommon as (cs & p4 & [Hcs ->]%lift_Done & Hcommon).
    apply bind_Done in Hcommon as (ce & p5 & [Hce ->]%lift_Done & [-> _]%ret_Done).
    cbn [Dashboard3Cols.window] in Hw.
    apply bind_Done in Hw as (sd & p6 & Hsd & Hw).
    apply bind_Done in Hw as (ed & p7 & Hed & [-> _]%ret_Done).
    apply date_input_range in Hsd as (lo & hi & -> & -> & Hs1 & Hs2).
    apply date_input_range in Hed as (lo' & hi' & [= <-] & [= <-] & He1 & He2).
    intros state Hs Hd.
    assert (state_dates fred state ∈ d0 :: dates') as Hin.
    { rewrite Hdates. apply list_elem_of_fmap_2.
      apply list_elem_of_In, filter_In. split; [by apply list_elem_of_In|done]. }
    split; by eapply within_common_range.
Qed.

End Window.

Lemma foldl_ts_min2_mono (ts : list Timestamp) : ∀ x y,
  ts_le x y → ts_le (foldl ts_min2 x ts) (foldl ts_min2 y ts).
Proof.
  induction ts as [|c ts IH]; intros x y Hxy; [done|]. cbn [foldl].
  apply IH. unfold ts_min2. repeat case_decide; unfold ts_le in *; lia.
Qed.

Lemma foldl_ts_max2_mono (ts : list Timestamp) : ∀ x y,
  ts_le x y → ts_le (foldl ts_max2 x ts) (foldl ts_max2 y ts).
Proof.
  induction ts as [|c ts IH]; intros x y Hxy; [done|]. cbn [foldl].
  apply IH. unfold ts_max2. repeat case_decide; unfold ts_le in *; lia.
Qed.

(** [min()] and [max()] of a datetime column bound its timestamps. *)
Lemma series_min_max_bound (s : list cell) (t : Timestamp) :
  Ts t ∈ s →
  ∃ lo hi, series_min s = Ts lo ∧ series_max s = Ts hi ∧ ts_le lo t ∧ ts_le t hi.
Proof.
  intros Hin.
  assert (t ∈ timestamps s) as Ht.
  { unfold timestamps. apply list_elem_of_omap. by exists (Ts t). }
  unfold series_min, series_max. destruct (timestamps s) as [|a ts]; [by apply elem_of_nil in Ht|].
  eexists _, _. split; [done|]. split; [done|].
  clear Hin. revert a Ht. induction ts as [|b ts IH]; intros a Ht; cbn [foldl].
  - apply list_elem_of_singleton in Ht as ->. split; apply ts_le_refl.
  - pose proof (foldl_ts_min2_mono ts) as Hlo. pose proof (foldl_ts_max2_mono ts) as Hhi.
    assert (Hmin : ts_le (ts_min2 a b) a ∧ ts_le (ts_min2 a b) b
                   ∧ ts_le a (ts_max2 a b) ∧ ts_le b (ts_max2 a b)).
    { unfold ts_min2, ts_max2. case_decide; unfold ts_le in *; lia. }
    destruct Hmin as (H1 & H2 & H3 & H4).
    apply elem_of_cons in Ht as [->|[->|Ht]%elem_of_cons].
    + destruct (IH a) as [I1 I2]; [by left|].
      split.
      * eapply ts_le_trans; [|exact I1]. by apply Hlo.
      * eapply ts_le_trans; [exact I2|]. by apply Hhi.
    + destruct (IH b) as [I1 I2]; [by left|].
      split.
      * eapply ts_le_trans; [|exact I1]. by apply Hlo.
      * eapply ts_le_trans; [exact I2|]. by apply Hhi.
    + destruct (IH a) as [I1 I2]; [by right|].
      split.
      * eapply ts_le_trans; [|exact I1]. by apply Hlo.
      * eapply ts_le_trans; [exact I2|]. by apply Hhi.
Qed.

(** C5, as the code has it.  In [economics_dashboard.py] a window the date
    inputs return lies within the range of the national series and of
    every selected series.  In [economics_dashboard_3cols.py] the bounds
    come from the selected states whose fetch brought rows, the national
    series left out: a window returned lies within the range of each of
    them, and without such a state there is no window and the table is
    left whole.  The filter keeps exactly the rows dated from the start to
    the end of the window, both included. *)
Theorem window_within_contributing_ranges
    (fred : string → string + list (Timestamp * option Q)) :
  (∀ us_df inp page s e page',
     Dashboard.window fred us_df inp page = (Done (s, e), page') →
     ∀ d, d ∈ col us_df "Date" :: (state_dates fred <$> Dashboard.states_selected inp) →
          within d s ∧ within d e)
  ∧ (∀ states_selected inp page common w page',
       Dashboard3Cols.sidebar fred states_selected inp page = (Done (common, w), page') →
       match w with
       | Some (s, e) =>
           ∀ state, state ∈ states_selected → has_data fred state = true →
                    within (state_dates fred state) s ∧ within (state_dates fred state) e
       | None => ∀ state, state ∈ states_selected → has_data fred state = false
       end)
  ∧ (∀ df start_date end_date r,
       r ∈ rows (loc df (mask start_date end_date))
       ↔ r ∈ rows df ∧ ∃ t, at_ r "Date" = Ts t ∧ ts_le start_date t ∧ ts_le t end_date)
  ∧ (∀ df, Dashboard3Cols.apply_window df None = df).
Proof.
  split; [|split; [|split]].
  - apply dashboard_window_within.
  - apply sidebar_window_within.
  - apply loc_mask_rows.
  - done.
Qed.

(** The theorem at work on the sample FRED: both sidebars return a window. *)
Lemma window_within_contributing_ranges_witness :
  (within (col (rename (fetched Samples.fred "UNRATE") "Unemployment Rate" "United States")
               "Date") (Samples.month 2020 1)
   ∧ within (state_dates Samples.fred "Texas") (Samples.month 2020 1))
  ∧ (within (state_dates Samples.fred_long "Texas") (Samples.month 2019 1)
     ∧ within (state_dates Samples.fred_long "Texas") (Samples.month 2020 6)).
Proof.
  split.
  - pose proof (proj1 (window_within_contributing_ranges Samples.fred)
             (rename (fetched Samples.fred "UNRATE") "Unemployment Rate" "United States")
             (Dashboard.mkInputs ["Texas"] None None) []
             (Samples.month 2020 1) (Samples.month 2020 1) [] eq_refl) as H.
    split.
    + apply (H _). by left.
    + apply (H _). right. by left.
  - apply (proj1 (proj2 (window_within_contributing_ranges Samples.fred_long))
             ["Texas"]
             (Dashboard3Cols.mkInputs ["Texas"] None (Some (Samples.month 2020 6)) None) []
             (Some (Ts (Samples.month 2019 1), Ts (Samples.month 2021 1)))
             (Some (Samples.month 2019 1, Samples.month 2020 6)) [] eq_refl "Texas").
    + by left.
    + reflexivity.
Defined.

(** C5 as stated fails: in [economics_dashboard_3cols.py] the national
    series does not enter the bounds.  With a Texas series from 2019 to
    2021 and a national series of 2020 only, the sidebar returns the window
    2019-01-01 to 2021-01-01, whose start is before the first national
    date, and the script goes on to its table. *)
Lemma window_outside_national_range :
  (∃ common page',
     Dashboard3Cols.sidebar Samples.fred_long ["Texas"]
       (Dashboard3Cols.mkInputs ["Texas"] None None None) []
     = (Done (common, Some (Samples.month 2019 1, Samples.month 2021 1)), page'))
  ∧ series_min (col (fetched Samples.fred_long "UNRATE") "Date") = Ts (Samples.month 2020 1)
  ∧ ¬ within (col (fetched Samples.fred_long "UNRATE") "Date") (Samples.month 2019 1)
  ∧ ∃ comparison_df,
      (Dashboard3Cols.state_level Samples.fred_long
         (Dashboard3Cols.mkInputs ["Texas"] None None None) []).1 = Done comparison_df
      ∧ col comparison_df "Date" = [Ts (Samples.month 2020 1); Ts (Samples.month 2020 2)].
Proof.
  split; [by eexists _, _|]. split; [reflexivity|]. split.
  - intros [H _]. specialize (H _ eq_refl). vm_compute in H.
    destruct H as [H|[H _]]; [done|discriminate H].
  - eexists. split; by vm_compute.
Qed.

(** ** What the fetcher returns *)

Lemma timestamps_Ts (ts : list Timestamp) : timestamps (Ts <$> ts) = ts.
Proof.
  unfold timestamps. induction ts as [|t ts IH]; [done|].
  rewrite fmap_cons. cbn [omap list_omap]. by f_equal.
Qed.

(** C6, as the code has it.  [get_series] never raises.  When FRED answers,
    the frame has the two columns "Date" and "Unemployment Rate" and holds
    the observations as FRED gave them, in the same order (no sorting is
    done: the dates are ascending when FRED's are) and nothing is reported.
    When FRED fails, the failure is reported with [st.error] and the frame
    is [pd.DataFrame()], which has no column at all. *)
Theorem get_series_frame
    (fred : string → string + list (Timestamp * option Q))
    (series_id : string) (page : list element) :
  ∃ df report,
    get_series fred series_id page = (Done df, page ++ report)
    ∧ match fred series_id with
      | inr data =>
          report = []
          ∧ columns df = ["Date"; "Unemployment Rate"]
          ∧ col df "Date" = Ts <$> data.*1
          ∧ col df "Unemployment Rate" = num <$> data.*2
          ∧ timestamps (col df "Date") = data.*1
      | inl e =>
          report = [error ("Failed to fetch data for series " +:+ series_id +:+ ": " +:+ e)]
          ∧ df = empty_frame
          ∧ columns df = []
          ∧ empty df = true
      end.
Proof.
  exists (fetched fred series_id), (reported fred series_id).
  split; [apply get_series_run|].
  unfold fetched, reported. destruct (fred series_id) as [e|data]; [done|].
  split; [done|]. split; [done|].
  assert (Hd : col (series_frame data) "Date" = Ts <$> data.*1).
  { unfold col, series_frame. cbn [rows]. rewrite <- !list_fmap_compose.
    apply list_fmap_ext. intros _ [d v] _. reflexivity. }
  split; [done|]. split.
  - unfold col, series_frame. cbn [rows]. rewrite <- !list_fmap_compose.
    apply list_fmap_ext. intros _ [d v] _. reflexivity.
  - rewrite Hd. apply timestamps_Ts.
Qed.

(** C6 as stated fails: the frame returned on a failed fetch is not a
    two-column table; it has no "Date" column to read. *)
Lemma failed_fetch_frame_has_no_columns :
  ∃ df page',
    get_series Samples.fred "LAUR" [] = (Done df, page')
    ∧ columns df ≠ ["Date"; "Unemployment Rate"]
    ∧ columns df = []
    ∧ getitem df "Date" = Raised (KeyError "Date").
Proof. by eexists _, _. Qed.

(** ** The parish loader *)

Section AssignFacts.

Implicit Types (r : gmap string cell) (df : DataFrame).

Lemma at_insert_eq r c v : at_ (<[c := v]> r) c = v.
Proof. unfold at_. by rewrite lookup_insert_eq. Qed.

Lemma at_insert_ne r c c' v : c ≠ c' → at_ (<[c := v]> r) c' = at_ r c'.
Proof. intros. unfold at_. by rewrite lookup_insert_ne. Qed.

Lemma rows_assign df c f : rows (assign df c f) = (λ r, <[c := f r]> r) <$> rows df.
Proof. done. Qed.

Lemma columns_assign df c f c' :
  c' ∈ columns (assign df c f) ↔ c' = c ∨ c' ∈ columns df.
Proof.
  unfold assign. cbn [columns]. case_decide as Hc.
  - split; [by right|]. by intros [->|?].
  - rewrite elem_of_app, list_elem_of_singleton. tauto.
Qed.

Lemma columns_rename df old new c :
  c ≠ old → c ≠ new → c ∈ columns (rename df old new) ↔ c ∈ columns df.
Proof.
  intros Ho Hn. unfold rename. cbn [columns]. rewrite list_elem_of_fmap. split.
  - intros (c0 & Hc & Hin). case_decide; by subst.
  - intros Hin. exists c. split; [|done]. by rewrite decide_False.
Qed.

Lemma rows_dropna_subset df c :
  rows (dropna_subset df c) = List.filter (λ r, negb (isnull (at_ r c))) (rows df).
Proof. done. Qed.

Lemma filter_fmap {A B} (p : B → bool) (f : A → B) (l : list A) :
  List.filter p (f <$> l) = f <$> List.filter (λ x, p (f x)) l.
Proof.
  induction l as [|x l IH]; [done|].
  rewrite fmap_cons. cbn [List.filter]. destruct (p (f x)); rewrite ?fmap_cons; by rewrite IH.
Qed.

Lemma forallb_fmap {A B} (p : B → bool) (f : A → B) (l : list A) :
  forallb p (f <$> l) = forallb (λ x, p (f x)) l.
Proof. induction l as [|x l IH]; [done|]. rewrite fmap_cons. cbn [forallb]. by rewrite IH. Qed.

Lemma forallb_ext {A} (p q : A → bool) (l : list A) :
  (∀ x, p x = q x) → forallb p l = forallb q l.
Proof. intros H. induction l as [|x l IH]; [done|]. cbn [forallb]. by rewrite H, IH. Qed.

(** A code read from the catalog is the code of the parish named. *)
Lemma map_dict_not_null (d : gmap string string) (c : cell) :
  isnull (map_dict d c) = false →
  ∃ name code, c = Str name ∧ d !! name = Some code ∧ map_dict d c = Str code.
Proof.
  destruct c as [|name| |]; try done. cbn [map_dict].
  destruct (d !! name) as [code|] eqn:Hd; [|done]. intros _. by exists name, code.
Qed.

(** The rows of [prepared]: "Parish" stripped, "Date" and "year" as read. *)
Lemma prepared_rows df :
  ∃ g : gmap string cell → gmap string cell,
    rows (prepared df) = g <$> rows df
    ∧ ∀ r, at_ (g r) "Parish" = str_strip (at_ r "Parish")
           ∧ at_ (g r) "Date" = at_ r "Date" ∧ at_ (g r) "year" = at_ r "year".
Proof.
  unfold prepared. case_decide.
  - exists (λ r, rename_row "Unemployment rate" "Unemployment Rate"
                   (<["Parish" := str_strip (at_ r "Parish")]> r)).
    split.
    + unfold rename. cbn [rows]. rewrite rows_assign. by rewrite <- list_fmap_compose.
    + intros r. rewrite !at_rename_row_other by done.
      rewrite at_insert_eq, !at_insert_ne by done. done.
  - exists (λ r, <["Parish" := str_strip (at_ r "Parish")]> r).
    split; [done|]. intros r. rewrite at_insert_eq, !at_insert_ne by done. done.
Qed.

Lemma prepared_columns df c :
  c ≠ "Unemployment rate" → c ≠ "Unemployment Rate" → c ≠ "Parish" →
  c ∈ columns (prepared df) ↔ c ∈ columns df.
Proof.
  intros H1 H2 H3. unfold prepared. case_decide.
  - rewrite columns_rename, columns_assign by done. naive_solver.
  - rewrite columns_assign. naive_solver.
Qed.

Lemma prepared_columns_Parish df : "Parish" ∈ columns (prepared df).
Proof.
  unfold prepared. case_decide.
  - rewrite columns_rename, columns_assign by done. by left.
  - rewrite columns_assign. by left.
Qed.

End AssignFacts.

Section LoaderFacts.

Variable to_datetime : cell → option Timestamp.
Variable to_numeric : cell → option Q.

Lemma load_county_data_prepared csv page :
  "Parish" ∈ columns (read_frame csv) →
  has_str_accessor (col (read_frame csv) "Parish") = true →
  load_county_data (inr csv) to_datetime to_numeric page
  = bind (derive_year to_datetime to_numeric (prepared (read_frame csv)))
         (λ dated, match dated with
                   | None => ret empty_frame
                   | Some df => ret (with_fips df)
                   end) page.
Proof.
  intros Hp Hs. unfold load_county_data. rewrite decide_True by done. by rewrite Hs.
Qed.

Lemma derive_year_from_Date df page :
  "Date" ∈ columns df →
  derive_year to_datetime to_numeric df page
  = if forallb (λ r, isnull (coerce_datetime to_datetime (at_ r "Date"))) (rows df)
    then (Done None,
          page ++ [error "The 'Date' column exists but none of the dates could be parsed."])
    else (Done (Some (assign (assign df "Date" (λ r, coerce_datetime to_datetime (at_ r "Date")))
                             "year" (λ r, year_cell (at_ r "Date")))), page).
Proof.
  intros Hd. unfold derive_year. rewrite decide_True by done.
  unfold col. rewrite rows_assign, <- list_fmap_compose, forallb_fmap.
  erewrite forallb_ext; [|intros r; cbn; by rewrite at_insert_eq].
  by destruct (forallb _ _).
Qed.

Lemma derive_year_from_year df page :
  "Date" ∉ columns df → "year" ∈ columns df →
  derive_year to_datetime to_numeric df page
  = (Done (Some (assign df "year" (λ r, num (to_numeric (at_ r "year"))))), page).
Proof.
  intros Hd Hy. unfold derive_year. rewrite decide_False, decide_True by done. done.
Qed.

Lemma derive_year_missing df page :
  "Date" ∉ columns df → "year" ∉ columns df →
  derive_year to_datetime to_numeric df page
  = (Done None,
     page ++ [error "The county data must contain either a 'Date' or 'year' column."]).
Proof.
  intros Hd Hy. unfold derive_year. rewrite !decide_False by done. done.
Qed.

(** Every row that leaves [with_fips] carries the code of its parish. *)
Lemma with_fips_rows df r :
  r ∈ rows (with_fips df) →
  ∃ parish code,
    at_ r "Parish" = Str parish ∧ LA_PARISH_FIPS !! parish = Some code
    ∧ at_ r "fips" = Str code.
Proof.
  unfold with_fips. rewrite rows_dropna_subset, rows_assign.
  intros [Hin Hnn]%list_elem_of_In%filter_In.
  apply list_elem_of_In, list_elem_of_fmap in Hin as (r0 & -> & _).
  rewrite at_insert_eq in *. rewrite at_insert_ne by done.
  apply negb_true_iff, map_dict_not_null in Hnn as (name & code & Hn & Hc & Hm).
  by exists name, code.
Qed.

Lemma with_fips_columns df c :
  c ∈ columns (with_fips df) ↔ c = "fips" ∨ c ∈ columns df.
Proof. unfold with_fips, dropna_subset, loc. cbn [columns]. apply columns_assign. Qed.

(** What the loader returns from a file that was read: the empty frame
    after a report, or the frame with its codes and nothing reported. *)
Lemma load_county_data_Done csv page df page' :
  load_county_data (inr csv) to_datetime to_numeric page = (Done df, page') →
  df = empty_frame
  ∨ ∃ dated,
      df = with_fips dated ∧ "Parish" ∈ columns dated ∧ "year" ∈ columns dated
      ∧ ("Date" ∈ columns dated ↔ "Date" ∈ columns (read_frame csv))
      ∧ ("Date" ∈ columns (read_frame csv) ∨ "year" ∈ columns (read_frame csv))
      ∧ (page' = page).
Proof.
  unfold load_county_data.
  destruct (decide ("Parish" ∈ columns (read_frame csv))) as [Hp|Hp]; [|intros [= <- _]; by left].
  destruct (has_str_accessor (col (read_frame csv) "Parish")) eqn:Hs; [|done].
  fold (prepared (read_frame csv)).
  assert (HD : "Date" ∈ columns (prepared (read_frame csv))
               ↔ "Date" ∈ columns (read_frame csv)) by by apply prepared_columns.
  assert (HY : "year" ∈ columns (prepared (read_frame csv))
               ↔ "year" ∈ columns (read_frame csv)) by by apply prepared_columns.
  pose proof (prepared_columns_Parish (read_frame csv)) as HP.
  unfold bind.
  destruct (decide ("Date" ∈ columns (prepared (read_frame csv)))) as [Hd|Hd].
  - rewrite derive_year_from_Date by done.
    destruct (forallb _ _); [intros [= <- _]; by left|].
    intros [= <- <-]. right. eexists. split; [done|].
    rewrite !columns_assign. naive_solver.
  - destruct (decide ("year" ∈ columns (prepared (read_frame csv)))) as [Hy|Hy].
    + rewrite derive_year_from_year by done.
      intros [= <- <-]. right. eexists. split; [done|].
      rewrite !columns_assign. naive_solver.
    + rewrite derive_year_missing by done. intros [= <- _]. by left.
Qed.

End LoaderFacts.

(** C8.  Every row of a dataset the loader returns has a code in its "fips"
    column, the code the catalog gives to the parish named in the row: the
    rows without a mapping were dropped.  (A load that fails returns the
    empty frame, which has no row.) *)
Theorem loaded_rows_have_fips
    (read_csv : string + CsvFile) (to_datetime : cell → option Timestamp)
    (to_numeric : cell → option Q) (page : list element)
    (df : DataFrame) (page' : list element) :
  load_county_data read_csv to_datetime to_numeric page = (Done df, page') →
  ∀ r, r ∈ rows df →
    isnull (at_ r "fips") = false
    ∧ ∃ parish code,
        at_ r "Parish" = Str parish ∧ LA_PARISH_FIPS !! parish = Some code
        ∧ at_ r "fips" = Str code.
Proof.
  intros Hload r Hr.
  assert (∃ parish code,
            at_ r "Parish" = Str parish ∧ LA_PARISH_FIPS !! parish = Some code
            ∧ at_ r "fips" = Str code) as (parish & code & H1 & H2 & H3).
  { destruct read_csv as [e|csv].
    - injection Hload as <- _. by apply elem_of_nil in Hr.
    - apply load_county_data_Done in Hload as [-> | (dated & -> & _)].
      + by apply elem_of_nil in Hr.
      + by eapply with_fips_rows. }
  split; [by rewrite H3|]. by exists parish, code.
Qed.

Lemma loaded_rows_have_fips_witness :
  Forall (λ r, isnull (at_ r "fips") = false
               ∧ ∃ parish code,
                   at_ r "Parish" = Str parish ∧ LA_PARISH_FIPS !! parish = Some code
                   ∧ at_ r "fips" = Str code)
         (rows Samples.loaded_dates).
Proof.
  apply Forall_forall.
  apply (loaded_rows_have_fips (inr Samples.csv_dates) Samples.to_datetime
           Samples.to_numeric [] Samples.loaded_dates []).
  by vm_compute.
Defined.

Section DateParsing.

Variable to_datetime : cell → option Timestamp.
Variable to_numeric : cell → option Q.

(** The rows the loader builds from a file with a "Date" column of which
    some entry parses. *)
Lemma dated_rows df :
  ∃ h : gmap string cell → gmap string cell,
    rows (assign (assign (assign (prepared df) "Date"
                            (λ r, coerce_datetime to_datetime (at_ r "Date")))
                         "year" (λ r, year_cell (at_ r "Date")))
                 "fips" (λ r, map_dict LA_PARISH_FIPS (at_ r "Parish")))
    = h <$> rows df
    ∧ ∀ r, at_ (h r) "fips" = parish_code r
           ∧ at_ (h r) "Date" = coerce_datetime to_datetime (at_ r "Date")
           ∧ at_ (h r) "year" = year_cell (coerce_datetime to_datetime (at_ r "Date")).
Proof.
  destruct (prepared_rows df) as (g & Hg & Hat).
  eexists (λ r, <["fips" := _]> (<["year" := _]> (<["Date" := _]> (g r)))).
  split.
  - rewrite !rows_assign, Hg. rewrite <- !list_fmap_compose. reflexivity.
  - intros r. destruct (Hat r) as (HP & HD & _). cbn beta.
    repeat (rewrite at_insert_eq || rewrite at_insert_ne by done).
    unfold parish_code. by rewrite HP, HD.
Qed.

End DateParsing.

(** C7, as the code has it.  For a file with distinct labels, a "Parish"
    column of text and a "Date" column: when no date parses, the loader
    reports it and returns the empty frame; otherwise it reports nothing
    and returns one row for every row of the file whose parish has a code,
    whether its date parsed or not.  A date that did not parse reads
    missing, and so does its year: the row is kept. *)
Theorem unparsed_dates_are_kept
    (csv : CsvFile) (to_datetime : cell → option Timestamp)
    (to_numeric : cell → option Q) (page : list element) :
  distinct_labels csv →
  "Parish" ∈ columns (read_frame csv) →
  has_str_accessor (col (read_frame csv) "Parish") = true →
  "Date" ∈ columns (read_frame csv) →
  let parsed r := coerce_datetime to_datetime (at_ r "Date") in
  let kept := List.filter (λ r, negb (isnull (parish_code r))) (rows (read_frame csv)) in
  if forallb (λ r, isnull (parsed r)) (rows (read_frame csv)) then
    load_county_data (inr csv) to_datetime to_numeric page
    = (Done empty_frame,
       page ++ [error "The 'Date' column exists but none of the dates could be parsed."])
  else
    ∃ df,
      load_county_data (inr csv) to_datetime to_numeric page = (Done df, page)
      ∧ length (rows df) = length kept
      ∧ col df "Date" = parsed <$> kept
      ∧ col df "year" = (λ r, year_cell (parsed r)) <$> kept.
Proof.
  intros _ Hp Hs Hd parsed kept.
  rewrite load_county_data_prepared by done.
  unfold bind. rewrite derive_year_from_Date by by apply prepared_columns.
  destruct (prepared_rows (read_frame csv)) as (g & Hg & Hat).
  rewrite Hg, forallb_fmap.
  rewrite (forallb_ext (λ r, isnull (coerce_datetime to_datetime (at_ (g r) "Date")))
                       (λ r, isnull (parsed r)))
    by (intros r; destruct (Hat r) as (_ & -> & _); done).
  destruct (forallb _ _); [done|].
  eexists. split; [reflexivity|].
  destruct (dated_rows to_datetime (read_frame csv)) as (h & Hh & Hath).
  unfold col, with_fips. rewrite rows_dropna_subset, Hh, filter_fmap.
  rewrite (List.filter_ext _ (λ r, negb (isnull (parish_code r))))
    by (intros r; destruct (Hath r) as (-> & _); done).
  fold kept. rewrite length_fmap, <- !list_fmap_compose.
  split; [done|].
  split; apply list_fmap_ext; intros _ r _; cbn; destruct (Hath r) as (_ & H1 & H2); done.
Qed.

Lemma unparsed_dates_are_kept_witness :
  ∃ df,
    load_county_data (inr Samples.csv_dates) Samples.to_datetime Samples.to_numeric []
    = (Done df, [])
    ∧ length (rows df) = 3%nat
    ∧ col df "Date" = [Ts (mkTimestamp 2020 1 1); NaN; Ts (mkTimestamp 2020 2 1)]
    ∧ col df "year" = [Num 2020; NaN; Num 2020].
Proof.
  apply (unparsed_dates_are_kept Samples.csv_dates Samples.to_datetime
           Samples.to_numeric []).
  - apply (bool_decide_unpack _). by vm_compute.
  - apply (bool_decide_unpack _). by vm_compute.
  - reflexivity.
  - apply (bool_decide_unpack _). by vm_compute.
Defined.

(** C7 as stated fails: the date of the Allen row does not parse and the
    row is in the dataset returned, its date and its year missing. *)
Lemma unparsed_date_row_is_returned :
  Samples.to_datetime (Str "in January") = None
  ∧ ∃ df r,
      load_county_data (inr Samples.csv_dates) Samples.to_datetime Samples.to_numeric []
      = (Done df, [])
      ∧ r ∈ rows df
      ∧ at_ r "Parish" = Str "Allen" ∧ at_ r "Date" = NaN ∧ at_ r "year" = NaN
      ∧ at_ r "fips" = Str "22003".
Proof.
  split; [reflexivity|].
  eexists _, _. split; [by vm_compute|].
  split; [right; left|]. by vm_compute.
Qed.

(** ** The catalog lookup after stripping *)

(** C9, as the code has it.  Stripping removes the trailing space of
    "St.Tammany " and nothing else; the catalog is looked up by exact match
    and has no entry "St.Tammany", so the row gets no code and is dropped,
    whereas "St. Tammany " (a trailing space only) resolves to 22103 and
    its row is kept. *)
Theorem stripped_name_is_matched_exactly :
  strip "St.Tammany " = "St.Tammany"
  ∧ LA_PARISH_FIPS !! strip "St.Tammany " = None
  ∧ map_dict LA_PARISH_FIPS (str_strip (Str "St.Tammany ")) = NaN
  ∧ LA_PARISH_FIPS !! strip "St. Tammany " = Some "22103"
  ∧ LA_PARISH_FIPS !! "St. Tammany" = Some "22103"
  ∧ (∀ name, map_dict LA_PARISH_FIPS (str_strip (Str name))
             = match LA_PARISH_FIPS !! strip name with Some code => Str code | None => NaN end)
  ∧ Str "St.Tammany " ∈ col (read_frame Samples.csv_dates) "Parish"
  ∧ col Samples.loaded_dates "Parish" = [Str "Acadia"; Str "Allen"; Str "St. Tammany"]
  ∧ col Samples.loaded_dates "fips" = [Str "22001"; Str "22003"; Str "22103"].
Proof.
  repeat split; try reflexivity.
  apply (bool_decide_unpack _). by vm_compute.
Qed.

(** C9 as stated fails: "St.Tammany " does not resolve to the code of
    "St. Tammany"; it resolves to no code. *)
Lemma st_tammany_without_space_has_no_code :
  LA_PARISH_FIPS !! strip "St. Tammany" = Some "22103"
  ∧ LA_PARISH_FIPS !! strip "St.Tammany " ≠ Some "22103"
  ∧ LA_PARISH_FIPS !! strip "St.Tammany " ≠ LA_PARISH_FIPS !! strip "St. Tammany".
Proof. by vm_compute. Qed.

(** ** The parish view of [economics_dashboard_3cols.py] *)

Section CountyView.

Variable to_datetime : cell → option Timestamp.
Variable to_numeric : cell → option Q.
Variable load_geojson : option string.

Lemma multiselect_cases options default_ pick page :
  (∃ l, CountyView3Cols.multiselect options default_ pick page = (Done l, page))
  ∨ CountyView3Cols.multiselect options default_ pick page
    = (Raised StreamlitAPIException, page).
Proof.
  unfold CountyView3Cols.multiselect.
  destruct (forallb _ _); [left|by right]. destruct pick; by eexists.
Qed.

(** Without a "Date" column in the file, a dataset that is not empty stops
    the view before anything is drawn. *)
Lemma county_view_without_Date csv inp page df page1 :
  "Date" ∉ columns (read_frame csv) →
  load_county_data (inr csv) to_datetime to_numeric page = (Done df, page1) →
  empty df = false →
  ∃ e,
    CountyView3Cols.county_view (inr csv) to_datetime to_numeric load_geojson inp page
    = (Raised e, page)
    ∧ (e = KeyError "Date" ∨ e = StreamlitAPIException).
Proof.
  intros Hnd Hload Hne.
  destruct (load_county_data_Done _ _ _ _ _ _ Hload)
    as [-> | (dated & -> & HP & _ & HD & _ & ->)]; [done|].
  assert (Hgp : getitem (with_fips dated) "Parish" = Done (col (with_fips dated) "Parish")).
  { unfold getitem. rewrite decide_True; [done|]. apply with_fips_columns. by right. }
  assert (Hgd : getitem (with_fips dated) "Date" = Raised (KeyError "Date")).
  { unfold getitem. rewrite decide_False; [done|].
    intros [?|?]%with_fips_columns; [done|]. by apply Hnd, HD. }
  unfold CountyView3Cols.county_view. unfold bind at 1. rewrite Hload, Hne.
  unfold bind at 1. unfold lift at 1. rewrite Hgp.
  unfold bind at 1.
  destruct (multiselect_cases
              ("Select All Parishes"
               :: CountyView3Cols.sorted_unique (col (with_fips dated) "Parish"))
              ["St. Tammany"; "Tangipahoa"; "Livingston"; "Washington"; "St. Helena"]
              (CountyView3Cols.county_pick inp) page) as [[l ->] | ->].
  - unfold bind at 1. unfold lift at 1. rewrite Hgd. exists (KeyError "Date"). by split; [|left].
  - eexists. split; [done|by right].
Qed.

End CountyView.

(** C10.  In [economics_dashboard_3cols.py], when the file (of distinct
    labels) has no "Date" column and the dataset loaded is not empty (so
    that it was built from the "year" column), the frame has no "Date"
    column and the parish view raises before anything is put on the page:
    at the read of
    [county_df["Date"]], or earlier at the multiselect when a default
    parish is not in the data.  No run of the view on such a dataset
    finishes: the view completes only for a dataset built from a "Date"
    column. *)
Theorem county_view_needs_Date_column
    (csv : CsvFile) (to_datetime : cell → option Timestamp)
    (to_numeric : cell → option Q) (load_geojson : option string)
    (inp : CountyView3Cols.Inputs) (page : list element)
    (df : DataFrame) (page1 : list element) :
  distinct_labels csv →
  load_county_data (inr csv) to_datetime to_numeric page = (Done df, page1) →
  empty df = false →
  "Date" ∉ columns (read_frame csv) →
  "year" ∈ columns (read_frame csv)
  ∧ ("Date" ∉ columns df)
  ∧ getitem df "Date" = Raised (KeyError "Date")
  ∧ (∃ e,
       CountyView3Cols.county_view (inr csv) to_datetime to_numeric load_geojson inp page
       = (Raised e, page)
       ∧ (e = KeyError "Date" ∨ e = StreamlitAPIException))
  ∧ (∀ page',
       CountyView3Cols.county_view (inr csv) to_datetime to_numeric load_geojson inp page
       ≠ (Done tt, page')).
Proof.
  intros _ Hload Hne Hnd.
  destruct (county_view_without_Date to_datetime to_numeric load_geojson
              csv inp page df page1 Hnd Hload Hne) as (e & He & Hcases).
  destruct (load_county_data_Done _ _ _ _ _ _ Hload)
    as [-> | (dated & -> & HP & HY & HD & Hsrc & ->)]; [done|].
  assert (Hdf : "Date" ∉ columns (with_fips dated)).
  { intros [?|?]%with_fips_columns; [done|]. by apply Hnd, HD. }
  split; [by destruct Hsrc|]. split; [done|]. split.
  - unfold getitem. by rewrite decide_False.
  - split; [by exists e|]. intros page'. rewrite He. done.
Qed.

Lemma county_view_needs_Date_column_witness :
  "year" ∈ columns (read_frame Samples.csv_years)
  ∧ ("Date" ∉ columns Samples.loaded_years)
  ∧ getitem Samples.loaded_years "Date" = Raised (KeyError "Date")
  ∧ (∃ e,
       CountyView3Cols.county_view (inr Samples.csv_years) Samples.to_datetime
         Samples.to_numeric None (CountyView3Cols.mkInputs 0 None None None None) []
       = (Raised e, [])
       ∧ (e = KeyError "Date" ∨ e = StreamlitAPIException))
  ∧ (∀ page',
       CountyView3Cols.county_view (inr Samples.csv_years) Samples.to_datetime
         Samples.to_numeric None (CountyView3Cols.mkInputs 0 None None None None) []
       ≠ (Done tt, page')).
Proof.
  apply (county_view_needs_Date_column Samples.csv_years Samples.to_datetime
           Samples.to_numeric None (CountyView3Cols.mkInputs 0 None None None None) []
           Samples.loaded_years []).
  - apply (bool_decide_unpack _). by vm_compute.
  - by vm_compute.
  - reflexivity.
  - apply (bool_decide_unpack _). by vm_compute.
Defined.

(** The two ways the view stops on a file with a "year" column only, and a
    file with a "Date" column on which it draws its chart and its map. *)
Example county_view_on_years :
  (CountyView3Cols.county_view (inr Samples.csv_years) Samples.to_datetime
     Samples.to_numeric None (CountyView3Cols.mkInputs 0 None None None None) [])
  = (Raised (KeyError "Date"), [])
  ∧ (CountyView3Cols.county_view (inr Samples.csv_years_short) Samples.to_datetime
       Samples.to_numeric None (CountyView3Cols.mkInputs 0 None None None None) [])
    = (Raised StreamlitAPIException, []).
Proof. split; by vm_compute. Qed.

Example county_view_on_dates :
  ∃ fig shown data locations z,
    CountyView3Cols.county_view (inr Samples.csv_dates_full) Samples.to_datetime
      Samples.to_numeric None (CountyView3Cols.mkInputs 0 None None None None) []
    = (Done tt,
       [plotly_chart fig; dataframe shown; download_button "Download CSV" data;
        choropleth "Unemployment Rate by Parish in 2020" locations z]).
Proof. eexists _, _, _, _, _. by vm_compute. Qed.

(** ** The tables the scripts assemble have float columns *)

Section AssembledFloats.

Variable fred : string → string + list (Timestamp * option Q).

Lemma is_float_num v : is_float (num v) = true.
Proof. by destruct v. Qed.

Lemma at_union_float (l r : gmap string cell) c :
  is_float (at_ l c) = true → is_float (at_ r c) = true → is_float (at_ (l ∪ r) c) = true.
Proof.
  unfold at_. rewrite lookup_union.
  by destruct (l !! c), (r !! c).
Qed.

Lemma at_filter_float (P : string * cell → Prop) `{!∀ kv, Decision (P kv)}
    (m : gmap string cell) c :
  is_float (at_ m c) = true → is_float (at_ (filter P m) c) = true.
Proof.
  unfold at_. destruct (filter P m !! c) as [x|] eqn:Hx; [|done].
  apply map_lookup_filter_Some in Hx as [-> _]. done.
Qed.

Lemma renamed_observation_float (d : Timestamp) (v : option Q) new c :
  c ≠ "Date" →
  is_float (at_ (rename_row "Unemployment Rate" new
                   {[ "Date" := Ts d; "Unemployment Rate" := num v ]}) c) = true.
Proof.
  intros Hc. unfold at_, rename_row.
  rewrite lookup_insert_ne, lookup_singleton_eq by done.
  destruct (decide (new = c)) as [->|Hn].
  - rewrite lookup_insert_eq. apply is_float_num.
  - rewrite lookup_insert_ne by done.
    destruct (decide (c = "Unemployment Rate")) as [->|Hu].
    + by rewrite lookup_delete_eq.
    + rewrite lookup_delete_ne, lookup_insert_ne, lookup_singleton_ne by done. done.
Qed.

Lemma renamed_series_floats data new :
  floats_off_Date (rows (rename (series_frame data) "Unemployment Rate" new)).
Proof.
  intros r c Hr Hc. unfold rename, series_frame in Hr. cbn [rows] in Hr.
  apply list_elem_of_fmap in Hr as (r0 & -> & Hr).
  apply list_elem_of_fmap in Hr as ([d v] & -> & _).
  by apply renamed_observation_float.
Qed.

Lemma merge_left_floats left right :
  floats_off_Date (rows left) → floats_off_Date (rows right) →
  floats_off_Date (rows (merge_left_on_Date left right)).
Proof.
  intros Hl Hr r c Hin Hc. unfold merge_left_on_Date in Hin. cbn [rows] in Hin.
  apply list_elem_of_In, in_flat_map in Hin as (l & Hlin%list_elem_of_In & Hin%list_elem_of_In).
  unfold merge_row in Hin.
  destruct (List.filter _ (rows right)) as [|m ms] eqn:Hf.
  - apply list_elem_of_singleton in Hin as ->. by apply Hl.
  - apply list_elem_of_fmap in Hin as (r0 & -> & Hr0).
    apply at_union_float; [by apply Hl|]. apply Hr; [|done].
    rewrite <- Hf in Hr0. by apply list_elem_of_In, filter_In in Hr0 as [?%list_elem_of_In _].
Qed.

Lemma merged_floats states_selected : ∀ backbone,
  floats_off_Date (rows backbone) →
  floats_off_Date (rows (foldl (merge_state fred) backbone states_selected)).
Proof.
  induction states_selected as [|s states IH]; intros backbone Hb; [done|].
  cbn [foldl]. apply IH. unfold merge_state.
  destruct (STATE_SERIES_IDS !! s) as [series_id|]; [|done].
  destruct (empty (fetched fred series_id)) eqn:He; [done|].
  apply merge_left_floats; [done|].
  unfold fetched in *. destruct (fred series_id) as [e|data]; [done|].
  apply renamed_series_floats.
Qed.

(** The state columns of the table the scripts build, filtered or not,
    hold floats: the hypothesis of the map data theorems is met. *)
Lemma build_comparison_float_columns us states_selected page table page' w :
  fred "UNRATE" = inr us →
  selectable states_selected →
  build_comparison fred states_selected page = (Done table, page') →
  Dashboard3Cols.float_columns (Dashboard3Cols.apply_window table w)
    states_selected.
Proof.
  intros Hus [_ Hsel] Hrun.
  assert (Hfl : floats_off_Date (rows table)).
  { unfold build_comparison, us_df in Hrun. unfold bind at 1 in Hrun.
    unfold bind at 1 in Hrun. rewrite get_series_run in Hrun.
    unfold fetched, reported in Hrun. rewrite Hus in Hrun.
    unfold ret at 1 in Hrun. unfold comparison_df in Hrun.
    destruct (col_us_backbone us) as (backbone & Hget & _).
    unfold bind at 1 in Hrun. unfold lift at 1 in Hrun. rewrite Hget in Hrun.
    rewrite merge_loop_run in Hrun by done. injection Hrun as <- _.
    apply merged_floats.
    injection Hget as <-. cbn [rows]. intros r c Hr Hc.
    apply list_elem_of_fmap in Hr as (r0 & -> & Hr0).
    apply at_filter_float. by apply (renamed_series_floats us "United States"). }
  intros state r Hs Hr.
  rewrite Forall_forall in Hsel.
  destruct (selectable_not_reserved state (Hsel _ Hs)) as (Hd & _).
  apply Hfl; [|done].
  destruct w as [[s e]|]; [|done].
  cbn [Dashboard3Cols.apply_window] in Hr. by apply loc_mask_rows in Hr as [? _].
Qed.

End AssembledFloats.

(** The scenario of the specification: a national series of two months and
    a region with the first month only. *)
Example build_comparison_scenario :
  ∃ comparison_df,
    build_comparison Samples.fred ["Texas"] [] = (Done comparison_df, [])
    ∧ columns comparison_df = ["Date"; "United States"; "Texas"]
    ∧ col comparison_df "Date" = [Ts (Samples.month 2020 1); Ts (Samples.month 2020 2)]
    ∧ col comparison_df "United States" = [Num 5; Num (26 # 5)]
    ∧ col comparison_df "Texas" = [Num 4; NaN].
Proof. eexists. by vm_compute. Qed.

(** * Further properties of the scripts *)

(** ** The selection and the national fetch *)

Lemma states_all_selectable :
  NoDup Dashboard3Cols.states
  ∧ Forall (λ s, is_Some (STATE_SERIES_IDS !! s)) Dashboard3Cols.states.
Proof. split; apply (bool_decide_unpack _); by vm_compute. Qed.

(** X1.  Whatever the state multiselect of [economics_dashboard_3cols.py]
    returns (distinct options, "Select All States" among them or not), the
    selection the script works with has distinct states that are all keys
    of [STATE_SERIES_IDS]: the lookup [STATE_SERIES_IDS[s]] cannot raise. *)
Theorem states_selected_selectable (selected_state_options : list string) :
  NoDup selected_state_options →
  (∀ o, o ∈ selected_state_options → o ∈ state_options) →
  selectable (Dashboard3Cols.states_selected selected_state_options)
  ∧ ∀ s, s ∈ Dashboard3Cols.states_selected selected_state_options →
         ∃ series_id, dict_getitem STATE_SERIES_IDS s = Done series_id.
Proof.
  intros Hnd Hopt. destruct states_all_selectable as [Hnds Hall].
  assert (Hsel : selectable (Dashboard3Cols.states_selected selected_state_options)).
  { unfold Dashboard3Cols.states_selected. case_decide as Hin; [done|].
    split; [done|]. apply Forall_forall. intros o Ho.
    rewrite Forall_forall in Hall. apply Hall.
    apply Hopt in Ho as Ho'. unfold state_options in Ho'.
    apply elem_of_cons in Ho' as [->|Ho']; [done|done]. }
  split; [done|]. intros s Hs. destruct Hsel as [_ Hsel].
  rewrite Forall_forall in Hsel. destruct (Hsel s Hs) as [series_id Hid].
  exists series_id. unfold dict_getitem. by rewrite Hid.
Qed.

Lemma states_selected_selectable_witness :
  selectable (Dashboard3Cols.states_selected ["Louisiana"; "Select All States"])
  ∧ ∀ s, s ∈ Dashboard3Cols.states_selected ["Louisiana"; "Select All States"] →
         ∃ series_id, dict_getitem STATE_SERIES_IDS s = Done series_id.
Proof.
  apply (states_selected_selectable ["Louisiana"; "Select All States"]).
  - apply (bool_decide_unpack _). by vm_compute.
  - intros o Ho. apply (bool_decide_unpack _).
    rewrite !elem_of_cons, elem_of_nil in Ho. by destruct Ho as [->|[->|[]]].
Defined.

Section MonadLaws.

Lemma bind_assoc_run {A B C} (m : App A) (f : A → App B) (k : B → App C) page :
  bind (bind m f) k page = bind m (λ x, bind (f x) k) page.
Proof. unfold bind. by destruct (m page) as [[a|e] p]. Qed.

Lemma bind_run_Done {A B} (m : App A) (k : A → App B) page a page' :
  m page = (Done a, page') → bind m k page = k a page'.
Proof. intros H. unfold bind. by rewrite H. Qed.

Lemma bind_run_Raised {A B} (m : App A) (k : A → App B) page e page' :
  m page = (Raised e, page') → bind m k page = (Raised e, page').
Proof. intros H. unfold bind. by rewrite H. Qed.

End MonadLaws.

Section NationalFailure.

Variable fred : string → string + list (Timestamp * option Q).

Lemma build_comparison_national_failure e states_selected page :
  fred "UNRATE" = inl e →
  build_comparison fred states_selected page
  = (Raised (KeyError_not_found ["Date"; "United States"]),
     page ++ [error ("Failed to fetch data for series UNRATE: " +:+ e)]).
Proof.
  intros He. unfold build_comparison, us_df.
  rewrite bind_assoc_run.
  erewrite bind_run_Done by apply get_series_run.
  unfold fetched, reported. rewrite He. reflexivity.
Qed.

End NationalFailure.

(** X2.  When the fetch of the national series fails, no table is built: the
    failure is reported and [us_df[["Date", "United States"]]] raises a
    [KeyError] that names the two labels, neither being a column of the
    empty frame.  [economics_dashboard.py] stops there, whatever the inputs;
    [economics_dashboard_3cols.py] stops there once its sidebar is done. *)
Theorem national_fetch_failure_stops_the_scripts
    (fred : string → string + list (Timestamp * option Q)) (e : string) :
  fred "UNRATE" = inl e →
  (∀ states_selected page,
     build_comparison fred states_selected page
     = (Raised (KeyError_not_found ["Date"; "United States"]),
        page ++ [error ("Failed to fetch data for series UNRATE: " +:+ e)]))
  ∧ (∀ inp page,
       Dashboard.state_level fred inp page
       = (Raised (KeyError_not_found ["Date"; "United States"]),
          page ++ [error ("Failed to fetch data for series UNRATE: " +:+ e)]))
  ∧ (∀ inp page side page1,
       Dashboard3Cols.sidebar fred
         (Dashboard3Cols.states_selected (Dashboard3Cols.selected_state_options inp)) inp page
       = (Done side, page1) →
       Dashboard3Cols.state_level fred inp page
       = (Raised (KeyError_not_found ["Date"; "United States"]),
          page1 ++ [error ("Failed to fetch data for series UNRATE: " +:+ e)])).
Proof.
  intros He. split; [|split].
  - intros. by apply build_comparison_national_failure.
  - intros inp page. unfold Dashboard.state_level.
    pose proof (build_comparison_national_failure fred e
                  (Dashboard.states_selected inp) page He) as H.
    unfold build_comparison in H.
    unfold bind in *. destruct (us_df fred page) as [[u|x] p]; [|done].
    by destruct (comparison_df fred u (Dashboard.states_selected inp) p) as [[t|x] p'].
  - intros inp page side page1 Hside. unfold Dashboard3Cols.state_level.
    cbv zeta. erewrite bind_run_Done by exact Hside.
    pose proof (build_comparison_national_failure fred e
                  (Dashboard3Cols.states_selected (Dashboard3Cols.selected_state_options inp))
                  page1 He) as H.
    unfold build_comparison in H.
    unfold bind in *. destruct (us_df fred page1) as [[u|x] p]; [|done].
    by destruct (comparison_df fred u _ p) as [[t|x] p'].
Qed.

Lemma national_fetch_failure_stops_the_scripts_witness :
  (∀ states_selected page,
     build_comparison (λ _, inl "timed out") states_selected page
     = (Raised (KeyError_not_found ["Date"; "United States"]),
        page ++ [error ("Failed to fetch data for series UNRATE: " +:+ "timed out")]))
  ∧ (∀ inp page,
       Dashboard.state_level (λ _, inl "timed out") inp page
       = (Raised (KeyError_not_found ["Date"; "United States"]),
          page ++ [error ("Failed to fetch data for series UNRATE: " +:+ "timed out")]))
  ∧ (∀ inp page side page1,
       Dashboard3Cols.sidebar (λ _, inl "timed out")
         (Dashboard3Cols.states_selected (Dashboard3Cols.selected_state_options inp)) inp page
       = (Done side, page1) →
       Dashboard3Cols.state_level (λ _, inl "timed out") inp page
       = (Raised (KeyError_not_found ["Date"; "United States"]),
          page1 ++ [error ("Failed to fetch data for series UNRATE: " +:+ "timed out")])).
Proof.
  apply (national_fetch_failure_stops_the_scripts (λ _, inl "timed out") "timed out").
  reflexivity.
Defined.

(** ** The line chart *)

Section Chart.

Lemma fig_loop df : "Date" ∈ columns df → ∀ states_selected acc page,
  for_ states_selected acc (λ state fig,
    let* x := lift (getitem df "Date") in
    let* y := lift (getitem df state) in
    ret (fig ++ [mkScatter state x y])) page
  = match List.filter (λ c, negb (bool_decide (c ∈ columns df))) states_selected with
    | [] => (Done (acc ++ ((λ s, mkScatter s (col df "Date") (col df s)) <$> states_selected)),
             page)
    | c :: _ => (Raised (KeyError c), page)
    end.
Proof.
  intros Hd states. induction states as [|s states IH]; intros acc page.
  - cbn [for_ List.filter]. unfold ret. rewrite fmap_nil, app_nil_r. reflexivity.
  - cbn [for_ List.filter]. unfold bind at 1. unfold bind at 1. unfold lift at 1.
    unfold getitem at 1. rewrite decide_True by done.
    unfold bind at 1. unfold lift at 1. unfold getitem at 1.
    destruct (decide (s ∈ columns df)) as [Hs|Hs].
    + rewrite bool_decide_true by done. cbn [negb]. unfold ret at 1. rewrite IH.
      destruct (List.filter _ states); [|done].
      by rewrite fmap_cons, <- app_assoc.
    + rewrite bool_decide_false by done. done.
Qed.

(** The chart as a function of the labels of the table. *)
Lemma fig_run df states_selected page :
  "Date" ∈ columns df → "United States" ∈ columns df →
  fig df states_selected page
  = match List.filter (λ c, negb (bool_decide (c ∈ columns df))) states_selected with
    | [] => (Done ([mkScatter "United States" (col df "Date") (col df "United States")]
                   ++ ((λ s, mkScatter s (col df "Date") (col df s)) <$> states_selected)),
             page)
    | c :: _ => (Raised (KeyError c), page)
    end.
Proof.
  intros Hd Hu. unfold fig.
  unfold bind at 1. unfold lift at 1. unfold getitem at 1. rewrite decide_True by done.
  unfold bind at 1. unfold lift at 1. unfold getitem at 1. rewrite decide_True by done.
  by rewrite fig_loop.
Qed.

End Chart.

(** X3.  The line chart of both scripts reads a column for every selected
    state.  When the table has them all, the chart has the national trace
    followed by one trace per selected state, in the order of the
    selection, every trace over the table's dates; otherwise it is not
    drawn and the [KeyError] names the first selected state that is not a
    column. *)
Theorem fig_needs_every_selected_column
    (df : DataFrame) (states_selected : list string) (page : list element) :
  "Date" ∈ columns df →
  "United States" ∈ columns df →
  match List.filter (λ c, negb (bool_decide (c ∈ columns df))) states_selected with
  | [] =>
      ∃ traces,
        fig df states_selected page = (Done traces, page)
        ∧ sc_name <$> traces = "United States" :: states_selected
        ∧ Forall (λ t, sc_x t = col df "Date" ∧ sc_y t = col df (sc_name t)) traces
  | c :: _ => fig df states_selected page = (Raised (KeyError c), page)
  end.
Proof.
  intros Hd Hu.
  pose proof (fig_run df states_selected page Hd Hu) as Hfig.
  rewrite Hfig. destruct (List.filter _ states_selected); [|done].
  eexists. split; [reflexivity|]. split.
  - cbn [app fmap list_fmap sc_name]. f_equal. rewrite <- list_fmap_compose.
    clear. induction states_selected as [|s l IH]; [done|].
    rewrite fmap_cons. cbn. by f_equal.
  - constructor; [done|]. apply Forall_fmap, Forall_forall. by intros s _.
Qed.

Lemma fig_needs_every_selected_column_witness :
  ∃ traces,
    fig Samples.table ["Texas"] [] = (Done traces, [])
    ∧ sc_name <$> traces = ["United States"; "Texas"]
    ∧ Forall (λ t, sc_x t = col Samples.table "Date"
                   ∧ sc_y t = col Samples.table (sc_name t)) traces.
Proof.
  apply (fig_needs_every_selected_column Samples.table ["Texas"] []).
  - apply (bool_decide_unpack _). by vm_compute.
  - apply (bool_decide_unpack _). by vm_compute.
Defined.

(** ** The values of the left joins *)

Section JoinValues.

Variable fred : string → string + list (Timestamp * option Q).

Lemma at_union_right_missing (l r : gmap string cell) c :
  r !! c = None → at_ (l ∪ r) c = at_ l c.
Proof.
  intros Hr. unfold at_. rewrite lookup_union, Hr. by destruct (l !! c).
Qed.

Lemma at_union_left_missing (l r : gmap string cell) c :
  l !! c = None → at_ (l ∪ r) c = at_ r c.
Proof.
  intros Hl. unfold at_. rewrite lookup_union, Hl. by destruct (r !! c).
Qed.

(** A left join keeps a column the right side does not have. *)
Lemma merge_left_col_kept left right c :
  NoDup (col right "Date") →
  (∀ r, r ∈ rows right → r !! c = None) →
  col (merge_left_on_Date left right) c = col left c.
Proof.
  unfold col. cbn [rows merge_left_on_Date]. intros Hnd Hc.
  induction (rows left) as [|l ls IH]; [done|].
  cbn [flat_map]. rewrite fmap_app, fmap_cons, IH. cbn [app]. f_equal.
  unfold merge_row.
  destruct (filter_distinct_dates (rows right) (at_ l "Date") Hnd) as [->|(r & Hf & Hr)];
    [done|].
  rewrite Hf. cbn. rewrite at_union_right_missing; [done|].
  apply Hc. apply list_elem_of_In.
  eapply (proj1 (filter_In _ r (rows right))). rewrite Hf. by left.
Qed.

Lemma renamed_series_keys data state :
  keys_in_columns (rename (series_frame data) "Unemployment Rate" state).
Proof.
  intros r c Hr Hc. rewrite columns_renamed_series in Hc.
  unfold rename, series_frame in Hr. cbn [rows] in Hr.
  apply list_elem_of_fmap in Hr as (r0 & -> & Hr).
  apply list_elem_of_fmap in Hr as ([d v] & -> & _).
  rewrite !elem_of_cons, elem_of_nil in Hc.
  unfold rename_row. rewrite lookup_insert_ne, lookup_singleton_eq by done.
  rewrite lookup_insert_ne by naive_solver.
  destruct (decide (c = "Unemployment Rate")) as [->|Hu].
  - by rewrite lookup_delete_eq.
  - rewrite lookup_delete_ne, lookup_insert_ne, lookup_singleton_ne by naive_solver. done.
Qed.

Lemma renamed_series_row_at (o : Timestamp * option Q) state :
  state ≠ "Date" →
  at_ (rename_row "Unemployment Rate" state
         {[ "Date" := Ts o.1; "Unemployment Rate" := num o.2 ]}) "Date" = Ts o.1
  ∧ at_ (rename_row "Unemployment Rate" state
           {[ "Date" := Ts o.1; "Unemployment Rate" := num o.2 ]}) state = num o.2.
Proof.
  intros Hs. unfold at_, rename_row.
  rewrite lookup_insert_ne, lookup_singleton_eq by done.
  rewrite lookup_insert_eq. split; [|done].
  rewrite lookup_insert_ne by done.
  by rewrite lookup_delete_ne, lookup_insert_eq.
Qed.

(** The rows of a series that a date selects, and its first observation of
    that date. *)
Lemma series_rows_of_date data state (dc : cell) :
  state ≠ "Date" →
  match List.filter (λ r, bool_decide (at_ r "Date" = dc))
          (rows (rename (series_frame data) "Unemployment Rate" state)) with
  | [] => match dc with Ts d => value_at data d = NaN | _ => True end
  | r :: _ => ∃ d, dc = Ts d ∧ at_ r state = value_at data d
  end.
Proof.
  intros Hs. unfold rename, series_frame. cbn [rows].
  induction data as [|o data IH].
  - cbn. by destruct dc.
  - rewrite !fmap_cons. cbn [List.filter].
    destruct (renamed_series_row_at o state Hs) as [Hd Hv]. rewrite Hd.
    unfold value_at. cbn [List.find].
    case_bool_decide as Hdc.
    + exists o.1. split; [done|]. rewrite bool_decide_true by done. by rewrite Hv.
    + destruct (List.filter _ _) as [|r rs].
      * destruct dc as [| | |d]; try done.
        rewrite bool_decide_false by congruence. exact IH.
      * destruct IH as (d & -> & IH). exists d. split; [done|].
        rewrite bool_decide_false by congruence. exact IH.
Qed.

(** A left join with a series writes, under the label of its state, the
    observation of each date of the left side. *)
Lemma merge_series_col left data state :
  NoDup data.*1 → state ≠ "Date" →
  (∀ l, l ∈ rows left → l !! state = None) →
  col (merge_left_on_Date left (rename (series_frame data) "Unemployment Rate" state)) state
  = (λ dc, match dc with Ts d => value_at data d | _ => NaN end) <$> col left "Date".
Proof.
  intros Hnd Hs Hl. unfold col. cbn [rows merge_left_on_Date].
  rewrite <- list_fmap_compose.
  assert (Hnd' : NoDup ((λ r, at_ r "Date")
                          <$> rows (rename (series_frame data) "Unemployment Rate" state))).
  { fold (col (rename (series_frame data) "Unemployment Rate" state) "Date").
    rewrite col_renamed_series_date by done. by apply (NoDup_fmap_2 _). }
  induction (rows left) as [|l ls IH]; [done|].
  cbn [flat_map]. rewrite fmap_app, fmap_cons, IH by (intros; apply Hl; by right).
  cbn [app]. f_equal. unfold merge_row.
  pose proof (series_rows_of_date data state (at_ l "Date") Hs) as Hrows.
  destruct (filter_distinct_dates _ (at_ l "Date") Hnd') as [Hf|(r & Hf & Hr)];
    rewrite Hf in *.
  - cbn. assert (at_ l state = NaN) as -> by (unfold at_; by rewrite Hl; [|left]).
    destruct (at_ l "Date"); try done. by rewrite Hrows.
  - cbn. destruct Hrows as (d & -> & Hv).
    rewrite at_union_left_missing by (apply Hl; by left). by rewrite Hv.
Qed.

Lemma merge_left_keys left right :
  keys_in_columns left → keys_in_columns right → "Date" ∈ columns left →
  keys_in_columns (merge_left_on_Date left right).
Proof.
  intros Hl Hr Hd r c Hin Hc. cbn [rows columns merge_left_on_Date] in *.
  apply not_elem_of_app in Hc as [Hcl Hcr].
  assert (c ∉ columns right) as Hcr'.
  { intros Hin'. apply Hcr. apply list_elem_of_In, filter_In.
    split; [by apply list_elem_of_In|]. apply negb_true_iff, String.eqb_neq.
    by intros ->. }
  apply list_elem_of_In, in_flat_map in Hin as (l & Hlin%list_elem_of_In & Hin%list_elem_of_In).
  unfold merge_row in Hin.
  destruct (List.filter _ (rows right)) as [|m ms] eqn:Hf.
  - apply list_elem_of_singleton in Hin as ->. by apply Hl.
  - apply list_elem_of_fmap in Hin as (r0 & -> & Hr0).
    apply lookup_union_None. split; [by apply Hl|]. apply Hr; [|done].
    rewrite <- Hf in Hr0. by apply list_elem_of_In, filter_In in Hr0 as [?%list_elem_of_In _].
Qed.

Lemma getitems_keys df cs b : getitems df cs = Done b → keys_in_columns b ∧ columns b = cs.
Proof.
  unfold getitems. destruct (List.filter _ cs); [|done]. intros [= <-].
  split; [|done]. intros r c Hr Hc. cbn [rows columns] in *.
  apply list_elem_of_fmap in Hr as (r0 & -> & _).
  apply map_lookup_filter_None. right. intros x _ Hx. by apply Hc.
Qed.

(** The merge loop keeps the columns it does not merge. *)
Lemma merged_keeps states_selected : ∀ backbone c,
  distinct_dates fred →
  Forall (λ s, is_Some (STATE_SERIES_IDS !! s)) states_selected →
  c ∉ states_selected → c ≠ "Date" →
  col (foldl (merge_state fred) backbone states_selected) c = col backbone c.
Proof.
  intros backbone c Hdd Hsel. revert backbone.
  induction Hsel as [|s states Hs Hsel IH]; intros backbone Hc Hd; [done|].
  apply not_elem_of_cons in Hc as [Hcs Hc].
  cbn [foldl]. rewrite IH by done. unfold merge_state.
  destruct Hs as [series_id Hid]. rewrite Hid.
  destruct (empty (fetched fred series_id)) eqn:He; [done|].
  unfold fetched in *. destruct (fred series_id) as [e|data] eqn:Hf; [done|].
  apply merge_left_col_kept.
  - rewrite col_renamed_series_date by (apply selectable_not_reserved; by rewrite Hid).
    apply (NoDup_fmap_2 _). by eapply Hdd.
  - intros r Hr. apply (renamed_series_keys data s r c Hr).
    rewrite columns_renamed_series, !elem_of_cons, elem_of_nil. naive_solver.
Qed.

Lemma merge_state_invariants backbone s :
  is_Some (STATE_SERIES_IDS !! s) →
  keys_in_columns backbone → "Date" ∈ columns backbone →
  keys_in_columns (merge_state fred backbone s)
  ∧ "Date" ∈ columns (merge_state fred backbone s)
  ∧ ∀ x, x ≠ s → x ∉ columns backbone → x ∉ columns (merge_state fred backbone s).
Proof.
  intros [series_id Hid] Hk Hd. unfold merge_state. rewrite Hid.
  destruct (empty (fetched fred series_id)) eqn:He; [done|].
  unfold fetched in *. destruct (fred series_id) as [e|data]; [done|].
  split; [|split].
  - apply merge_left_keys; [done| |done]. apply renamed_series_keys.
  - rewrite merge_left_columns. apply elem_of_app. by left.
  - intros x Hx Hnot. rewrite merge_left_columns, columns_renamed_series.
    intros [?|Hin%list_elem_of_In%filter_In]%elem_of_app; [done|].
    destruct Hin as [Hin%list_elem_of_In Hne].
    rewrite !elem_of_cons, elem_of_nil in Hin.
    destruct Hin as [->|[->|[]]]; [done|done].
Qed.

(** The column of a merged state holds its observation at each date of the
    backbone. *)
Lemma merged_state_col states_selected : ∀ backbone s series_id data,
  distinct_dates fred →
  NoDup states_selected →
  Forall (λ s, is_Some (STATE_SERIES_IDS !! s)) states_selected →
  keys_in_columns backbone → "Date" ∈ columns backbone →
  (∀ x, x ∈ states_selected → x ∉ columns backbone) →
  s ∈ states_selected →
  STATE_SERIES_IDS !! s = Some series_id → fred series_id = inr data → data ≠ [] →
  col (foldl (merge_state fred) backbone states_selected) s
  = (λ dc, match dc with Ts d => value_at data d | _ => NaN end) <$> col backbone "Date".
Proof.
  induction states_selected as [|s0 states IH];
    intros backbone s series_id data Hdd Hnd Hsel Hk Hd Hnew Hs Hid Hf Hne.
  { by apply elem_of_nil in Hs. }
  apply NoDup_cons in Hnd as [Hs0 Hnd]. apply Forall_cons in Hsel as [Hsome Hsel].
  destruct (merge_state_invariants backbone s0 Hsome Hk Hd) as (Hk1 & Hd1 & Hnew1).
  destruct (selectable_not_reserved s0 Hsome) as (Hs0d & _).
  cbn [foldl]. apply elem_of_cons in Hs as [->|Hs].
  - rewrite merged_keeps by done. unfold merge_state. rewrite Hid.
    unfold fetched. rewrite Hf.
    destruct data as [|o data]; [done|]. cbn [empty series_frame columns rows fmap list_fmap].
    apply merge_series_col; [by eapply Hdd|done|].
    intros l Hl. apply Hk; [done|]. apply Hnew. by left.
  - assert (Hnew' : ∀ x, x ∈ states → x ∉ columns (merge_state fred backbone s0)).
    { intros x Hx. apply Hnew1; [by intros ->|]. apply Hnew. by right. }
    rewrite (IH _ s series_id data) by done.
    f_equal. unfold merge_state. destruct Hsome as [id0 Hid0]. rewrite Hid0.
    destruct (empty (fetched fred id0)) eqn:He; [done|].
    unfold fetched in *. destruct (fred id0) as [e|data0] eqn:Hf0; [done|].
    apply merge_left_dates. rewrite col_renamed_series_date by done.
    apply (NoDup_fmap_2 _). by eapply Hdd.
Qed.

End JoinValues.

Section AssembledValues.

Variable fred : string → string + list (Timestamp * option Q).

Lemma build_comparison_backbone us states_selected page :
  fred "UNRATE" = inr us →
  Forall (λ s, is_Some (STATE_SERIES_IDS !! s)) states_selected →
  ∃ backbone,
    columns backbone = ["Date"; "United States"]
    ∧ keys_in_columns backbone
    ∧ col backbone "Date" = Ts <$> us.*1
    ∧ col backbone "United States" = num <$> us.*2
    ∧ build_comparison fred states_selected page
      = (Done (foldl (merge_state fred) backbone states_selected),
         page ++ state_reports fred states_selected).
Proof.
  intros Hus Hsel.
  destruct (col_us_backbone us) as (backbone & Hget & Hcols & Hdate & Hval).
  exists backbone. destruct (getitems_keys _ _ _ Hget) as [Hk _].
  repeat split; [done..|].
  unfold build_comparison, us_df. unfold bind at 1. unfold bind at 1.
  rewrite get_series_run. unfold fetched, reported. rewrite Hus.
  unfold ret at 1. unfold comparison_df. unfold bind at 1. unfold lift at 1.
  rewrite Hget, app_nil_r. by apply merge_loop_run.
Qed.

End AssembledValues.

(** X4.  The table the merge loop builds, for a national series that was
    fetched and series with distinct dates: its labels are "Date", "United
    States" and then the selected states whose fetch brought rows, in the
    order of the selection; the national column holds the national values
    unchanged; the column of such a state holds, at every national date,
    the state's observation of that date, and a missing value when the
    state has none. *)
Theorem comparison_table_is_left_join
    (fred : string → string + list (Timestamp * option Q))
    (us : list (Timestamp * option Q)) (states_selected : list string)
    (page : list element) :
  fred "UNRATE" = inr us →
  selectable states_selected →
  distinct_dates fred →
  ∃ table page',
    build_comparison fred states_selected page = (Done table, page')
    ∧ columns table = ["Date"; "United States"] ++ List.filter (has_data fred) states_selected
    ∧ col table "United States" = num <$> us.*2
    ∧ ∀ state series_id data,
        state ∈ states_selected →
        STATE_SERIES_IDS !! state = Some series_id →
        fred series_id = inr data → data ≠ [] →
        col table state = value_at data <$> us.*1.
Proof.
  intros Hus [Hnd Hsel] Hdd.
  destruct (build_comparison_backbone fred us states_selected page Hus Hsel)
    as (backbone & Hcols & Hk & Hdate & Hval & Hrun).
  eexists _, _. split; [exact Hrun|]. split; [|split].
  - by rewrite merged_columns, Hcols.
  - rewrite merged_keeps; [done|done|done| |done].
    intros Hin. rewrite Forall_forall in Hsel.
    by destruct (selectable_not_reserved _ (Hsel _ Hin)) as (_ & ? & _).
  - intros state series_id data Hin Hid Hf Hne.
    rewrite (merged_state_col fred states_selected backbone state series_id data);
      try done.
    + rewrite Hdate, <- list_fmap_compose. by apply list_fmap_ext.
    + rewrite Hcols. apply (bool_decide_unpack _). by vm_compute.
    + intros x Hx. rewrite Hcols. rewrite Forall_forall in Hsel.
      destruct (selectable_not_reserved _ (Hsel _ Hx)) as (? & ? & _).
      rewrite !elem_of_cons, elem_of_nil. naive_solver.
Qed.

Lemma comparison_table_is_left_join_witness :
  ∃ table page',
    build_comparison Samples.fred_long ["Texas"; "Louisiana"] [] = (Done table, page')
    ∧ columns table
      = ["Date"; "United States"]
        ++ List.filter (has_data Samples.fred_long) ["Texas"; "Louisiana"]
    ∧ col table "United States"
      = num <$> [(Samples.month 2020 1, Some 5%Q); (Samples.month 2020 2, Some (26 # 5)%Q)].*2
    ∧ ∀ state series_id data,
        state ∈ ["Texas"; "Louisiana"] →
        STATE_SERIES_IDS !! state = Some series_id →
        Samples.fred_long series_id = inr data → data ≠ [] →
        col table state
        = value_at data
            <$> [(Samples.month 2020 1, Some 5%Q); (Samples.month 2020 2, Some (26 # 5)%Q)].*1.
Proof.
  apply (comparison_table_is_left_join Samples.fred_long
           [(Samples.month 2020 1, Some 5%Q); (Samples.month 2020 2, Some (26 # 5)%Q)]
           ["Texas"; "Louisiana"] []).
  - reflexivity.
  - exact samples_selectable.
  - intros series_id data. unfold Samples.fred_long.
    destruct (String.eqb series_id "UNRATE");
      [|destruct (String.eqb series_id "TXUR")]; intros [= <-];
      apply (bool_decide_unpack _); by vm_compute.
Defined.

(** ** A selected state without data stops both scripts *)

Section StateWithoutData.

Variable fred : string → string + list (Timestamp * option Q).

Lemma reported_errors series_id :
  Forall (λ el, ∃ msg, el = error msg) (reported fred series_id).
Proof.
  unfold reported. destruct (fred series_id); repeat constructor. by eexists.
Qed.

Lemma state_reports_errors states_selected :
  Forall (λ el, ∃ msg, el = error msg) (state_reports fred states_selected).
Proof.
  unfold state_reports. induction states_selected as [|s states IH]; [constructor|].
  rewrite fmap_cons. cbn [concat]. apply Forall_app. split; [|done].
  destruct (STATE_SERIES_IDS !! s); [apply reported_errors|constructor].
Qed.

(** The labels of the merged table that the selection misses: the selected
    states without data. *)
Lemma merged_missing_columns backbone states_selected :
  columns backbone = ["Date"; "United States"] →
  Forall (λ s, is_Some (STATE_SERIES_IDS !! s)) states_selected →
  List.filter (λ c, negb (bool_decide
                            (c ∈ columns (foldl (merge_state fred) backbone states_selected))))
              states_selected
  = List.filter (λ s, negb (has_data fred s)) states_selected.
Proof.
  intros Hcols Hsel. apply filter_ext_in. intros s Hs%list_elem_of_In. f_equal.
  rewrite merged_columns, Hcols by done.
  rewrite Forall_forall in Hsel.
  destruct (selectable_not_reserved s (Hsel s Hs)) as (Hd & Hu & _).
  destruct (has_data fred s) eqn:Hdata.
  - apply bool_decide_eq_true. apply elem_of_app. right.
    apply list_elem_of_In, filter_In. split; [by apply list_elem_of_In|done].
  - apply bool_decide_eq_false.
    intros [Hb|Hf%list_elem_of_In%filter_In]%elem_of_app.
    + rewrite !elem_of_cons, elem_of_nil in Hb. by destruct Hb as [?|[?|[]]].
    + destruct Hf as [_ Hf]. congruence.
Qed.

Lemma state_date_column_run s series_id page :
  STATE_SERIES_IDS !! s = Some series_id →
  (let* series_id := lift (dict_getitem STATE_SERIES_IDS s) in
   let* df := get_series fred series_id in
   lift (getitem df "Date")) page
  = match fred series_id with
    | inr data => (Done (col (series_frame data) "Date"), page)
    | inl e =>
        (Raised (KeyError "Date"),
         page ++ [error ("Failed to fetch data for series " +:+ series_id +:+ ": " +:+ e)])
    end.
Proof.
  intros Hid.
  erewrite bind_run_Done by (unfold lift, dict_getitem; by rewrite Hid).
  erewrite bind_run_Done by apply get_series_run.
  unfold fetched, reported. destruct (fred series_id) as [e|data]; [done|].
  unfold lift, getitem. rewrite decide_True by (cbn; by left). by rewrite app_nil_r.
Qed.

(** In [economics_dashboard.py] the date columns are read from every
    selected series: a failed fetch raises there. *)
Lemma all_dates_failure us_df states_selected : ∀ page,
  "Date" ∈ columns us_df →
  Forall (λ s, is_Some (STATE_SERIES_IDS !! s)) states_selected →
  Exists (λ s, ∃ series_id e, STATE_SERIES_IDS !! s = Some series_id
                              ∧ fred series_id = inl e) states_selected →
  ∃ report,
    Dashboard.all_dates fred us_df states_selected page
    = (Raised (KeyError "Date"), page ++ report)
    ∧ Forall (λ el, ∃ msg, el = error msg) report.
Proof.
  intros page Hd Hsel Hex. unfold Dashboard.all_dates.
  unfold bind at 1. unfold lift at 1. unfold getitem at 1. rewrite decide_True by done.
  assert (∃ report,
            comprehension states_selected (λ s,
              let* series_id := lift (dict_getitem STATE_SERIES_IDS s) in
              let* df := get_series fred series_id in
              lift (getitem df "Date")) page
            = (Raised (KeyError "Date"), page ++ report)
            ∧ Forall (λ el, ∃ msg, el = error msg) report) as (report & Hrun & Hrep).
  { clear Hd. revert page.
    induction states_selected as [|s states IH]; intros page.
    { by apply Exists_nil in Hex. }
    apply Forall_cons in Hsel as [[series_id Hid] Hsel].
    cbn [comprehension].
    pose proof (state_date_column_run s series_id page Hid) as Hs.
    destruct (fred series_id) as [e|data] eqn:Hf.
    - exists [error ("Failed to fetch data for series " +:+ series_id +:+ ": " +:+ e)].
      split; [|repeat constructor; by eexists].
      by erewrite bind_run_Raised by exact Hs.
    - apply Exists_cons in Hex as [(id' & e & Hid' & He)|Hex]; [congruence|].
      destruct (IH Hsel Hex page) as (report & Hrun & Hrep).
      exists report. split; [|done].
      erewrite bind_run_Done by exact Hs.
      by erewrite bind_run_Raised by exact Hrun. }
  exists report. split; [|done]. unfold bind at 1. by rewrite Hrun.
Qed.

End StateWithoutData.

(** X5.  In [economics_dashboard_3cols.py], when the national series was
    fetched with observations and some selected state has no data (its
    fetch failed or brought no row), the script stops at the line chart:
    once the sidebar
    is done, the table is built and reading the column of the first such
    state raises [KeyError]; nothing but the fetch reports is added to the
    page. *)
Theorem state_level_3cols_stops_at_state_without_data
    (fred : string → string + list (Timestamp * option Q))
    (us : list (Timestamp * option Q)) (inp : Dashboard3Cols.Inputs)
    (page : list element) (side : option (cell * cell) * option (Timestamp * Timestamp))
    (page1 : list element) (s0 : string) (rest : list string) :
  let states_selected :=
    Dashboard3Cols.states_selected (Dashboard3Cols.selected_state_options inp) in
  fred "UNRATE" = inr us →
  us ≠ [] →
  selectable states_selected →
  Dashboard3Cols.sidebar fred states_selected inp page = (Done side, page1) →
  List.filter (λ s, negb (has_data fred s)) states_selected = s0 :: rest →
  Dashboard3Cols.state_level fred inp page
  = (Raised (KeyError s0), page1 ++ state_reports fred states_selected).
Proof.
  intros states_selected Hus _ [_ Hsel] Hside Hmiss.
  destruct (build_comparison_backbone fred us states_selected page1 Hus Hsel)
    as (backbone & Hcols & _ & _ & _ & Hrun).
  unfold Dashboard3Cols.state_level. cbv zeta. fold states_selected.
  erewrite bind_run_Done by exact Hside.
  unfold build_comparison in Hrun. rewrite <- bind_assoc_run.
  erewrite bind_run_Done by exact Hrun.
  assert (Hc : columns (Dashboard3Cols.apply_window
                          (foldl (merge_state fred) backbone states_selected) side.2)
               = columns (foldl (merge_state fred) backbone states_selected)).
  { by destruct (side.2) as [[? ?]|]. }
  erewrite bind_run_Raised; [reflexivity|].
  rewrite fig_run.
  - rewrite Hc, merged_missing_columns, Hmiss by done. done.
  - rewrite Hc, merged_columns, Hcols by done. apply elem_of_app. left. by left.
  - rewrite Hc, merged_columns, Hcols by done. apply elem_of_app. left. right. by left.
Qed.

Lemma state_level_3cols_stops_at_state_without_data_witness :
  Dashboard3Cols.state_level Samples.fred
    (Dashboard3Cols.mkInputs ["Texas"; "Louisiana"] None None None) []
  = (Raised (KeyError "Louisiana"),
     [error "Failed to fetch data for series LAUR: Bad Request.  The series does not exist."]
     ++ state_reports Samples.fred
          (Dashboard3Cols.states_selected ["Texas"; "Louisiana"])).
Proof.
  apply (state_level_3cols_stops_at_state_without_data Samples.fred
           [(Samples.month 2020 1, Some 5%Q); (Samples.month 2020 2, Some (26 # 5)%Q)]
           (Dashboard3Cols.mkInputs ["Texas"; "Louisiana"] None None None) []
           (Some (Ts (Samples.month 2020 1), Ts (Samples.month 2020 1)),
            Some (Samples.month 2020 1, Samples.month 2020 1))
           _ "Louisiana" []).
  - reflexivity.
  - done.
  - exact samples_selectable.
  - by vm_compute.
  - by vm_compute.
Defined.

(** X6.  In [economics_dashboard.py], when the national series was fetched
    and the fetch of some selected state fails, the script stops before
    anything is drawn: the table is built, then the read of
    [get_series(...)["Date"]] for the common range raises [KeyError] on the
    empty frame; the page holds fetch reports only. *)
Theorem state_level_stops_at_failed_fetch
    (fred : string → string + list (Timestamp * option Q))
    (us : list (Timestamp * option Q)) (inp : Dashboard.Inputs) (page : list element) :
  fred "UNRATE" = inr us →
  selectable (Dashboard.states_selected inp) →
  Exists (λ s, ∃ series_id e, STATE_SERIES_IDS !! s = Some series_id
                              ∧ fred series_id = inl e) (Dashboard.states_selected inp) →
  ∃ report,
    Dashboard.state_level fred inp page = (Raised (KeyError "Date"), page ++ report)
    ∧ Forall (λ el, ∃ msg, el = error msg) report.
Proof.
  intros Hus [_ Hsel] Hex.
  destruct (col_us_backbone us) as (backbone & Hget & Hcols & _).
  assert (Hu : us_df fred page
               = (Done (rename (series_frame us) "Unemployment Rate" "United States"), page)).
  { unfold us_df. erewrite bind_run_Done by apply get_series_run.
    unfold fetched, reported. rewrite Hus. unfold ret. by rewrite app_nil_r. }
  destruct (all_dates_failure fred
              (rename (series_frame us) "Unemployment Rate" "United States")
              (Dashboard.states_selected inp)
              (page ++ state_reports fred (Dashboard.states_selected inp)))
    as (report & Hdates & Hrep); [by left|done|done|].
  exists (state_reports fred (Dashboard.states_selected inp) ++ report). split.
  - unfold Dashboard.state_level.
    erewrite bind_run_Done by exact Hu.
    erewrite bind_run_Done.
    2:{ unfold comparison_df. erewrite bind_run_Done.
        2:{ unfold lift. rewrite Hget. reflexivity. }
        by apply merge_loop_run. }
    erewrite bind_run_Raised; [by rewrite app_assoc|].
    unfold Dashboard.window. erewrite bind_run_Raised; [reflexivity|]. exact Hdates.
  - apply Forall_app. split; [apply state_reports_errors|done].
Qed.

Lemma state_level_stops_at_failed_fetch_witness :
  ∃ report,
    Dashboard.state_level Samples.fred (Dashboard.mkInputs ["Texas"; "Louisiana"] None None) []
    = (Raised (KeyError "Date"), [] ++ report)
    ∧ Forall (λ el, ∃ msg, el = error msg) report.
Proof.
  apply (state_level_stops_at_failed_fetch Samples.fred
           [(Samples.month 2020 1, Some 5%Q); (Samples.month 2020 2, Some (26 # 5)%Q)]
           (Dashboard.mkInputs ["Texas"; "Louisiana"] None None) []).
  - reflexivity.
  - exact samples_selectable.
  - right. left. by eexists _, _.
Defined.

(** ** When every fetch succeeds *)

Section Completion.

Variable fred : string → string + list (Timestamp * option Q).

Lemma py_max_Ts_le (xs : list cell) (t : Timestamp) :
  xs ≠ [] →
  Forall (λ c, ∃ a, c = Ts a ∧ ts_le a t) xs →
  ∃ m, py_max xs = Done (Ts m) ∧ ts_le m t.
Proof.
  destruct xs as [|x xs]; [done|]. intros _ [(a & -> & Ha) Hxs]%Forall_cons.
  cbn [py_max]. revert a Ha. induction Hxs as [|y ys (b & -> & Hb) _ IH]; intros a Ha.
  - by exists a.
  - cbn [foldl py_gt]. case_bool_decide; by apply IH.
Qed.

Lemma py_min_Ts_ge (xs : list cell) (t : Timestamp) :
  xs ≠ [] →
  Forall (λ c, ∃ a, c = Ts a ∧ ts_le t a) xs →
  ∃ m, py_min xs = Done (Ts m) ∧ ts_le t m.
Proof.
  destruct xs as [|x xs]; [done|]. intros _ [(a & -> & Ha) Hxs]%Forall_cons.
  cbn [py_min]. revert a Ha. induction Hxs as [|y ys (b & -> & Hb) _ IH]; intros a Ha.
  - by exists a.
  - cbn [foldl py_lt]. case_bool_decide; by apply IH.
Qed.

(** A date input with its default within ordered bounds returns a date of
    the range and leaves the page as it is. *)
Lemma date_input_returns v lo hi pick page :
  ts_le lo v → ts_le v hi →
  ∃ d, date_input (Ts v) (Ts lo) (Ts hi) pick page = (Done d, page)
       ∧ ts_le lo d ∧ ts_le d hi
       ∧ (pick = None → d = v)
       ∧ (∀ p, pick = Some p → ts_le lo p → ts_le p hi → d = p).
Proof.
  intros H1 H2. unfold date_input. rewrite !bool_decide_true by done. cbn [andb].
  destruct pick as [p|].
  - destruct (bool_decide (ts_le lo p) && bool_decide (ts_le p hi)) eqn:Hp.
    + apply andb_true_iff in Hp as [H3%bool_decide_eq_true H4%bool_decide_eq_true].
      exists p. repeat split; try done. by intros ? [= ->].
    + exists v. repeat split; try done. intros ? [= <-] H3 H4.
      by rewrite !bool_decide_true in Hp.
  - exists v. repeat split; try done.
Qed.

Lemma has_data_fetched s :
  has_data fred s = true →
  ∃ series_id data,
    STATE_SERIES_IDS !! s = Some series_id ∧ fred series_id = inr data ∧ data ≠ [].
Proof.
  unfold has_data, fetched. destruct (STATE_SERIES_IDS !! s) as [series_id|]; [|done].
  destruct (fred series_id) as [e|data] eqn:Hf; [done|].
  destruct data; [done|]. intros _. by eexists _, _.
Qed.

Lemma state_reports_nil states_selected :
  Forall (λ s, has_data fred s = true) states_selected →
  state_reports fred states_selected = [].
Proof.
  unfold state_reports. induction 1 as [|s states Hs _ IH]; [done|].
  rewrite fmap_cons. cbn [concat]. rewrite IH, app_nil_r.
  destruct (has_data_fetched s Hs) as (series_id & data & -> & Hf & _).
  unfold reported. by rewrite Hf.
Qed.

(** With data for every selected state, [economics_dashboard.py] reads all
    the date columns and reports nothing. *)
Lemma all_dates_success us_df states_selected page :
  "Date" ∈ columns us_df →
  Forall (λ s, has_data fred s = true) states_selected →
  Dashboard.all_dates fred us_df states_selected page
  = (Done (col us_df "Date" :: (state_dates fred <$> states_selected)), page).
Proof.
  intros Hd Hall. unfold Dashboard.all_dates.
  erewrite bind_run_Done by (unfold lift, getitem; by rewrite decide_True).
  erewrite bind_run_Done; [reflexivity|].
  clear Hd. induction Hall as [|s states Hs _ IH]; [done|].
  cbn [comprehension]. destruct (has_data_fetched s Hs) as (series_id & data & Hid & Hf & _).
  pose proof (state_date_column_run fred s series_id page Hid) as Hrun.
  rewrite Hf in Hrun. erewrite bind_run_Done by exact Hrun.
  erewrite bind_run_Done by exact IH.
  unfold ret. rewrite fmap_cons. do 3 f_equal.
  unfold state_dates, fetched. by rewrite Hid, Hf.
Qed.

(** The same for the guarded comprehension of
    [economics_dashboard_3cols.py]. *)
Lemma all_state_dates_success states_selected page :
  Forall (λ s, has_data fred s = true) states_selected →
  Dashboard3Cols.all_state_dates fred states_selected page
  = (Done (state_dates fred <$> states_selected), page).
Proof.
  induction 1 as [|s states Hs _ IH]; [done|].
  cbn [Dashboard3Cols.all_state_dates].
  destruct (has_data_fetched s Hs) as (series_id & data & Hid & Hf & Hne).
  assert (Hget : get_series fred series_id page = (Done (series_frame data), page)).
  { rewrite get_series_run. unfold fetched, reported. by rewrite Hf, app_nil_r. }
  erewrite bind_run_Done by (unfold lift, dict_getitem; by rewrite Hid).
  erewrite bind_run_Done by exact Hget.
  assert (empty (series_frame data) = false) as -> by by destruct data.
  erewrite bind_run_Done by (unfold lift, dict_getitem; by rewrite Hid).
  erewrite bind_run_Done by exact Hget.
  erewrite bind_run_Done by (unfold lift, getitem; rewrite decide_True; [done|cbn; by left]).
  erewrite bind_run_Done by exact IH.
  unfold ret. rewrite fmap_cons. do 3 f_equal.
  unfold state_dates, fetched. by rewrite Hid, Hf.
Qed.

(** The common range of date columns that share a date [t]. *)
Lemma common_range_of_shared_date (dates : list (list cell)) (t : Timestamp) :
  dates ≠ [] →
  Forall (λ d, ∃ lo hi, series_min d = Ts lo ∧ series_max d = Ts hi
                        ∧ ts_le lo t ∧ ts_le t hi) dates →
  ∃ cs ce,
    py_max (series_min <$> dates) = Done (Ts cs)
    ∧ py_min (series_max <$> dates) = Done (Ts ce)
    ∧ ts_le cs t ∧ ts_le t ce.
Proof.
  intros Hne Hall.
  destruct (py_max_Ts_le (series_min <$> dates) t) as (cs & Hcs & Hcst).
  { by destruct dates. }
  { apply Forall_fmap. eapply Forall_impl; [exact Hall|].
    intros d (lo & hi & Hlo & _ & H1 & _). by exists lo. }
  destruct (py_min_Ts_ge (series_max <$> dates) t) as (ce & Hce & Hcet).
  { by destruct dates. }
  { apply Forall_fmap. eapply Forall_impl; [exact Hall|].
    intros d (lo & hi & _ & Hhi & _ & H2). by exists hi. }
  by exists cs, ce.
Qed.

Lemma all_states_have_columns backbone states_selected :
  columns backbone = ["Date"; "United States"] →
  Forall (λ s, is_Some (STATE_SERIES_IDS !! s)) states_selected →
  Forall (λ s, has_data fred s = true) states_selected →
  List.filter (λ c, negb (bool_decide
                            (c ∈ columns (foldl (merge_state fred) backbone states_selected))))
              states_selected = [].
Proof.
  intros Hcols Hsel Hall. rewrite merged_missing_columns by done.
  induction Hall as [|s states Hs _ IH]; [done|].
  apply Forall_cons in Hsel as [_ Hsel]. cbn [List.filter]. rewrite Hs. by apply IH.
Qed.

End Completion.

(** X7.  [economics_dashboard.py] runs to its table when the national
    series was fetched, every selected state has data and all the series
    share a date [t]: nothing is reported, the chart has the national
    trace and one trace per selected state, the table has a column per
    selected state and only rows dated within the window, and with no date
    picked the window contains [t]. *)
Theorem state_level_completes
    (fred : string → string + list (Timestamp * option Q))
    (us : list (Timestamp * option Q)) (inp : Dashboard.Inputs)
    (t : Timestamp) (page : list element) :
  fred "UNRATE" = inr us →
  selectable (Dashboard.states_selected inp) →
  Forall (λ s, has_data fred s = true) (Dashboard.states_selected inp) →
  Forall (λ d, ∃ lo hi, series_min d = Ts lo ∧ series_max d = Ts hi
                        ∧ ts_le lo t ∧ ts_le t hi)
         ((Ts <$> us.*1) :: (state_dates fred <$> Dashboard.states_selected inp)) →
  ∃ table traces start_date end_date,
    Dashboard.state_level fred inp page
    = (Done table,
       page ++ [plotly_chart traces; dataframe table; download_button "Download CSV" table])
    ∧ sc_name <$> traces = "United States" :: Dashboard.states_selected inp
    ∧ columns table = "Date" :: "United States" :: Dashboard.states_selected inp
    ∧ (∀ r, r ∈ rows table →
            ∃ d, at_ r "Date" = Ts d ∧ ts_le start_date d ∧ ts_le d end_date)
    ∧ (Dashboard.start_pick inp = None → Dashboard.end_pick inp = None →
       ts_le start_date t ∧ ts_le t end_date).
Proof.
  intros Hus [_ Hsel] Hall Hshared.
  destruct (col_us_backbone us) as (backbone & Hget & Hcols & Hbd & _).
  set (U := rename (series_frame us) "Unemployment Rate" "United States") in *.
  assert (HUd : col U "Date" = Ts <$> us.*1).
  { unfold U. by rewrite col_renamed_series_date. }
  assert (Hu : us_df fred page = (Done U, page)).
  { unfold us_df. erewrite bind_run_Done by apply get_series_run.
    unfold fetched, reported. rewrite Hus. unfold ret. by rewrite app_nil_r. }
  set (T := foldl (merge_state fred) backbone (Dashboard.states_selected inp)).
  assert (Hcmp : comparison_df fred U (Dashboard.states_selected inp) page = (Done T, page)).
  { unfold comparison_df. erewrite bind_run_Done by (unfold lift; by rewrite Hget).
    rewrite merge_loop_run by done. by rewrite state_reports_nil, app_nil_r. }
  destruct (common_range_of_shared_date (col U "Date" :: (state_dates fred <$> (Dashboard.states_selected inp))) t)
    as (cs & ce & Hcs & Hce & Hcst & Htce); [done|by rewrite HUd|].
  assert (Hcsce : ts_le cs ce) by by eapply ts_le_trans.
  destruct (date_input_returns cs cs ce (Dashboard.start_pick inp) page)
    as (sd & Hsd & _ & _ & Hsdef & _); [apply ts_le_refl|done|].
  destruct (date_input_returns ce cs ce (Dashboard.end_pick inp) page)
    as (ed & Hed & _ & _ & Hedef & _); [done|apply ts_le_refl|].
  assert (Hw : Dashboard.window fred U inp page = (Done (sd, ed), page)).
  { unfold Dashboard.window.
    erewrite bind_run_Done by (apply all_dates_success; [by left|done]).
    cbv beta.
    erewrite bind_run_Done by (unfold lift, Dashboard.common_start; by rewrite Hcs).
    cbv beta.
    erewrite bind_run_Done by (unfold lift, Dashboard.common_end; by rewrite Hce).
    cbv beta. erewrite bind_run_Done by exact Hsd.
    cbv beta. by erewrite bind_run_Done by exact Hed. }
  assert (HTc : columns T = "Date" :: "United States" :: (Dashboard.states_selected inp)).
  { unfold T. rewrite merged_columns, Hcols by done. cbn [app]. do 2 f_equal.
    clear -Hall. induction Hall as [|s l Hs _ IH]; [done|].
    cbn [List.filter]. by rewrite Hs, IH. }
  pose proof (fig_run (loc T (mask sd ed)) (Dashboard.states_selected inp) page) as Hfig.
  cbn [columns loc] in Hfig. rewrite HTc in Hfig.
  specialize (Hfig ltac:(by left) ltac:(right; by left)).
  rewrite <- HTc in Hfig. unfold T in Hfig.
  rewrite all_states_have_columns in Hfig by done. fold T in Hfig.
  eexists (loc T (mask sd ed)), _, sd, ed. split; [|split; [|split; [|split]]].
  - unfold Dashboard.state_level.
    erewrite bind_run_Done by exact Hu.
    erewrite bind_run_Done by exact Hcmp.
    erewrite bind_run_Done by exact Hw.
    cbn [fst snd]. erewrite bind_run_Done by exact Hfig.
    unfold bind, st, ret. by rewrite <- !app_assoc.
  - cbn [app fmap list_fmap sc_name]. f_equal. rewrite <- list_fmap_compose.
    clear. induction (Dashboard.states_selected inp) as [|s l IH]; [done|]. rewrite fmap_cons. cbn. by f_equal.
  - done.
  - intros r Hr. by apply loc_mask_rows in Hr as [_ ?].
  - intros Hs He. by rewrite (Hsdef Hs), (Hedef He).
Qed.

Lemma state_level_completes_witness :
  ∃ table traces start_date end_date,
    Dashboard.state_level Samples.fred_long (Dashboard.mkInputs ["Texas"] None None) []
    = (Done table,
       [] ++ [plotly_chart traces; dataframe table; download_button "Download CSV" table])
    ∧ sc_name <$> traces = "United States" :: ["Texas"]
    ∧ columns table = "Date" :: "United States" :: ["Texas"]
    ∧ (∀ r, r ∈ rows table →
            ∃ d, at_ r "Date" = Ts d ∧ ts_le start_date d ∧ ts_le d end_date)
    ∧ (@None Timestamp = None → @None Timestamp = None →
       ts_le start_date (Samples.month 2020 1) ∧ ts_le (Samples.month 2020 1) end_date).
Proof.
  apply (state_level_completes Samples.fred_long
           [(Samples.month 2020 1, Some 5%Q); (Samples.month 2020 2, Some (26 # 5)%Q)]
           (Dashboard.mkInputs ["Texas"] None None) (Samples.month 2020 1) []).
  - reflexivity.
  - split; [apply (bool_decide_unpack _); by vm_compute|]. repeat constructor. by eexists.
  - by repeat constructor.
  - repeat constructor; eexists _, _; (split; [reflexivity|]); (split; [reflexivity|]);
      split; apply (bool_decide_unpack _); by vm_compute.
Defined.

Lemma slider_returns min_value max_value value pick page :
  (min_value < max_value)%Z →
  ∃ y, slider min_value max_value value pick page = (Done y, page)
       ∧ (pick = None → y = value).
Proof.
  intros H. unfold slider. rewrite bool_decide_true by done.
  destruct pick as [p|]; [|by exists value].
  case_bool_decide; [by exists p|by exists value].
Qed.

(** A slider whose bounds are equal is refused. *)
Lemma slider_refuses min_value max_value value pick page :
  (max_value ≤ min_value)%Z →
  slider min_value max_value value pick page = (Raised StreamlitAPIException, page).
Proof. intros H. unfold slider. by rewrite bool_decide_false by lia. Qed.

Lemma ts_le_year a b : ts_le a b → (ts_year a ≤ ts_year b)%Z.
Proof. unfold ts_le. lia. Qed.

Lemma trace_names df (l : list string) :
  sc_name <$> ((λ s, mkScatter s (col df "Date") (col df s)) <$> l) = l.
Proof. induction l as [|s l IH]; [done|]. rewrite !fmap_cons. cbn. by f_equal. Qed.

Section Completion3Cols.

Variable fred : string → string + list (Timestamp * option Q).

(** The sidebar of [economics_dashboard_3cols.py] when every selected state
    has data and the selected series share a date. *)
Lemma sidebar_success states_selected inp t page :
  Forall (λ s, has_data fred s = true) states_selected →
  Forall (λ d, ∃ lo hi, series_min d = Ts lo ∧ series_max d = Ts hi
                        ∧ ts_le lo t ∧ ts_le t hi)
         (state_dates fred <$> states_selected) →
  match states_selected with
  | [] => Dashboard3Cols.sidebar fred states_selected inp page = (Done (None, None), page)
  | _ :: _ =>
      ∃ cs ce sd ed,
        Dashboard3Cols.sidebar fred states_selected inp page
        = (Done (Some (Ts cs, Ts ce), Some (sd, ed)), page)
        ∧ ts_le cs ce
        ∧ py_max (series_min <$> (state_dates fred <$> states_selected)) = Done (Ts cs)
        ∧ py_min (series_max <$> (state_dates fred <$> states_selected)) = Done (Ts ce)
  end.
Proof.
  intros Hall Hshared.
  pose proof (all_state_dates_success fred states_selected page Hall) as Hdates.
  destruct states_selected as [|s0 states]; [reflexivity|].
  destruct (common_range_of_shared_date (state_dates fred <$> s0 :: states) t)
    as (cs & ce & Hcs & Hce & Hcst & Htce); [done|done|].
  assert (Hcsce : ts_le cs ce) by by eapply ts_le_trans.
  destruct (date_input_returns cs cs ce (Dashboard3Cols.start_pick inp) page)
    as (sd & Hsd & _); [apply ts_le_refl|done|].
  destruct (date_input_returns ce cs ce (Dashboard3Cols.end_pick inp) page)
    as (ed & Hed & _); [done|apply ts_le_refl|].
  exists cs, ce, sd, ed. split; [|done].
  unfold Dashboard3Cols.sidebar. erewrite bind_run_Done by exact Hdates. cbv beta.
  erewrite bind_run_Done.
  2:{ unfold Dashboard3Cols.common_range. rewrite fmap_cons. rewrite <- fmap_cons.
      erewrite bind_run_Done by (unfold lift; by rewrite Hcs).
      cbv beta. erewrite bind_run_Done by (unfold lift; by rewrite Hce).
      reflexivity. }
  cbv beta. erewrite bind_run_Done.
  2:{ cbn [Dashboard3Cols.window]. erewrite bind_run_Done by exact Hsd. cbv beta.
      erewrite bind_run_Done by exact Hed. reflexivity. }
  reflexivity.
Qed.

(** The script from a sidebar that is done to the map section. *)
Lemma state_level_3cols_run us inp page side :
  fred "UNRATE" = inr us →
  Forall (λ s, is_Some (STATE_SERIES_IDS !! s))
         (Dashboard3Cols.states_selected (Dashboard3Cols.selected_state_options inp)) →
  Forall (λ s, has_data fred s = true)
         (Dashboard3Cols.states_selected (Dashboard3Cols.selected_state_options inp)) →
  Dashboard3Cols.sidebar fred
    (Dashboard3Cols.states_selected (Dashboard3Cols.selected_state_options inp)) inp page
  = (Done side, page) →
  ∃ table traces,
    (∃ T, table = Dashboard3Cols.apply_window T side.2)
    ∧ columns table
      = "Date" :: "United States"
          :: Dashboard3Cols.states_selected (Dashboard3Cols.selected_state_options inp)
    ∧ sc_name <$> traces
      = "United States"
          :: Dashboard3Cols.states_selected (Dashboard3Cols.selected_state_options inp)
    ∧ (side.2 = None → col table "Date" = Ts <$> us.*1
                       ∧ col table "United States" = num <$> us.*2
                         ∨ Dashboard3Cols.states_selected
                             (Dashboard3Cols.selected_state_options inp) ≠ [])
    ∧ Dashboard3Cols.state_level fred inp page
      = bind (Dashboard3Cols.state_map table
                (Dashboard3Cols.states_selected (Dashboard3Cols.selected_state_options inp))
                side.1 inp)
             (λ _, ret table)
             (page ++ [plotly_chart traces; dataframe table;
                       download_button "Download CSV" table]).
Proof.
  intros Hus Hsel Hall Hside.
  destruct (build_comparison_backbone fred us _ page Hus Hsel)
    as (backbone & Hcols & _ & Hbd & Hbu & Hrun).
  rewrite state_reports_nil, app_nil_r in Hrun by done.
  unfold build_comparison in Hrun.
  set (T := foldl (merge_state fred) backbone
              (Dashboard3Cols.states_selected (Dashboard3Cols.selected_state_options inp)))
    in *.
  assert (HTc : columns T
                = "Date" :: "United States"
                    :: Dashboard3Cols.states_selected
                         (Dashboard3Cols.selected_state_options inp)).
  { unfold T. rewrite merged_columns, Hcols by done. cbn [app]. do 2 f_equal.
    clear -Hall. induction Hall as [|s l Hs _ IH]; [done|].
    cbn [List.filter]. by rewrite Hs, IH. }
  assert (Hc : columns (Dashboard3Cols.apply_window T side.2) = columns T)
    by by destruct (side.2) as [[? ?]|].
  assert (Hd : "Date" ∈ columns (Dashboard3Cols.apply_window T side.2))
    by (rewrite Hc, HTc; by left).
  assert (Hu : "United States" ∈ columns (Dashboard3Cols.apply_window T side.2))
    by (rewrite Hc, HTc; right; by left).
  pose proof (fig_run (Dashboard3Cols.apply_window T side.2)
                (Dashboard3Cols.states_selected (Dashboard3Cols.selected_state_options inp))
                page Hd Hu) as Hfig.
  assert (Hflt : List.filter (λ c, negb (bool_decide (c ∈ columns T)))
                   (Dashboard3Cols.states_selected
                      (Dashboard3Cols.selected_state_options inp)) = []).
  { unfold T. by apply all_states_have_columns. }
  rewrite Hc, Hflt in Hfig.
  eexists (Dashboard3Cols.apply_window T side.2), _.
  split; [by exists T|]. split; [by rewrite Hc|]. split; [|split].
  2:{ intros Hw. rewrite Hw. cbn [Dashboard3Cols.apply_window].
      destruct (Dashboard3Cols.states_selected (Dashboard3Cols.selected_state_options inp))
        eqn:Hst; [|by right].
      left. unfold T. by rewrite ?Hst. }
  2:{ unfold Dashboard3Cols.state_level. cbv zeta.
      erewrite bind_run_Done by exact Hside. cbv beta.
      rewrite <- bind_assoc_run.
      erewrite bind_run_Done by exact Hrun. cbv beta.
      erewrite bind_run_Done by exact Hfig. cbv beta.
      unfold bind at 1. unfold st at 1. unfold bind at 1. unfold st at 1.
      unfold bind at 1. unfold st at 1. by rewrite <- !app_assoc. }
  - cbn [app]. rewrite fmap_cons. cbn [sc_name]. f_equal. apply trace_names.
Qed.

End Completion3Cols.

(** X8.  The state-level section of [economics_dashboard_3cols.py] when the
    national series was fetched with observations, every selected state has
    data and the selected series share a date.  Nothing is reported; the
    chart has the national trace and one trace per selected state, and the
    table and the download button follow.  With no state selected the
    table is the whole national series and the section ends with the
    invitation to select a state.  Otherwise the year slider runs from the
    year of the common start to the year of the common end: when these are
    the same year Streamlit refuses the slider and the script stops there;
    when they differ the section ends with the state map or with the
    warning that the year has no data. *)
Theorem state_level_3cols_completes
    (fred : string → string + list (Timestamp * option Q))
    (us : list (Timestamp * option Q)) (inp : Dashboard3Cols.Inputs)
    (t : Timestamp) (page : list element) :
  let states_selected :=
    Dashboard3Cols.states_selected (Dashboard3Cols.selected_state_options inp) in
  fred "UNRATE" = inr us →
  us ≠ [] →
  selectable states_selected →
  Forall (λ s, has_data fred s = true) states_selected →
  Forall (λ d, ∃ lo hi, series_min d = Ts lo ∧ series_max d = Ts hi
                        ∧ ts_le lo t ∧ ts_le t hi)
         (state_dates fred <$> states_selected) →
  ∃ table traces,
    let shown := [plotly_chart traces; dataframe table;
                  download_button "Download CSV" table] in
    sc_name <$> traces = "United States" :: states_selected
    ∧ columns table = "Date" :: "United States" :: states_selected
    ∧ match states_selected with
      | [] =>
          Dashboard3Cols.state_level fred inp page
          = (Done table,
             page ++ shown ++ [info "Please select a state to start data visualization."])
          ∧ col table "Date" = Ts <$> us.*1
          ∧ col table "United States" = num <$> us.*2
      | _ :: _ =>
          ∃ common_start common_end,
            py_max (series_min <$> (state_dates fred <$> states_selected))
            = Done (Ts common_start)
            ∧ py_min (series_max <$> (state_dates fred <$> states_selected))
              = Done (Ts common_end)
            ∧ if decide (ts_year common_start = ts_year common_end) then
                Dashboard3Cols.state_level fred inp page
                = (Raised StreamlitAPIException, page ++ shown)
              else
                ∃ last,
                  Dashboard3Cols.state_level fred inp page
                  = (Done table, page ++ shown ++ [last])
                  ∧ (last = warning "No valid state data available for the selected year."
                     ∨ ∃ title locations z, last = choropleth title locations z
                                            ∧ length locations = length z ∧ z ≠ [])
      end.
Proof.
  intros states_selected Hus _ [_ Hsel] Hall Hshared. subst states_selected.
  pose proof (sidebar_success fred _ inp t page Hall Hshared) as Hside.
  destruct (Dashboard3Cols.states_selected (Dashboard3Cols.selected_state_options inp))
    as [|s0 states] eqn:Hst.
  - destruct (state_level_3cols_run fred us inp page (None, None) Hus)
      as (table & traces & _ & Hc & Hn & Hw & Hrun); rewrite ?Hst; try done.
    rewrite Hst in *. destruct (Hw eq_refl) as [[Hd Hu]|?]; [|done].
    exists table, traces. cbv zeta.
    split; [done|]. split; [done|]. split; [|done].
    rewrite Hrun. cbn [fst Dashboard3Cols.state_map].
    unfold bind, st, ret. by rewrite <- !app_assoc.
  - destruct Hside as (cs & ce & sd & ed & Hside & Hcsce & Hcs & Hce).
    destruct (state_level_3cols_run fred us inp page
                (Some (Ts cs, Ts ce), Some (sd, ed)) Hus)
      as (table & traces & _ & Hc & Hn & _ & Hrun); rewrite ?Hst; try done.
    rewrite Hst in *. exists table, traces. cbv zeta.
    split; [done|]. split; [done|]. exists cs, ce. split; [done|]. split; [done|].
    rewrite Hrun. cbn [fst Dashboard3Cols.state_map].
    rewrite bind_assoc_run.
    pose proof (ts_le_year _ _ Hcsce) as Hyears.
    case_decide as Hy.
    + erewrite bind_run_Raised; [reflexivity|]. apply slider_refuses. lia.
    + destruct (slider_returns (ts_year cs) (ts_year ce) (ts_year cs)
                  (Dashboard3Cols.year_pick inp)
                  (page ++ [plotly_chart traces; dataframe table;
                            download_button "Download CSV" table]))
        as (y & Hslider & _); [lia|].
      erewrite bind_run_Done by exact Hslider. cbv beta.
      destruct (Dashboard3Cols.state_map_data (Dashboard3Cols.df_year table y)
                  (s0 :: states)) as [|entry data] eqn:Hdata.
      * eexists. split; [|by left].
        unfold bind, st, ret. by rewrite <- !app_assoc.
      * eexists. split; [|right].
        -- unfold bind, st, ret. by rewrite <- !app_assoc.
        -- eexists _, _, _. split; [reflexivity|].
           split; [by rewrite !length_fmap|done].
Qed.

Lemma state_level_3cols_completes_witness :
  ∃ table traces,
    let shown := [plotly_chart traces; dataframe table;
                  download_button "Download CSV" table] in
    sc_name <$> traces = "United States" :: ["Texas"]
    ∧ columns table = "Date" :: "United States" :: ["Texas"]
    ∧ ∃ common_start common_end,
        py_max (series_min <$> (state_dates Samples.fred_long <$> ["Texas"]))
        = Done (Ts common_start)
        ∧ py_min (series_max <$> (state_dates Samples.fred_long <$> ["Texas"]))
          = Done (Ts common_end)
        ∧ if decide (ts_year common_start = ts_year common_end) then
            Dashboard3Cols.state_level Samples.fred_long
              (Dashboard3Cols.mkInputs ["Texas"] None None None) []
            = (Raised StreamlitAPIException, [] ++ shown)
          else
            ∃ last,
              Dashboard3Cols.state_level Samples.fred_long
                (Dashboard3Cols.mkInputs ["Texas"] None None None) []
              = (Done table, [] ++ shown ++ [last])
              ∧ (last = warning "No valid state data available for the selected year."
                 ∨ ∃ title locations z, last = choropleth title locations z
                                        ∧ length locations = length z ∧ z ≠ []).
Proof.
  apply (state_level_3cols_completes Samples.fred_long
           [(Samples.month 2020 1, Some 5%Q); (Samples.month 2020 2, Some (26 # 5)%Q)]
           (Dashboard3Cols.mkInputs ["Texas"] None None None) (Samples.month 2020 1) []).
  - reflexivity.
  - done.
  - split; [apply (bool_decide_unpack _); by vm_compute|]. repeat constructor. by eexists.
  - by repeat constructor.
  - repeat constructor; eexists _, _; (split; [reflexivity|]); (split; [reflexivity|]);
      split; apply (bool_decide_unpack _); by vm_compute.
Defined.

(** ** Rounding of published values *)

Section ExactRounding.

Open Scope Q_scope.

Lemma rint_comp (x y : Q) : x == y → Dashboard3Cols.rint x = Dashboard3Cols.rint y.
Proof.
  intros H. unfold Dashboard3Cols.rint.
  rewrite (Qfloor_comp _ _ H).
  assert (Hc : (x - inject_Z (Qfloor y) ?= 1 # 2) = (y - inject_Z (Qfloor y) ?= 1 # 2)).
  { apply Qcompare_comp; [|reflexivity]. by rewrite H. }
  by rewrite Hc.
Qed.

Lemma rint_integer (k : Z) : Dashboard3Cols.rint (inject_Z k) = k.
Proof.
  unfold Dashboard3Cols.rint. rewrite Qfloor_Z.
  assert (Hc : (inject_Z k - inject_Z k ?= 1 # 2) = Lt).
  { rewrite <- Qlt_alt. generalize (inject_Z k). intros z. lra. }
  by rewrite Hc.
Qed.

Lemma rint_mono (x y : Q) : x <= y → (Dashboard3Cols.rint x <= Dashboard3Cols.rint y)%Z.
Proof.
  intros Hxy. pose proof (Qfloor_resp_le _ _ Hxy) as Hf.
  unfold Dashboard3Cols.rint.
  destruct (Z.eq_dec (Qfloor x) (Qfloor y)) as [He|Hne].
  - rewrite He. generalize dependent (inject_Z (Qfloor y)). intros f.
    destruct (x - f ?= 1 # 2) eqn:Hcx; destruct (y - f ?= 1 # 2) eqn:Hcy;
      try rewrite <- Qeq_alt in Hcx; try rewrite <- Qlt_alt in Hcx;
      try rewrite <- Qgt_alt in Hcx;
      try rewrite <- Qeq_alt in Hcy; try rewrite <- Qlt_alt in Hcy;
      try rewrite <- Qgt_alt in Hcy;
      try (exfalso; lra); destruct (Z.even (Qfloor y)); lia.
  - destruct (x - inject_Z (Qfloor x) ?= 1 # 2); destruct (y - inject_Z (Qfloor y) ?= 1 # 2);
      repeat match goal with |- context [Z.even ?f] => destruct (Z.even f) end; lia.
Qed.

(** [round(x, 2)] keeps the order. *)
Lemma round2_mono (x y : Q) : x <= y → Dashboard3Cols.round2 x <= Dashboard3Cols.round2 y.
Proof.
  intros Hxy. unfold Dashboard3Cols.round2.
  assert (H : (Dashboard3Cols.rint (x * 100) <= Dashboard3Cols.rint (y * 100))%Z)
    by (apply rint_mono; lra).
  rewrite Zle_Qle in H. unfold Qdiv. change (/ 100) with (1 # 100). lra.
Qed.

(** [round(x, 2)] leaves a number with at most two decimals as it is. *)
Lemma round2_hundredths (x : Q) : hundredths x → Dashboard3Cols.round2 x == x.
Proof.
  intros [k Hk]. unfold Dashboard3Cols.round2.
  assert (H : x * 100 == inject_Z k).
  { rewrite Hk. unfold Qdiv. change (/ 100) with (1 # 100). ring. }
  rewrite (rint_comp _ _ H), rint_integer. by rewrite Hk.
Qed.

Lemma Qmin_list_In (xs : list Q) lo : Qmin_list xs = Some lo → lo ∈ xs.
Proof.
  destruct xs as [|x xs]; [done|]. intros [= <-]. cbn [Qmin_list].
  assert (H : ∀ m, foldl (λ m y, if Qle_bool y m then y else m) m xs ∈ m :: xs).
  { induction xs as [|y ys IH]; intros m; cbn [foldl]; [by left|].
    destruct (Qle_bool y m).
    - right. apply IH.
    - specialize (IH m). apply elem_of_cons in IH as [->|?]; [by left|by do 2 right]. }
  apply H.
Qed.

Lemma Qmax_list_In (xs : list Q) hi : Qmax_list xs = Some hi → hi ∈ xs.
Proof.
  destruct xs as [|x xs]; [done|]. intros [= <-]. cbn [Qmax_list].
  assert (H : ∀ m, foldl (λ m y, if Qle_bool m y then y else m) m xs ∈ m :: xs).
  { induction xs as [|y ys IH]; intros m; cbn [foldl]; [by left|].
    destruct (Qle_bool m y).
    - right. apply IH.
    - specialize (IH m). apply elem_of_cons in IH as [->|?]; [by left|by do 2 right]. }
  apply H.
Qed.

End ExactRounding.

(** X9.  On values with at most two decimals, as FRED publishes them, the
    rate the state map of [economics_dashboard_3cols.py] shows for a state
    lies between the lowest and the highest value of that state in the
    selected year. *)
Theorem state_map_rate_within_bounds
    (df : DataFrame) (year : Z) (states_selected : list string)
    (state : string) (c : cell) :
  Dashboard3Cols.float_columns df states_selected →
  Forall hundredths (numbers (col (Dashboard3Cols.df_year df year) state)) →
  (state, c) ∈ Dashboard3Cols.state_map_data (Dashboard3Cols.df_year df year) states_selected →
  ∃ lo hi rate,
    let xs := numbers (col (Dashboard3Cols.df_year df year) state) in
    Qmin_list xs = Some lo ∧ Qmax_list xs = Some hi
    ∧ c = Num rate ∧ (lo <= rate <= hi)%Q.
Proof.
  intros Hf Hh (Hsel & _ & Hd & ->)%state_map_data_entry.
  set (dfy := Dashboard3Cols.df_year df year) in *.
  assert (Hs : Forall (λ c, is_float c = true) (col dfy state)).
  { eapply float_column_col; [by apply float_columns_df_year|done]. }
  rewrite (dropna_float _ Hs) in Hd.
  assert (Hne : numbers (col dfy state) ≠ []) by (intros Hn; by rewrite Hn in Hd).
  destruct (Qmin_max_bounds _ Hne) as (lo & hi & Hlo & Hhi & Hall).
  exists lo, hi, (Dashboard3Cols.round2 (Dashboard3Cols.Qmean (numbers (col dfy state)))).
  cbv zeta. split; [done|]. split; [done|]. split; [by rewrite mean_float|].
  pose proof (Qmean_bounds _ lo hi Hne Hall) as [Hm1 Hm2].
  rewrite Forall_forall in Hh.
  pose proof (round2_hundredths lo (Hh _ (Qmin_list_In _ _ Hlo))) as H1.
  pose proof (round2_hundredths hi (Hh _ (Qmax_list_In _ _ Hhi))) as H2.
  apply round2_mono in Hm1, Hm2. split; lra.
Qed.

Lemma state_map_rate_within_bounds_witness :
  ∃ lo hi rate,
    let xs := numbers (col (Dashboard3Cols.df_year Samples.table_published 2020) "Texas") in
    Qmin_list xs = Some lo ∧ Qmax_list xs = Some hi
    ∧ Num (417 # 100) = Num rate ∧ (lo <= rate <= hi)%Q.
Proof.
  apply (state_map_rate_within_bounds Samples.table_published 2020 ["Texas"] "Texas"
           (Num (417 # 100))).
  - exact samples_table_published_float.
  - assert (numbers (col (Dashboard3Cols.df_year Samples.table_published 2020) "Texas")
            = [(41 # 10)%Q; (42 # 10)%Q; (42 # 10)%Q]) as -> by reflexivity.
    repeat constructor; [exists 410%Z|exists 420%Z|exists 420%Z]; reflexivity.
  - apply (bool_decide_unpack _). by vm_compute.
Defined.

(** ** The state map of [economics_dashboard.py] *)

Section LatestValues.

Import DashboardMap.

Lemma ts_le_antisym a b : ts_le a b → ts_le b a → a = b.
Proof. destruct a, b. unfold ts_le. cbn. intros H1 H2. f_equal; lia. Qed.


Lemma head_filter_find {A} (p : A → bool) (l : list A) :
  head (List.filter p l) = List.find p l.
Proof. induction l as [|x l IH]; [done|]. cbn. by destruct (p x). Qed.




Lemma latest_values_no_row df latest_date states_selected :
  List.find (λ r, cell_eq_date (at_ r "Date") latest_date) (rows df) = None →
  latest_values df latest_date states_selected = [].
Proof.
  intros Hnone. induction states_selected as [|s states IH]; [done|].
  cbn [latest_values].
  assert (latest_rate df latest_date s = None) as ->; [|done].
  unfold latest_rate. case_decide; [|done].
  unfold col, loc. cbn [rows]. rewrite <- head_filter_find in Hnone.
  by destruct (List.filter _ (rows df)).
Qed.


(** Without a dated row the map section of [economics_dashboard.py] has no
    entry to draw and its [map_df["State"]] raises. *)
Lemma state_map_without_dated_row df states_selected page :
  states_selected ≠ [] → "Date" ∈ columns df → timestamps (col df "Date") = [] →
  state_map df states_selected page = (Raised (KeyError "State"), page).
Proof.
  intros Hne Hd Hts. unfold state_map. destruct states_selected as [|s0 states]; [done|].
  erewrite bind_run_Done by (unfold lift, getitem; by rewrite decide_True).
  cbv beta. unfold series_max. rewrite Hts.
  rewrite latest_values_no_row; [done|].
  clear. induction (rows df) as [|r l IH]; [done|]. cbn.
  by destruct (at_ r "Date").
Qed.

End LatestValues.



Section ReversedWindow.

Variable fred : string → string + list (Timestamp * option Q).

(** [economics_dashboard.py] from the fetches to the download button, when
    every fetch brought rows and the common range is [cs], [ce]. *)
Lemma state_level_run us inp cs ce page :
  fred "UNRATE" = inr us →
  Forall (λ s, is_Some (STATE_SERIES_IDS !! s)) (Dashboard.states_selected inp) →
  Forall (λ s, has_data fred s = true) (Dashboard.states_selected inp) →
  py_max (series_min <$> (Ts <$> us.*1)
                           :: (state_dates fred <$> Dashboard.states_selected inp))
  = Done (Ts cs) →
  py_min (series_max <$> (Ts <$> us.*1)
                           :: (state_dates fred <$> Dashboard.states_selected inp))
  = Done (Ts ce) →
  ts_le cs ce →
  ∃ T sd ed traces,
    columns T = "Date" :: "United States" :: Dashboard.states_selected inp
    ∧ (∀ p, Dashboard.start_pick inp = Some p → ts_le cs p → ts_le p ce → sd = p)
    ∧ (∀ p, Dashboard.end_pick inp = Some p → ts_le cs p → ts_le p ce → ed = p)
    ∧ Dashboard.state_level fred inp page
      = (Done (loc T (mask sd ed)),
         page ++ [plotly_chart traces; dataframe (loc T (mask sd ed));
                  download_button "Download CSV" (loc T (mask sd ed))]).
Proof.
  intros Hus Hsel Hall Hcs Hce Hcsce.
  destruct (col_us_backbone us) as (backbone & Hget & Hcols & Hbd & _).
  set (U := rename (series_frame us) "Unemployment Rate" "United States") in *.
  assert (HUd : col U "Date" = Ts <$> us.*1).
  { unfold U. by rewrite col_renamed_series_date. }
  assert (Hu : us_df fred page = (Done U, page)).
  { unfold us_df. erewrite bind_run_Done by apply get_series_run.
    unfold fetched, reported. rewrite Hus. unfold ret. by rewrite app_nil_r. }
  set (T := foldl (merge_state fred) backbone (Dashboard.states_selected inp)).
  assert (Hcmp : comparison_df fred U (Dashboard.states_selected inp) page = (Done T, page)).
  { unfold comparison_df. erewrite bind_run_Done by (unfold lift; by rewrite Hget).
    rewrite merge_loop_run by done. by rewrite state_reports_nil, app_nil_r. }
  destruct (date_input_returns cs cs ce (Dashboard.start_pick inp) page)
    as (sd & Hsd & _ & _ & _ & Hsp); [apply ts_le_refl|done|].
  destruct (date_input_returns ce cs ce (Dashboard.end_pick inp) page)
    as (ed & Hed & _ & _ & _ & Hep); [done|apply ts_le_refl|].
  assert (Hw : Dashboard.window fred U inp page = (Done (sd, ed), page)).
  { unfold Dashboard.window.
    erewrite bind_run_Done by (apply all_dates_success; [by left|done]).
    cbv beta. rewrite HUd.
    erewrite bind_run_Done by (unfold lift, Dashboard.common_start; by rewrite Hcs).
    cbv beta.
    erewrite bind_run_Done by (unfold lift, Dashboard.common_end; by rewrite Hce).
    cbv beta. erewrite bind_run_Done by exact Hsd.
    cbv beta. by erewrite bind_run_Done by exact Hed. }
  assert (HTc : columns T = "Date" :: "United States" :: (Dashboard.states_selected inp)).
  { unfold T. rewrite merged_columns, Hcols by done. cbn [app]. do 2 f_equal.
    clear -Hall. induction Hall as [|s l Hs _ IH]; [done|].
    cbn [List.filter]. by rewrite Hs, IH. }
  assert (Hd : "Date" ∈ columns (loc T (mask sd ed))) by (cbn [columns loc]; rewrite HTc; by left).
  assert (Hn : "United States" ∈ columns (loc T (mask sd ed)))
    by (cbn [columns loc]; rewrite HTc; right; by left).
  pose proof (fig_run (loc T (mask sd ed)) (Dashboard.states_selected inp) page Hd Hn) as Hfig.
  assert (Hflt : List.filter (λ c, negb (bool_decide (c ∈ columns (loc T (mask sd ed)))))
                   (Dashboard.states_selected inp) = []).
  { cbn [columns loc]. unfold T. by apply all_states_have_columns. }
  rewrite Hflt in Hfig.
  eexists T, sd, ed, _. split; [done|]. split; [done|]. split; [done|].
  unfold Dashboard.state_level.
  erewrite bind_run_Done by exact Hu.
  erewrite bind_run_Done by exact Hcmp.
  erewrite bind_run_Done by exact Hw.
  cbn [fst snd]. erewrite bind_run_Done by exact Hfig.
  unfold bind, st, ret. by rewrite <- !app_assoc.
Qed.

(** A window whose start is after its end keeps no row. *)
Lemma reversed_window_rows df a b : ts_lt b a → rows (loc df (mask a b)) = [].
Proof.
  intros [Hba Hne]. destruct (rows (loc df (mask a b))) as [|r l] eqn:Hr; [done|].
  assert (Hin : r ∈ rows (loc df (mask a b))) by (rewrite Hr; by left).
  apply loc_mask_rows in Hin as (_ & t & _ & H1 & H2).
  destruct Hne. apply ts_le_antisym; [done|]. by eapply ts_le_trans.
Qed.

(** Two dates that lie in the range of every series lie in the common
    range. *)
Lemma common_range_of_two_dates (dates : list (list cell)) a b :
  dates ≠ [] →
  Forall (λ d, ∃ lo hi, series_min d = Ts lo ∧ series_max d = Ts hi
                        ∧ ts_le lo b ∧ ts_le a hi) dates →
  ts_le b a →
  ∃ cs ce,
    py_max (series_min <$> dates) = Done (Ts cs)
    ∧ py_min (series_max <$> dates) = Done (Ts ce)
    ∧ ts_le cs b ∧ ts_le a ce.
Proof.
  intros Hne Hall Hba.
  destruct (common_range_of_shared_date dates b Hne) as (cs & ce & Hcs & Hce & H1 & _).
  { eapply Forall_impl; [exact Hall|]. intros d (lo & hi & ? & ? & ? & ?).
    exists lo, hi. repeat split; try done. by eapply ts_le_trans. }
  destruct (common_range_of_shared_date dates a Hne) as (cs' & ce' & Hcs' & Hce' & _ & H2).
  { eapply Forall_impl; [exact Hall|]. intros d (lo & hi & ? & ? & ? & ?).
    exists lo, hi. repeat split; try done. by eapply ts_le_trans. }
  assert (ce' = ce) as -> by congruence. by exists cs, ce.
Qed.

End ReversedWindow.

(** X11.  In [economics_dashboard.py] a start date picked after the end
    date leaves the table without rows: the chart, the table and the
    download button are shown, and the map section then stops the script
    with [KeyError: 'State']. *)
Theorem reversed_window_stops_the_state_map
    (fred : string → string + list (Timestamp * option Q))
    (us : list (Timestamp * option Q)) (inp : Dashboard.Inputs)
    (a b : Timestamp) (page : list element) :
  fred "UNRATE" = inr us →
  selectable (Dashboard.states_selected inp) →
  Dashboard.states_selected inp ≠ [] →
  Forall (λ s, has_data fred s = true) (Dashboard.states_selected inp) →
  Forall (λ d, ∃ lo hi, series_min d = Ts lo ∧ series_max d = Ts hi
                        ∧ ts_le lo b ∧ ts_le a hi)
         ((Ts <$> us.*1) :: (state_dates fred <$> Dashboard.states_selected inp)) →
  Dashboard.start_pick inp = Some a →
  Dashboard.end_pick inp = Some b →
  ts_lt b a →
  ∃ table traces,
    DashboardMap.state_section fred inp page
    = (Raised (KeyError "State"),
       page ++ [plotly_chart traces; dataframe table; download_button "Download CSV" table])
    ∧ rows table = []
    ∧ columns table = "Date" :: "United States" :: Dashboard.states_selected inp.
Proof.
  intros Hus [_ Hsel] Hne Hall Hshared Hsp Hep Hba.
  destruct (common_range_of_two_dates
              ((Ts <$> us.*1) :: (state_dates fred <$> Dashboard.states_selected inp)) a b)
    as (cs & ce & Hcs & Hce & Hcsb & Hace); [done|done|apply Hba|].
  assert (Hcsa : ts_le cs a) by (eapply ts_le_trans; [done|apply Hba]).
  assert (Hbce : ts_le b ce) by (eapply ts_le_trans; [apply Hba|done]).
  destruct (state_level_run fred us inp cs ce page Hus Hsel Hall Hcs Hce)
    as (T & sd & ed & traces & HTc & Hsd & Hed & Hrun); [by eapply ts_le_trans|].
  rewrite (Hsd a), (Hed b) in Hrun by done.
  exists (loc T (mask a b)), traces.
  split; [|split; [by apply reversed_window_rows|done]].
  unfold DashboardMap.state_section. erewrite bind_run_Done by exact Hrun.
  apply state_map_without_dated_row; [done|cbn [columns loc]; rewrite HTc; by left|].
  unfold col. by rewrite reversed_window_rows.
Qed.

Lemma reversed_window_stops_the_state_map_witness :
  ∃ table traces,
    DashboardMap.state_section Samples.fred_long
      (Dashboard.mkInputs ["Texas"] (Some (Samples.month 2020 2)) (Some (Samples.month 2020 1)))
      []
    = (Raised (KeyError "State"),
       [] ++ [plotly_chart traces; dataframe table; download_button "Download CSV" table])
    ∧ rows table = []
    ∧ columns table = "Date" :: "United States" :: ["Texas"].
Proof.
  apply (reversed_window_stops_the_state_map Samples.fred_long
           [(Samples.month 2020 1, Some 5%Q); (Samples.month 2020 2, Some (26 # 5)%Q)]
           (Dashboard.mkInputs ["Texas"] (Some (Samples.month 2020 2))
              (Some (Samples.month 2020 1)))
           (Samples.month 2020 2) (Samples.month 2020 1) []).
  - reflexivity.
  - split; [apply (bool_decide_unpack _); by vm_compute|]. repeat constructor. by eexists.
  - done.
  - by repeat constructor.
  - repeat constructor; eexists _, _; (split; [reflexivity|]); (split; [reflexivity|]);
      split; apply (bool_decide_unpack _); by vm_compute.
  - reflexivity.
  - reflexivity.
  - apply (bool_decide_unpack _). by vm_compute.
Defined.

(** ** A reversed window in [economics_dashboard_3cols.py] *)

Section ReversedWindow3Cols.

Variable fred : string → string + list (Timestamp * option Q).

(** The sidebar of [economics_dashboard_3cols.py] over a common range [cs],
    [ce]. *)
Lemma sidebar_run s0 states inp cs ce page :
  Forall (λ s, has_data fred s = true) (s0 :: states) →
  py_max (series_min <$> (state_dates fred <$> s0 :: states)) = Done (Ts cs) →
  py_min (series_max <$> (state_dates fred <$> s0 :: states)) = Done (Ts ce) →
  ts_le cs ce →
  ∃ sd ed,
    Dashboard3Cols.sidebar fred (s0 :: states) inp page
    = (Done (Some (Ts cs, Ts ce), Some (sd, ed)), page)
    ∧ (∀ p, Dashboard3Cols.start_pick inp = Some p → ts_le cs p → ts_le p ce → sd = p)
    ∧ (∀ p, Dashboard3Cols.end_pick inp = Some p → ts_le cs p → ts_le p ce → ed = p).
Proof.
  intros Hall Hcs Hce Hcsce.
  pose proof (all_state_dates_success fred (s0 :: states) page Hall) as Hdates.
  destruct (date_input_returns cs cs ce (Dashboard3Cols.start_pick inp) page)
    as (sd & Hsd & _ & _ & _ & Hsp); [apply ts_le_refl|done|].
  destruct (date_input_returns ce cs ce (Dashboard3Cols.end_pick inp) page)
    as (ed & Hed & _ & _ & _ & Hep); [done|apply ts_le_refl|].
  exists sd, ed. split; [|done].
  unfold Dashboard3Cols.sidebar. erewrite bind_run_Done by exact Hdates. cbv beta.
  erewrite bind_run_Done.
  2:{ unfold Dashboard3Cols.common_range. rewrite fmap_cons. rewrite <- fmap_cons.
      erewrite bind_run_Done by (unfold lift; by rewrite Hcs).
      cbv beta. erewrite bind_run_Done by (unfold lift; by rewrite Hce).
      reflexivity. }
  cbv beta. erewrite bind_run_Done.
  2:{ cbn [Dashboard3Cols.window]. erewrite bind_run_Done by exact Hsd. cbv beta.
      erewrite bind_run_Done by exact Hed. reflexivity. }
  reflexivity.
Qed.

(** A year without rows gives no entry to the state map. *)
Lemma state_map_data_no_rows dfy states_selected :
  rows dfy = [] → Dashboard3Cols.state_map_data dfy states_selected = [].
Proof.
  intros Hr. induction states_selected as [|s states IH]; [done|].
  cbn [Dashboard3Cols.state_map_data]. unfold col. rewrite Hr. cbn [fmap list_fmap dropna List.filter].
  rewrite (bool_decide_true (@nil cell = [])) by done. cbn [negb]. by rewrite andb_false_r.
Qed.

End ReversedWindow3Cols.

(** X12.  In [economics_dashboard_3cols.py] a start date picked after the
    end date leaves the table without rows too, but the script goes on
    after the chart, the table and the download button: the state map is
    replaced by the warning that the year has no data.  (When the common
    range lies within one year the script stops at the year slider
    before, as for any window.) *)
Theorem reversed_window_3cols_shows_no_map
    (fred : string → string + list (Timestamp * option Q))
    (us : list (Timestamp * option Q)) (inp : Dashboard3Cols.Inputs)
    (a b : Timestamp) (page : list element) :
  let states_selected :=
    Dashboard3Cols.states_selected (Dashboard3Cols.selected_state_options inp) in
  fred "UNRATE" = inr us →
  us ≠ [] →
  selectable states_selected →
  states_selected ≠ [] →
  Forall (λ s, has_data fred s = true) states_selected →
  Forall (λ d, ∃ lo hi, series_min d = Ts lo ∧ series_max d = Ts hi
                        ∧ ts_le lo b ∧ ts_le a hi)
         (state_dates fred <$> states_selected) →
  Dashboard3Cols.start_pick inp = Some a →
  Dashboard3Cols.end_pick inp = Some b →
  ts_lt b a →
  ∃ table traces common_start common_end,
    let shown := [plotly_chart traces; dataframe table;
                  download_button "Download CSV" table] in
    rows table = []
    ∧ columns table = "Date" :: "United States" :: states_selected
    ∧ py_max (series_min <$> (state_dates fred <$> states_selected))
      = Done (Ts common_start)
    ∧ py_min (series_max <$> (state_dates fred <$> states_selected))
      = Done (Ts common_end)
    ∧ if decide (ts_year common_start = ts_year common_end) then
        Dashboard3Cols.state_level fred inp page
        = (Raised StreamlitAPIException, page ++ shown)
      else
        Dashboard3Cols.state_level fred inp page
        = (Done table,
           page ++ shown
           ++ [warning "No valid state data available for the selected year."]).
Proof.
  intros states_selected Hus _ [_ Hsel] Hne Hall Hshared Hsp Hep Hba.
  subst states_selected.
  destruct (Dashboard3Cols.states_selected (Dashboard3Cols.selected_state_options inp))
    as [|s0 states] eqn:Hst; [done|].
  destruct (common_range_of_two_dates (state_dates fred <$> s0 :: states) a b)
    as (cs & ce & Hcs & Hce & Hcsb & Hace); [done|done|apply Hba|].
  assert (Hcsa : ts_le cs a) by (eapply ts_le_trans; [done|apply Hba]).
  assert (Hbce : ts_le b ce) by (eapply ts_le_trans; [apply Hba|done]).
  assert (Hcsce : ts_le cs ce) by by eapply ts_le_trans.
  destruct (sidebar_run fred s0 states inp cs ce page Hall Hcs Hce Hcsce)
    as (sd & ed & Hside & Hsd & Hed).
  rewrite (Hsd a), (Hed b) in Hside by done.
  destruct (state_level_3cols_run fred us inp page
              (Some (Ts cs, Ts ce), Some (a, b)) Hus)
    as (table & traces & [T HT] & Hc & Hn & _ & Hrun); rewrite ?Hst; try done.
  rewrite Hst in *. cbn [snd Dashboard3Cols.apply_window] in HT.
  assert (Hrows : rows table = []) by (rewrite HT; by apply reversed_window_rows).
  exists table, traces, cs, ce. cbv zeta.
  split; [done|]. split; [done|]. split; [done|]. split; [done|].
  rewrite Hrun. cbn [fst Dashboard3Cols.state_map].
  rewrite bind_assoc_run.
  pose proof (ts_le_year _ _ Hcsce) as Hyears.
  case_decide as Hy.
  - erewrite bind_run_Raised; [reflexivity|]. apply slider_refuses. lia.
  - destruct (slider_returns (ts_year cs) (ts_year ce) (ts_year cs)
                (Dashboard3Cols.year_pick inp)
                (page ++ [plotly_chart traces; dataframe table;
                          download_button "Download CSV" table]))
      as (y & Hslider & _); [lia|].
    erewrite bind_run_Done by exact Hslider. cbv beta.
    rewrite state_map_data_no_rows.
    + unfold bind, st, ret. by rewrite <- !app_assoc.
    + unfold Dashboard3Cols.df_year, loc. cbn [rows]. by rewrite Hrows.
Qed.

Lemma reversed_window_3cols_shows_no_map_witness :
  ∃ table traces common_start common_end,
    let shown := [plotly_chart traces; dataframe table;
                  download_button "Download CSV" table] in
    rows table = []
    ∧ columns table = "Date" :: "United States" :: ["Texas"]
    ∧ py_max (series_min <$> (state_dates Samples.fred_long <$> ["Texas"]))
      = Done (Ts common_start)
    ∧ py_min (series_max <$> (state_dates Samples.fred_long <$> ["Texas"]))
      = Done (Ts common_end)
    ∧ if decide (ts_year common_start = ts_year common_end) then
        Dashboard3Cols.state_level Samples.fred_long
          (Dashboard3Cols.mkInputs ["Texas"] (Some (Samples.month 2020 2))
             (Some (Samples.month 2020 1)) None) []
        = (Raised StreamlitAPIException, [] ++ shown)
      else
        Dashboard3Cols.state_level Samples.fred_long
          (Dashboard3Cols.mkInputs ["Texas"] (Some (Samples.month 2020 2))
             (Some (Samples.month 2020 1)) None) []
        = (Done table,
           [] ++ shown
           ++ [warning "No valid state data available for the selected year."]).
Proof.
  apply (reversed_window_3cols_shows_no_map Samples.fred_long
           [(Samples.month 2020 1, Some 5%Q); (Samples.month 2020 2, Some (26 # 5)%Q)]
           (Dashboard3Cols.mkInputs ["Texas"] (Some (Samples.month 2020 2))
              (Some (Samples.month 2020 1)) None)
           (Samples.month 2020 2) (Samples.month 2020 1) []).
  - reflexivity.
  - done.
  - split; [apply (bool_decide_unpack _); by vm_compute|]. repeat constructor. by eexists.
  - done.
  - by repeat constructor.
  - repeat constructor; eexists _, _; (split; [reflexivity|]); (split; [reflexivity|]);
      split; apply (bool_decide_unpack _); by vm_compute.
  - reflexivity.
  - reflexivity.
  - apply (bool_decide_unpack _). by vm_compute.
Defined.

(** ** The rows of the loader, label by label *)

Section LoadedRows.

Variable to_datetime : cell → option Timestamp.
Variable to_numeric : cell → option Q.

Implicit Types (r : gmap string cell) (df : DataFrame).

(** A row read from the file has entries under labels of the header only. *)
Lemma read_frame_keys csv r c :
  r ∈ rows (read_frame csv) → c ∉ columns (read_frame csv) → r !! c = None.
Proof.
  unfold read_frame. cbn [rows columns]. intros (rec & -> & _)%list_elem_of_fmap Hc.
  apply not_elem_of_list_to_map_1. intros Hin. apply Hc.
  apply list_elem_of_fmap in Hin as ([c' v] & -> & Hin). cbn.
  by apply elem_of_zip_l in Hin.
Qed.

(** The rows of [prepared], label by label. *)
Lemma prepared_rows_full df :
  ∃ g : gmap string cell → gmap string cell,
    rows (prepared df) = g <$> rows df
    ∧ ∀ r,
        at_ (g r) "Parish" = str_strip (at_ r "Parish")
        ∧ (∀ c, c ≠ "Parish" → c ≠ "Unemployment rate" → c ≠ "Unemployment Rate" →
                at_ (g r) c = at_ r c)
        ∧ ("Unemployment rate" ∈ columns df → r !! "Unemployment Rate" = None →
           at_ (g r) "Unemployment Rate" = at_ r "Unemployment rate").
Proof.
  unfold prepared. case_decide as Hc.
  - exists (λ r, rename_row "Unemployment rate" "Unemployment Rate"
                   (<["Parish" := str_strip (at_ r "Parish")]> r)).
    split.
    + unfold rename. cbn [rows]. rewrite rows_assign. by rewrite <- list_fmap_compose.
    + intros r. split; [|split].
      * rewrite at_rename_row_other by done. by rewrite at_insert_eq.
      * intros c H1 H2 H3. rewrite at_rename_row_other by done. by rewrite at_insert_ne.
      * intros _ Hnone. unfold rename_row. rewrite lookup_insert_ne by done.
        destruct (r !! "Unemployment rate") as [v|] eqn:Hv.
        -- rewrite at_insert_eq. unfold at_. by rewrite Hv.
        -- rewrite at_insert_ne by done. unfold at_. by rewrite Hnone, Hv.
  - exists (λ r, <["Parish" := str_strip (at_ r "Parish")]> r).
    split; [done|]. intros r. split; [|split].
    + by rewrite at_insert_eq.
    + intros c H1 _ _. by rewrite at_insert_ne.
    + intros Hin. destruct Hc. apply columns_assign. by right.
Qed.

Lemma prepared_columns_rate df :
  "Unemployment rate" ∈ columns df →
  "Unemployment Rate" ∈ columns (prepared df) ∧ "Unemployment rate" ∉ columns (prepared df).
Proof.
  intros Hc. unfold prepared. rewrite decide_True by (apply columns_assign; by right).
  unfold rename. cbn [columns]. split.
  - apply list_elem_of_fmap. exists "Unemployment rate". split; [done|].
    apply columns_assign. by right.
  - intros (c & Heq & _)%list_elem_of_fmap. by case_decide; subst.
Qed.

(** The rows the loader returns, label by label: one row for every row of
    the file whose parish has a code. *)
Lemma loaded_rows csv page df page' :
  load_county_data (inr csv) to_datetime to_numeric page = (Done df, page') →
  df = empty_frame
  ∨ page' = page
    ∧ (∀ c, c ≠ "Unemployment rate" → c ≠ "Unemployment Rate" →
            c ∈ columns df
            ↔ c = "fips" ∨ c = "year" ∨ c = "Parish" ∨ c ∈ columns (read_frame csv))
    ∧ ("Unemployment rate" ∈ columns (read_frame csv) →
       "Unemployment Rate" ∈ columns df ∧ "Unemployment rate" ∉ columns df)
    ∧ ∃ h : gmap string cell → gmap string cell,
        rows df = h <$> List.filter (λ r, negb (isnull (parish_code r)))
                          (rows (read_frame csv))
        ∧ ∀ r,
            at_ (h r) "fips" = parish_code r
            ∧ at_ (h r) "Parish" = str_strip (at_ r "Parish")
            ∧ at_ (h r) "year"
              = (if decide ("Date" ∈ columns (read_frame csv))
                 then year_cell (coerce_datetime to_datetime (at_ r "Date"))
                 else num (to_numeric (at_ r "year")))
            ∧ (∀ c, c ∉ ["Parish"; "Date"; "year"; "fips";
                         "Unemployment rate"; "Unemployment Rate"] →
                    at_ (h r) c = at_ r c)
            ∧ ("Unemployment rate" ∈ columns (read_frame csv) →
               r !! "Unemployment Rate" = None →
               at_ (h r) "Unemployment Rate" = at_ r "Unemployment rate")
            ∧ ("Date" ∈ columns (read_frame csv) →
               at_ (h r) "Date" = coerce_datetime to_datetime (at_ r "Date")).
Proof.
  unfold load_county_data.
  destruct (decide ("Parish" ∈ columns (read_frame csv))) as [Hp|Hp]; [|intros [= <- _]; by left].
  destruct (has_str_accessor (col (read_frame csv) "Parish")) eqn:Hs; [|done].
  fold (prepared (read_frame csv)).
  set (F := read_frame csv) in *.
  assert (HD : "Date" ∈ columns (prepared F) ↔ "Date" ∈ columns F) by by apply prepared_columns.
  assert (HY : "year" ∈ columns (prepared F) ↔ "year" ∈ columns F) by by apply prepared_columns.
  pose proof (prepared_columns_Parish F) as HP.
  destruct (prepared_rows_full F) as (g & Hg & Hat).
  assert (Hcols : ∀ dated c,
            (∀ c, c ∈ columns dated ↔ c = "year" ∨ c ∈ columns (prepared F)) →
            c ≠ "Unemployment rate" → c ≠ "Unemployment Rate" →
            c ∈ columns (dropna_subset
                           (assign dated "fips"
                              (λ r, map_dict LA_PARISH_FIPS (at_ r "Parish"))) "fips")
            ↔ c = "fips" ∨ c = "year" ∨ c = "Parish" ∨ c ∈ columns F).
  { intros dated c Hd H1 H2. fold (with_fips dated). rewrite with_fips_columns, Hd.
    destruct (decide (c = "Parish")) as [->|H3]; [naive_solver|].
    rewrite prepared_columns by done. naive_solver. }
  assert (Hrate : ∀ dated,
            (∀ c, c ∈ columns dated ↔ c = "year" ∨ c ∈ columns (prepared F)) →
            "Unemployment rate" ∈ columns F →
            "Unemployment Rate"
              ∈ columns (dropna_subset
                           (assign dated "fips"
                              (λ r, map_dict LA_PARISH_FIPS (at_ r "Parish"))) "fips")
            ∧ "Unemployment rate"
              ∉ columns (dropna_subset
                           (assign dated "fips"
                              (λ r, map_dict LA_PARISH_FIPS (at_ r "Parish"))) "fips")).
  { intros dated Hd Hin. fold (with_fips dated). rewrite !with_fips_columns, !Hd.
    destruct (prepared_columns_rate F Hin) as [H1 H2]. naive_solver. }
  unfold bind.
  destruct (decide ("Date" ∈ columns (prepared F))) as [Hd|Hd].
  - rewrite derive_year_from_Date by done.
    destruct (forallb _ _); [intros [= <- _]; by left|].
    intros [= <- <-]. right. split; [done|].
    split; [|split].
    { intros c. apply Hcols. intros c'. rewrite !columns_assign. naive_solver. }
    { apply Hrate. intros c'. rewrite !columns_assign. naive_solver. }
    eexists (λ r, <["fips" := _]> (<["year" := _]> (<["Date" := _]> (g r)))).
    split.
    + rewrite rows_dropna_subset, !rows_assign, Hg. rewrite <- !list_fmap_compose.
      rewrite filter_fmap. f_equal. apply List.filter_ext. intros r. cbn.
      rewrite at_insert_eq. unfold parish_code.
      repeat (rewrite at_insert_eq || rewrite at_insert_ne by done).
      destruct (Hat r) as (-> & _). done.
    + intros r. destruct (Hat r) as (HP' & Hother & Hr). cbn beta.
      rewrite decide_True by by apply HD.
      repeat (rewrite at_insert_eq || rewrite at_insert_ne by done).
      rewrite HP', (Hother "Date") by done.
      split; [done|]. split; [done|]. split; [done|]. split; [|split].
      * intros c Hc. rewrite !not_elem_of_cons in Hc.
        destruct Hc as (? & ? & ? & ? & ? & ? & _).
        rewrite !at_insert_ne by done. by apply Hother.
      * intros Hin Hnone. by apply Hr.
      * done.
  - destruct (decide ("year" ∈ columns (prepared F))) as [Hy|Hy].
    + rewrite derive_year_from_year by done.
      intros [= <- <-]. right. split; [done|].
      split; [|split].
      { intros c. apply Hcols. intros c'. rewrite !columns_assign. naive_solver. }
      { apply Hrate. intros c'. rewrite !columns_assign. naive_solver. }
      eexists (λ r, <["fips" := _]> (<["year" := _]> (g r))).
      split.
      * rewrite rows_dropna_subset, !rows_assign, Hg. rewrite <- !list_fmap_compose.
        rewrite filter_fmap. f_equal. apply List.filter_ext. intros r. cbn.
        rewrite at_insert_eq. unfold parish_code.
        repeat (rewrite at_insert_eq || rewrite at_insert_ne by done).
        destruct (Hat r) as (-> & _). done.
      * intros r. destruct (Hat r) as (HP' & Hother & Hr). cbn beta.
        rewrite decide_False by (intros ?; by apply Hd, HD).
        repeat (rewrite at_insert_eq || rewrite at_insert_ne by done).
        rewrite HP', (Hother "year") by done.
        split; [done|]. split; [done|]. split; [done|]. split; [|split].
        -- intros c Hc. rewrite !not_elem_of_cons in Hc.
           destruct Hc as (? & ? & ? & ? & ? & ? & _).
           rewrite !at_insert_ne by done. by apply Hother.
        -- intros Hin Hnone. by apply Hr.
        -- intros Hin. destruct Hd. by apply HD.
    + rewrite derive_year_missing by done. intros [= <- _]. by left.
Qed.

End LoadedRows.

Lemma with_fips_not_empty_frame df : with_fips df ≠ empty_frame.
Proof.
  intros H. assert (Hc : "fips" ∈ columns (with_fips df)) by (apply with_fips_columns; by left).
  rewrite H in Hc. by apply elem_of_nil in Hc.
Qed.

(** X13.  From a file of distinct labels with a text "Parish" column, a
    "year" column and no "Date" column the loader reports nothing and
    returns one row for every row of the file whose parish has a code, in
    the order of the file: the name stripped, the code, and the year read
    as a number, missing where the entry is not a number.  The dataset has
    no "Date" column. *)
Theorem loader_reads_year_column
    (csv : CsvFile) (to_datetime : cell → option Timestamp)
    (to_numeric : cell → option Q) (page : list element) :
  distinct_labels csv →
  "Parish" ∈ columns (read_frame csv) →
  has_str_accessor (col (read_frame csv) "Parish") = true →
  "Date" ∉ columns (read_frame csv) →
  "year" ∈ columns (read_frame csv) →
  let kept := List.filter (λ r, negb (isnull (parish_code r))) (rows (read_frame csv)) in
  ∃ df,
    load_county_data (inr csv) to_datetime to_numeric page = (Done df, page)
    ∧ col df "Parish" = (λ r, str_strip (at_ r "Parish")) <$> kept
    ∧ col df "fips" = parish_code <$> kept
    ∧ col df "year" = (λ r, num (to_numeric (at_ r "year"))) <$> kept
    ∧ "year" ∈ columns df
    ∧ "Date" ∉ columns df.
Proof.
  intros _ Hp Hs Hd Hy kept.
  assert (Hload : ∃ dated, load_county_data (inr csv) to_datetime to_numeric page
                           = (Done (with_fips dated), page)).
  { rewrite load_county_data_prepared by done.
    unfold bind. rewrite derive_year_from_year by by rewrite prepared_columns.
    by eexists. }
  destruct Hload as [dated Hload]. exists (with_fips dated). split; [done|].
  destruct (loaded_rows _ _ _ _ _ _ Hload) as [He|(_ & Hcols & _ & h & Hrows & Hat)].
  { by apply with_fips_not_empty_frame in He. }
  fold kept in Hrows. unfold col. rewrite Hrows, <- !list_fmap_compose.
  split; [|split; [|split; [|split]]].
  - apply list_fmap_ext. intros _ r _. cbn. by destruct (Hat r) as (_ & -> & _).
  - apply list_fmap_ext. intros _ r _. cbn. by destruct (Hat r) as (-> & _).
  - apply list_fmap_ext. intros _ r _. cbn. destruct (Hat r) as (_ & _ & -> & _).
    by rewrite decide_False.
  - apply Hcols; [done|done|]. right. by left.
  - rewrite Hcols by done. naive_solver.
Qed.

Lemma loader_reads_year_column_witness :
  ∃ df,
    load_county_data (inr Samples.csv_years) Samples.to_datetime Samples.to_numeric []
    = (Done df, [])
    ∧ col df "Parish"
      = [Str "St. Tammany"; Str "Tangipahoa"; Str "Livingston"; Str "Washington";
         Str "St. Helena"]
    ∧ col df "fips" = [Str "22103"; Str "22105"; Str "22063"; Str "22117"; Str "22091"]
    ∧ col df "year" = [Num 2020; Num 2020; Num 2020; Num 2021; Num 2021]
    ∧ "year" ∈ columns df
    ∧ "Date" ∉ columns df.
Proof.
  apply (loader_reads_year_column Samples.csv_years Samples.to_datetime
           Samples.to_numeric []).
  - apply (bool_decide_unpack _). by vm_compute.
  - apply (bool_decide_unpack _). by vm_compute.
  - reflexivity.
  - apply (bool_decide_unpack _). by vm_compute.
  - apply (bool_decide_unpack _). by vm_compute.
Defined.

(** X14.  The loader leaves the other columns of a file of distinct labels
    as they are: a dataset that is not empty has every such column of the
    file, with the entries of the rows kept, and a column
    "Unemployment rate" of the file
    is in the dataset under the label "Unemployment Rate", with its
    entries. *)
Theorem loader_keeps_other_columns
    (csv : CsvFile) (to_datetime : cell → option Timestamp)
    (to_numeric : cell → option Q) (page : list element)
    (df : DataFrame) (page' : list element) :
  distinct_labels csv →
  load_county_data (inr csv) to_datetime to_numeric page = (Done df, page') →
  df ≠ empty_frame →
  let kept := List.filter (λ r, negb (isnull (parish_code r))) (rows (read_frame csv)) in
  (∀ c : string,
      (c ∈ columns (read_frame csv)) →
      (c ∉ ["Parish"; "Date"; "year"; "fips"; "Unemployment rate"; "Unemployment Rate"]) →
        c ∈ columns df ∧ col df c = (λ r, at_ r c) <$> kept)
  ∧ ("Unemployment rate" ∈ columns (read_frame csv) →
     "Unemployment Rate" ∉ columns (read_frame csv) →
     "Unemployment Rate" ∈ columns df
     ∧ ("Unemployment rate" ∉ columns df)
     ∧ col df "Unemployment Rate" = (λ r, at_ r "Unemployment rate") <$> kept).
Proof.
  intros _ Hload Hne kept.
  destruct (loaded_rows _ _ _ _ _ _ Hload) as [He|(_ & Hcols & Hrate & h & Hrows & Hat)];
    [done|].
  fold kept in Hrows. unfold col. rewrite Hrows. split.
  - intros c Hc Hnot. split.
    + rewrite !not_elem_of_cons in Hnot. destruct Hnot as (? & ? & ? & ? & ? & ? & _).
      apply Hcols; [done|done|]. by do 3 right.
    + rewrite <- list_fmap_compose. apply list_fmap_ext. intros _ r _. cbn.
      destruct (Hat r) as (_ & _ & _ & Hother & _). by apply Hother.
  - intros Hin Hnew. destruct (Hrate Hin) as [H1 H2]. split; [done|]. split; [done|].
    rewrite <- list_fmap_compose. apply list_fmap_ext. intros i r Hr. cbn.
    destruct (Hat r) as (_ & _ & _ & _ & Hr' & _). apply Hr'; [done|].
    apply (read_frame_keys csv); [|done].
    apply list_elem_of_lookup_2 in Hr. unfold kept in Hr.
    apply list_elem_of_In, filter_In in Hr as [Hr _]. by apply list_elem_of_In.
Qed.

Lemma loader_keeps_other_columns_witness :
  let kept := List.filter (λ r, negb (isnull (parish_code r)))
                (rows (read_frame Samples.csv_dates)) in
  (∀ c : string,
      (c ∈ columns (read_frame Samples.csv_dates)) →
      (c ∉ ["Parish"; "Date"; "year"; "fips"; "Unemployment rate"; "Unemployment Rate"]) →
        c ∈ columns Samples.loaded_dates
        ∧ col Samples.loaded_dates c = (λ r, at_ r c) <$> kept)
  ∧ ("Unemployment rate" ∈ columns (read_frame Samples.csv_dates) →
     "Unemployment Rate" ∉ columns (read_frame Samples.csv_dates) →
     "Unemployment Rate" ∈ columns Samples.loaded_dates
     ∧ ("Unemployment rate" ∉ columns Samples.loaded_dates)
     ∧ col Samples.loaded_dates "Unemployment Rate"
       = (λ r, at_ r "Unemployment rate") <$> kept).
Proof.
  apply (loader_keeps_other_columns Samples.csv_dates Samples.to_datetime
           Samples.to_numeric [] Samples.loaded_dates []).
  - apply (bool_decide_unpack _). by vm_compute.
  - by vm_compute.
  - intros H. apply (f_equal columns) in H. by vm_compute in H.
Defined.

(** X15.  On a file that was not read, or that has distinct labels, the
    loader reports at most one error, and whenever it reports it returns
    the empty frame; the only exception it lets out is the
    [AttributeError] of [.str] on a "Parish" column that holds no text. *)
Theorem loader_reports_with_empty_frame
    (read_csv : string + CsvFile) (to_datetime : cell → option Timestamp)
    (to_numeric : cell → option Q) (page : list element) :
  (∀ csv, read_csv = inr csv → distinct_labels csv) →
  match load_county_data read_csv to_datetime to_numeric page with
  | (Done df, page') =>
      page' = page ∨ (df = empty_frame ∧ ∃ msg, page' = page ++ [error msg])
  | (Raised e, page') =>
      page' = page
      ∧ e = AttributeError
      ∧ ∃ csv, read_csv = inr csv
               ∧ "Parish" ∈ columns (read_frame csv)
               ∧ has_str_accessor (col (read_frame csv) "Parish") = false
  end.
Proof.
  intros _.
  destruct read_csv as [e|csv]; [right; split; [done|by eexists]|].
  destruct (decide ("Parish" ∈ columns (read_frame csv))) as [Hp|Hp].
  2:{ unfold load_county_data. rewrite decide_False by done.
      right. split; [done|by eexists]. }
  destruct (has_str_accessor (col (read_frame csv) "Parish")) eqn:Hs.
  2:{ unfold load_county_data. rewrite decide_True, Hs by done.
      split; [done|]. split; [done|]. by exists csv. }
  rewrite load_county_data_prepared by done. unfold bind.
  set (F := prepared (read_frame csv)).
  destruct (decide ("Date" ∈ columns F)) as [Hd|Hd].
  - rewrite derive_year_from_Date by done.
    destruct (forallb _ _); [right; split; [done|by eexists]|by left].
  - destruct (decide ("year" ∈ columns F)) as [Hy|Hy].
    + rewrite derive_year_from_year by done. by left.
    + rewrite derive_year_missing by done. right. split; [done|by eexists].
Qed.

Lemma loader_reports_with_empty_frame_witness :
  match load_county_data (inr Samples.csv_numbered) Samples.to_datetime
          Samples.to_numeric [] with
  | (Done df, page') =>
      page' = [] ∨ (df = empty_frame ∧ ∃ msg, page' = [] ++ [error msg])
  | (Raised e, page') =>
      page' = []
      ∧ e = AttributeError
      ∧ ∃ csv, inr Samples.csv_numbered = @inr string CsvFile csv
               ∧ "Parish" ∈ columns (read_frame csv)
               ∧ has_str_accessor (col (read_frame csv) "Parish") = false
  end.
Proof.
  apply (loader_reports_with_empty_frame (inr Samples.csv_numbered) Samples.to_datetime
           Samples.to_numeric []).
  intros csv [= <-]. apply (bool_decide_unpack _). by vm_compute.
Defined.

(** ** The parish sections *)

(** Every code of the catalog is a Louisiana code. *)
Lemma LA_PARISH_FIPS_prefix parish code :
  LA_PARISH_FIPS !! parish = Some code → String.prefix "22" code = true.
Proof.
  assert (H : map_Forall (λ _ code, String.prefix "22" code = true) LA_PARISH_FIPS).
  { apply (bool_decide_unpack _). by vm_compute. }
  apply H.
Qed.

(** X16.  Every row of a dataset the loader returns carries a code that
    starts with "22", so the boundary of its parish is among the features
    [load_geojson] of [economics_dashboard_3cols.py] keeps whenever the
    boundary file has it. *)
Theorem loaded_codes_pass_the_boundary_filter
    (read_csv : string + CsvFile) (to_datetime : cell → option Timestamp)
    (to_numeric : cell → option Q) (page : list element)
    (df : DataFrame) (page' : list element) (r : gmap string cell) :
  load_county_data read_csv to_datetime to_numeric page = (Done df, page') →
  r ∈ rows df →
  ∃ code,
    at_ r "fips" = Str code
    ∧ String.prefix "22" code = true
    ∧ ∀ features, code ∈ features → code ∈ Geojson3Cols.load_geojson_features features.
Proof.
  intros Hload Hr.
  assert (∃ parish code,
            at_ r "Parish" = Str parish ∧ LA_PARISH_FIPS !! parish = Some code
            ∧ at_ r "fips" = Str code) as (parish & code & H1 & H2 & H3).
  { destruct read_csv as [e|csv].
    - injection Hload as <- _. by apply elem_of_nil in Hr.
    - apply load_county_data_Done in Hload as [-> | (dated & -> & _)].
      + by apply elem_of_nil in Hr.
      + by eapply with_fips_rows. }
  exists code. split; [done|]. pose proof (LA_PARISH_FIPS_prefix _ _ H2) as Hp.
  split; [done|]. intros features Hin. unfold Geojson3Cols.load_geojson_features.
  apply list_elem_of_In, filter_In. split; [by apply list_elem_of_In|done].
Qed.

Lemma loaded_codes_pass_the_boundary_filter_witness :
  Forall (λ r, ∃ code,
            at_ r "fips" = Str code
            ∧ String.prefix "22" code = true
            ∧ ∀ features, code ∈ features
                          → code ∈ Geojson3Cols.load_geojson_features features)
         (rows Samples.loaded_dates).
Proof.
  apply Forall_forall. intros r.
  apply (loaded_codes_pass_the_boundary_filter (inr Samples.csv_dates) Samples.to_datetime
           Samples.to_numeric [] Samples.loaded_dates [] r).
  by vm_compute.
Defined.

Section EmptyDataset.

Variable to_datetime : cell → option Timestamp.
Variable to_numeric : cell → option Q.

(** A file none of whose rows names a parish of the catalog gives an empty
    dataset, with at most one report. *)
Lemma load_county_data_unknown_parishes csv page :
  "Parish" ∈ columns (read_frame csv) →
  has_str_accessor (col (read_frame csv) "Parish") = true →
  Forall (λ r, isnull (parish_code r) = true) (rows (read_frame csv)) →
  ∃ df reports,
    load_county_data (inr csv) to_datetime to_numeric page = (Done df, page ++ reports)
    ∧ empty df = true
    ∧ (reports = [] ∨ ∃ msg, reports = [error msg]).
Proof.
  intros Hp Hs Hall.
  destruct (load_county_data (inr csv) to_datetime to_numeric page) as [o page'] eqn:Hload.
  assert (Hcases : ∃ df, o = Done df
                         ∧ (page' = page
                            ∨ df = empty_frame ∧ ∃ msg, page' = page ++ [error msg])).
  { rewrite load_county_data_prepared in Hload by done. unfold bind in Hload.
    set (F := prepared (read_frame csv)) in *.
    destruct (decide ("Date" ∈ columns F)) as [Hd|Hd].
    - rewrite derive_year_from_Date in Hload by done.
      destruct (forallb _ _); injection Hload as <- <-; eexists; (split; [done|]).
      + right. split; [done|by eexists].
      + by left.
    - destruct (decide ("year" ∈ columns F)) as [Hy|Hy].
      + rewrite derive_year_from_year in Hload by done. injection Hload as <- <-.
        eexists. split; [done|by left].
      + rewrite derive_year_missing in Hload by done. injection Hload as <- <-.
        eexists. split; [done|]. right. split; [done|by eexists]. }
  destruct Hcases as (df & -> & [-> | (-> & msg & ->)]).
  - exists df, []. rewrite app_nil_r. split; [done|]. split; [|by left].
    destruct (loaded_rows _ _ _ _ _ _ Hload) as [->|(_ & _ & _ & h & Hrows & _)]; [done|].
    assert (Hkept : List.filter (λ r, negb (isnull (parish_code r))) (rows (read_frame csv))
                    = []).
    { clear -Hall. induction Hall as [|r l Hr _ IH]; [done|].
      cbn [List.filter]. by rewrite Hr. }
    rewrite Hkept in Hrows. unfold empty. rewrite Hrows. by destruct (columns df).
  - exists empty_frame, [error msg]. split; [done|]. split; [done|]. right. by eexists.
Qed.

End EmptyDataset.

(** X17.  A file of distinct labels none of whose rows names a parish of
    the catalog (names in another spelling, or state rows only) is treated
    as a file that could not be loaded: after at most one report of the
    loader, the parish section of both scripts shows
    "County-level data could not be loaded." and nothing else. *)
Theorem unknown_parishes_read_as_failed_load
    (csv : CsvFile) (to_datetime : cell → option Timestamp)
    (to_numeric : cell → option Q) (load_geojson : option string)
    (inp : CountyView3Cols.Inputs) (year_pick : option Z) (page : list element) :
  distinct_labels csv →
  "Parish" ∈ columns (read_frame csv) →
  has_str_accessor (col (read_frame csv) "Parish") = true →
  Forall (λ r, isnull (parish_code r) = true) (rows (read_frame csv)) →
  ∃ reports,
    (reports = [] ∨ ∃ msg, reports = [error msg])
    ∧ CountyView.county_view (inr csv) to_datetime to_numeric load_geojson year_pick page
      = (Done tt, page ++ reports ++ [error "County-level data could not be loaded."])
    ∧ CountyView3Cols.county_view (inr csv) to_datetime to_numeric load_geojson inp page
      = (Done tt, page ++ reports ++ [error "County-level data could not be loaded."]).
Proof.
  intros _ Hp Hs Hall.
  destruct (load_county_data_unknown_parishes to_datetime to_numeric csv page Hp Hs Hall)
    as (df & reports & Hload & He & Hrep).
  exists reports. split; [done|]. split.
  - unfold CountyView.county_view. erewrite bind_run_Done by exact Hload.
    rewrite He. unfold st. by rewrite app_assoc.
  - unfold CountyView3Cols.county_view. erewrite bind_run_Done by exact Hload.
    rewrite He. unfold st. by rewrite app_assoc.
Qed.

Lemma unknown_parishes_read_as_failed_load_witness :
  ∃ reports,
    (reports = [] ∨ ∃ msg, reports = [error msg])
    ∧ CountyView.county_view (inr Samples.csv_state_rows) Samples.to_datetime
        Samples.to_numeric None None []
      = (Done tt, [] ++ reports ++ [error "County-level data could not be loaded."])
    ∧ CountyView3Cols.county_view (inr Samples.csv_state_rows) Samples.to_datetime
        Samples.to_numeric None (CountyView3Cols.mkInputs 0 None None None None) []
      = (Done tt, [] ++ reports ++ [error "County-level data could not be loaded."]).
Proof.
  apply (unknown_parishes_read_as_failed_load Samples.csv_state_rows Samples.to_datetime
           Samples.to_numeric None (CountyView3Cols.mkInputs 0 None None None None) None []).
  - apply (bool_decide_unpack _). by vm_compute.
  - apply (bool_decide_unpack _). by vm_compute.
  - reflexivity.
  - repeat constructor.
Defined.

Section YearSlider.

(** [int(x)] keeps the order. *)
Lemma py_int_mono (a b : Q) :
  (a <= b)%Q → (Z.quot (Qnum a) (Z.pos (Qden a)) ≤ Z.quot (Qnum b) (Z.pos (Qden b)))%Z.
Proof.
  unfold Qle. intros H.
  rewrite <- (Z.quot_mul_cancel_r (Qnum a) (Z.pos (Qden a)) (Z.pos (Qden b))) by lia.
  rewrite <- (Z.quot_mul_cancel_r (Qnum b) (Z.pos (Qden b)) (Z.pos (Qden a))) by lia.
  rewrite (Z.mul_comm (Z.pos (Qden b)) (Z.pos (Qden a))).
  apply Z.quot_le_mono; lia.
Qed.

(** [int(x)] of a whole number *)
Lemma py_int_whole (q : Q) (k : Z) :
  (q == inject_Z k)%Q → Z.quot (Qnum q) (Z.pos (Qden q)) = k.
Proof.
  unfold Qeq. cbn. intros H. rewrite Z.mul_1_r in H. rewrite H.
  apply Z.quot_mul. lia.
Qed.

Lemma slider_range min_value max_value pick page :
  (min_value < max_value)%Z →
  ∃ y, slider min_value max_value min_value pick page = (Done y, page)
       ∧ (min_value ≤ y ≤ max_value)%Z
       ∧ (pick = None → y = min_value)
       ∧ (∀ p, pick = Some p → (min_value ≤ p ≤ max_value)%Z → y = p).
Proof.
  intros H. unfold slider. rewrite bool_decide_true by done.
  destruct pick as [p|].
  - case_bool_decide.
    + exists p. split; [done|]. split; [done|]. split; [done|]. by intros ? [= ->].
    + exists min_value. split; [done|]. split; [lia|]. split; [done|].
      by intros ? [= ->] ?.
  - exists min_value. split; [done|]. split; [lia|]. done.
Qed.

Lemma year_bounds (xs : list Q) :
  xs ≠ [] →
  ∃ lo hi,
    CountyView3Cols.py_int (Qmin_list xs) = Done lo
    ∧ CountyView3Cols.py_int (Qmax_list xs) = Done hi
    ∧ (lo ≤ hi)%Z
    ∧ (Forall (λ q, ∃ k, (q == inject_Z k)%Q) xs → ∃ q, q ∈ xs ∧ (q == inject_Z lo)%Q).
Proof.
  intros Hne. destruct (Qmin_max_bounds xs Hne) as (lo & hi & Hlo & Hhi & Hall).
  rewrite Hlo, Hhi. cbn [CountyView3Cols.py_int]. eexists _, _.
  split; [done|]. split; [done|]. split.
  - apply py_int_mono. destruct xs as [|x xs]; [done|].
    apply Forall_cons in Hall as [[H1 H2] _]. by eapply Qle_trans.
  - intros Hw. pose proof (Qmin_list_In _ _ Hlo) as Hin.
    rewrite Forall_forall in Hw. destruct (Hw _ Hin) as [k Hk].
    rewrite (py_int_whole lo k Hk). by exists lo.
Qed.

End YearSlider.

(** X18.  The parish section of [economics_dashboard.py] on a dataset that
    is not empty, has a year in some row and a column "Unemployment Rate"
    of numbers, when the boundaries load.  The slider runs from the lowest to the
    highest year of the dataset, cut to whole numbers.  When these are the
    same year Streamlit refuses the slider and the section stops with
    nothing shown.  Otherwise the slider starts at the lowest year and the
    section shows the map of the rows of the selected year, or the warning
    when no row has that year; when the years are whole numbers and
    nothing is picked, the map is drawn. *)
Theorem county_view_shows_selected_year
    (csv : CsvFile) (to_datetime : cell → option Timestamp)
    (to_numeric : cell → option Q) (year_pick : option Z) (page : list element)
    (df : DataFrame) (page' : list element) :
  distinct_labels csv →
  load_county_data (inr csv) to_datetime to_numeric page = (Done df, page') →
  empty df = false →
  numbers (col df "year") ≠ [] →
  "Unemployment Rate" ∈ columns df →
  Forall (λ c, is_float c = true) (col df "Unemployment Rate") →
  ∃ lo hi,
    CountyView3Cols.py_int (Qmin_list (numbers (col df "year"))) = Done lo
    ∧ CountyView3Cols.py_int (Qmax_list (numbers (col df "year"))) = Done hi
    ∧ (lo ≤ hi)%Z
    ∧ if decide (lo = hi) then
        CountyView.county_view (inr csv) to_datetime to_numeric None year_pick page
        = (Raised StreamlitAPIException, page)
      else
        ∃ y,
          (lo ≤ y ≤ hi)%Z
          ∧ (year_pick = None → y = lo)
          ∧ (∀ p, year_pick = Some p → (lo ≤ p ≤ hi)%Z → y = p)
          ∧ let shown := loc df (λ r, cell_eq_num (at_ r "year") (inject_Z y)) in
            CountyView.county_view (inr csv) to_datetime to_numeric None year_pick page
            = (Done tt,
               page ++ [match rows shown with
                        | [] => warning "No parish data available for the selected year."
                        | _ :: _ =>
                            choropleth ("Unemployment Rate by Parish in " +:+ pretty y)
                              (col shown "fips") (col shown "Unemployment Rate")
                        end])
            ∧ (year_pick = None →
               Forall (λ q, ∃ k, (q == inject_Z k)%Q) (numbers (col df "year")) →
               rows shown ≠ []).
Proof.
  intros _ Hload Hne Hyear Hrate _.
  assert (Hdf : page' = page ∧ "year" ∈ columns df ∧ "fips" ∈ columns df).
  { destruct (load_county_data_Done _ _ _ _ _ _ Hload)
      as [-> | (dated & -> & _ & HY & _ & _ & ->)]; [done|].
    split; [done|]. rewrite !with_fips_columns. split; [by right|by left]. }
  destruct Hdf as (-> & HY & HF).
  destruct (year_bounds _ Hyear) as (lo & hi & Hlo & Hhi & Hle & Hwhole).
  exists lo, hi. split; [done|]. split; [done|]. split; [done|].
  assert (Hstart : ∀ k : Z → App unit,
            CountyView.county_view (inr csv) to_datetime to_numeric None year_pick page
            = bind (slider lo hi lo year_pick)
                   (λ y, let shown := loc df (λ r, cell_eq_num (at_ r "year") (inject_Z y)) in
                         if empty shown
                         then st (warning "No parish data available for the selected year.")
                         else
                           let* z := lift (getitem shown "Unemployment Rate") in
                           let* locations := lift (getitem shown "fips") in
                           st (choropleth
                                 ("Unemployment Rate by Parish in " +:+ pretty y)
                                 locations z)) page).
  { intros _. unfold CountyView.county_view. erewrite bind_run_Done by exact Hload.
    rewrite Hne.
    erewrite bind_run_Done by (unfold lift, getitem; by rewrite decide_True).
    cbv beta. erewrite bind_run_Done by (unfold lift; by rewrite Hlo).
    cbv beta. erewrite bind_run_Done by (unfold lift, getitem; by rewrite decide_True).
    cbv beta. erewrite bind_run_Done by (unfold lift; by rewrite Hhi).
    reflexivity. }
  rewrite (Hstart (λ _, ret tt)). clear Hstart.
  case_decide as Heq.
  - erewrite bind_run_Raised; [reflexivity|]. apply slider_refuses. lia.
  - destruct (slider_range lo hi year_pick page) as (y & Hy & Hrange & Hnone & Hpick);
      [lia|].
    exists y. split; [done|]. split; [done|]. split; [done|]. cbv zeta. split.
    + erewrite bind_run_Done by exact Hy. cbv beta zeta.
      set (shown := loc df (λ r, cell_eq_num (at_ r "year") (inject_Z y))).
      assert (He : empty shown = match rows shown with [] => true | _ => false end).
      { unfold empty. change (columns shown) with (columns df).
        unfold empty in Hne. by destruct (columns df). }
      rewrite He. destruct (rows shown) as [|r0 l] eqn:Hrows; [done|].
      erewrite bind_run_Done by (unfold lift, getitem; by rewrite decide_True).
      cbv beta. erewrite bind_run_Done by (unfold lift, getitem; by rewrite decide_True).
      done.
    + intros Hp Hw. rewrite (Hnone Hp). destruct (Hwhole Hw) as (q & Hq & Hqlo).
      unfold numbers in Hq. apply list_elem_of_omap in Hq as (c & Hc & Hcq).
      destruct c as [| |q'|]; try done. injection Hcq as ->.
      unfold col in Hc. apply list_elem_of_fmap in Hc as (r & Hr & Hin).
      intros Hnil.
      assert (Hshown : r ∈ rows (loc df (λ r, cell_eq_num (at_ r "year") (inject_Z lo)))).
      { unfold loc. cbn [rows]. apply list_elem_of_In, filter_In.
        split; [by apply list_elem_of_In|]. rewrite <- Hr. cbn. by apply Qeq_bool_iff. }
      rewrite Hnil in Hshown. by apply elem_of_nil in Hshown.
Qed.

Lemma county_view_shows_selected_year_witness :
  ∃ lo hi,
    CountyView3Cols.py_int (Qmin_list (numbers (col Samples.loaded_years "year"))) = Done lo
    ∧ CountyView3Cols.py_int (Qmax_list (numbers (col Samples.loaded_years "year"))) = Done hi
    ∧ (lo ≤ hi)%Z
    ∧ if decide (lo = hi) then
        CountyView.county_view (inr Samples.csv_years) Samples.to_datetime
          Samples.to_numeric None (Some 2021%Z) []
        = (Raised StreamlitAPIException, [])
      else
        ∃ y,
          (lo ≤ y ≤ hi)%Z
          ∧ (Some 2021%Z = None → y = lo)
          ∧ (∀ p, Some 2021%Z = Some p → (lo ≤ p ≤ hi)%Z → y = p)
          ∧ let shown := loc Samples.loaded_years
                           (λ r, cell_eq_num (at_ r "year") (inject_Z y)) in
            CountyView.county_view (inr Samples.csv_years) Samples.to_datetime
              Samples.to_numeric None (Some 2021%Z) []
            = (Done tt,
               [] ++ [match rows shown with
                      | [] => warning "No parish data available for the selected year."
                      | _ :: _ =>
                          choropleth ("Unemployment Rate by Parish in " +:+ pretty y)
                            (col shown "fips") (col shown "Unemployment Rate")
                      end])
            ∧ (Some 2021%Z = None →
               Forall (λ q, ∃ k, (q == inject_Z k)%Q)
                      (numbers (col Samples.loaded_years "year")) →
               rows shown ≠ []).
Proof.
  apply (county_view_shows_selected_year Samples.csv_years Samples.to_datetime
           Samples.to_numeric (Some 2021%Z) [] Samples.loaded_years []).
  - apply (bool_decide_unpack _). by vm_compute.
  - by vm_compute.
  - reflexivity.
  - by vm_compute.
  - apply (bool_decide_unpack _). by vm_compute.
  - apply (bool_decide_unpack _). by vm_compute.
Defined.

(** X19.  A dataset in which no row has a year stops the parish section of
    [economics_dashboard.py] at [int(county_df["year"].min())], before
    anything is shown: this is what a file of distinct labels gives whose
    readable dates are all in rows of unknown parishes. *)
Theorem county_view_stops_without_a_year
    (csv : CsvFile) (to_datetime : cell → option Timestamp)
    (to_numeric : cell → option Q) (load_geojson : option string)
    (year_pick : option Z) (page : list element) :
  distinct_labels csv →
  "Parish" ∈ columns (read_frame csv) →
  has_str_accessor (col (read_frame csv) "Parish") = true →
  "Date" ∈ columns (read_frame csv) →
  let kept := List.filter (λ r, negb (isnull (parish_code r))) (rows (read_frame csv)) in
  kept ≠ [] →
  Forall (λ r, to_datetime (at_ r "Date") = None) kept →
  Exists (λ r, is_Some (to_datetime (at_ r "Date"))) (rows (read_frame csv)) →
  CountyView.county_view (inr csv) to_datetime to_numeric load_geojson year_pick page
  = (Raised (ValueError "cannot convert float NaN to integer"), page).
Proof.
  intros _ Hp Hs Hd kept Hkept Hnone Hsome.
  assert (Hload : ∃ dated, load_county_data (inr csv) to_datetime to_numeric page
                           = (Done (with_fips dated), page)).
  { rewrite load_county_data_prepared by done.
    unfold bind. rewrite derive_year_from_Date by by rewrite prepared_columns.
    destruct (prepared_rows (read_frame csv)) as (g & Hg & Hat).
    rewrite Hg, forallb_fmap.
    assert (forallb (λ r, isnull (coerce_datetime to_datetime (at_ (g r) "Date")))
                    (rows (read_frame csv)) = false) as ->; [|by eexists].
    apply not_true_iff_false. intros Hf. rewrite forallb_forall in Hf.
    apply Exists_exists in Hsome as (r & Hr & [t Ht]).
    specialize (Hf r ltac:(by apply list_elem_of_In)). cbv beta in Hf.
    destruct (Hat r) as (_ & HD & _). rewrite HD in Hf.
    unfold coerce_datetime in Hf. by rewrite Ht in Hf. }
  destruct Hload as [dated Hload].
  destruct (loaded_rows _ _ _ _ _ _ Hload) as [He|(_ & Hcols & _ & h & Hrows & Hat)].
  { by apply with_fips_not_empty_frame in He. }
  fold kept in Hrows.
  assert (Hy : "year" ∈ columns (with_fips dated)).
  { apply Hcols; [done|done|]. right. by left. }
  assert (Hnum : numbers (col (with_fips dated) "year") = []).
  { unfold col. rewrite Hrows, <- list_fmap_compose. clear -Hnone Hat Hd.
    induction Hnone as [|r l Hr _ IH]; [done|].
    rewrite fmap_cons. cbn [compose]. destruct (Hat r) as (_ & _ & -> & _).
    rewrite decide_True by done. unfold coerce_datetime. rewrite Hr. cbn. apply IH. }
  assert (Hne : empty (with_fips dated) = false).
  { unfold empty. rewrite Hrows. destruct kept; [done|].
    destruct (columns (with_fips dated)) eqn:Hc; [|done].
    by apply elem_of_nil in Hy. }
  unfold CountyView.county_view. erewrite bind_run_Done by exact Hload.
  rewrite Hne.
  erewrite bind_run_Done by (unfold lift, getitem; by rewrite decide_True).
  cbv beta. rewrite Hnum. reflexivity.
Qed.

Lemma county_view_stops_without_a_year_witness :
  CountyView.county_view (inr Samples.csv_undated) Samples.to_datetime Samples.to_numeric
    None None []
  = (Raised (ValueError "cannot convert float NaN to integer"), []).
Proof.
  apply (county_view_stops_without_a_year Samples.csv_undated Samples.to_datetime
           Samples.to_numeric None None []).
  - apply (bool_decide_unpack _). by vm_compute.
  - apply (bool_decide_unpack _). by vm_compute.
  - reflexivity.
  - apply (bool_decide_unpack _). by vm_compute.
  - intros H. by vm_compute in H.
  - apply (bool_decide_unpack _). by vm_compute.
  - apply (bool_decide_unpack _). by vm_compute.
Defined.

(** ** The parish section of [economics_dashboard_3cols.py] *)

Section ParishView.

Import CountyView3Cols.

Lemma elem_of_sorted_unique (s : list cell) (d : string) :
  d ∈ sorted_unique s ↔ Str d ∈ s.
Proof.
  unfold sorted_unique. rewrite merge_sort_Permutation, elem_of_remove_dups.
  unfold texts. rewrite list_elem_of_omap. split.
  - intros (c & Hc & Heq). destruct c; try done. by injection Heq as ->.
  - intros H. by exists (Str d).
Qed.

Lemma multiselect_run options default_ pick page :
  Forall (λ d, d ∈ options) default_ →
  multiselect options default_ pick page
  = (Done (match pick with
           | Some l => List.filter (λ o, bool_decide (o ∈ options)) l
           | None => default_
           end), page).
Proof.
  intros Hall. unfold multiselect.
  assert (forallb (λ d, bool_decide (d ∈ options)) default_ = true) as ->.
  { apply forallb_forall. intros d Hd%list_elem_of_In. apply bool_decide_eq_true.
    rewrite Forall_forall in Hall. by apply Hall. }
  by destruct pick.
Qed.

Lemma fig_line_run df parishes metric page :
  "Date" ∈ columns df → metric ∈ columns df →
  ∀ acc,
    for_ parishes acc (λ parish fig,
      let df_parish := loc df (λ r, bool_decide (at_ r "Parish" = Str parish)) in
      if decide (metric ∈ columns df_parish) then
        let* x := lift (getitem df_parish "Date") in
        let* y := lift (getitem df_parish metric) in
        ret (fig ++ [mkScatter parish x y])
      else ret fig) page
    = (Done (acc ++ ((λ parish,
                        let df_parish :=
                          loc df (λ r, bool_decide (at_ r "Parish" = Str parish)) in
                        mkScatter parish (col df_parish "Date") (col df_parish metric))
                       <$> parishes)), page).
Proof.
  intros Hd Hm. induction parishes as [|p l IH]; intros acc.
  - cbn [for_]. unfold ret. by rewrite fmap_nil, app_nil_r.
  - cbn [for_]. erewrite bind_run_Done.
    2:{ cbv zeta. cbn [columns loc]. rewrite decide_True by done.
        unfold bind, lift, getitem. cbn [columns]. rewrite !decide_True by done.
        reflexivity. }
    cbv beta. rewrite IH. rewrite fmap_cons. by rewrite <- app_assoc.
Qed.

Lemma getitems_three df a b c :
  a ∈ columns df → b ∈ columns df → c ∈ columns df →
  ∃ shown, getitems df [a; b; c] = Done shown ∧ columns shown = [a; b; c].
Proof.
  intros Ha Hb Hc. unfold getitems. cbn [List.filter].
  rewrite !bool_decide_true by done. cbn [negb]. by eexists.
Qed.

Lemma series_range (s : list cell) :
  timestamps s ≠ [] →
  ∃ lo hi, series_min s = Ts lo ∧ series_max s = Ts hi ∧ ts_le lo hi.
Proof.
  intros Hne. destruct (timestamps s) as [|t ts] eqn:Hts; [done|].
  assert (Hin : Ts t ∈ s).
  { assert (H : t ∈ timestamps s) by (rewrite Hts; by left).
    unfold timestamps in H. apply list_elem_of_omap in H as (c & Hc & Heq).
    destruct c; try done. by injection Heq as ->. }
  destruct (series_min_max_bound s t Hin) as (lo & hi & H1 & H2 & H3 & H4).
  exists lo, hi. split; [done|]. split; [done|]. by eapply ts_le_trans.
Qed.

End ParishView.

(** X20.  The parish section of [economics_dashboard_3cols.py] on a dataset
    built from a "Date" column, when some row has a date, the five default
    parishes are in the data, the selected metric is a column of numbers
    and the boundaries load.  The section shows the line chart with one
    trace per selected parish, the table and the download button (or the
    warning when the filters keep no row).  The year slider runs from the
    lowest to the highest year of the dataset: when these are the same
    year Streamlit refuses the slider and the section stops there;
    otherwise the section runs to its end with the map of the selected
    parishes in the selected year (or the warning when no row is left). *)
Theorem county_view_3cols_completes
    (csv : CsvFile) (to_datetime : cell → option Timestamp)
    (to_numeric : cell → option Q) (inp : CountyView3Cols.Inputs)
    (page : list element) (df : DataFrame) (page' : list element) :
  distinct_labels csv →
  load_county_data (inr csv) to_datetime to_numeric page = (Done df, page') →
  "Date" ∈ columns df →
  timestamps (col df "Date") ≠ [] →
  Forall (λ d, Str d ∈ col df "Parish")
         ["St. Tammany"; "Tangipahoa"; "Livingston"; "Washington"; "St. Helena"] →
  let metric :=
    CountyView3Cols.selectbox CountyView3Cols.metric_options
      (CountyView3Cols.metric_index inp) in
  metric ∈ columns df →
  Forall (λ c, is_float c = true) (col df metric) →
  ∃ selected_parishes start_date end_date lo hi,
    let line_df :=
      loc df (λ r, CountyView3Cols.isin (at_ r "Parish") selected_parishes
                   && cell_ge (at_ r "Date") start_date
                   && cell_le (at_ r "Date") end_date) in
    let traces :=
      (λ parish,
         let df_parish := loc line_df (λ r, bool_decide (at_ r "Parish" = Str parish)) in
         mkScatter parish (col df_parish "Date") (col df_parish metric))
        <$> selected_parishes in
    ∃ shown,
      let line_part :=
        match rows line_df with
        | [] => [warning "No data available for selected filters."]
        | _ :: _ => [plotly_chart traces; dataframe shown;
                     download_button "Download CSV" line_df]
        end in
      columns shown = ["Date"; "Parish"; metric]
      ∧ (CountyView3Cols.county_pick inp = None →
         selected_parishes
         = ["St. Tammany"; "Tangipahoa"; "Livingston"; "Washington"; "St. Helena"])
      ∧ (CountyView3Cols.county_start_pick inp = None →
         series_min (col df "Date") = Ts start_date)
      ∧ (CountyView3Cols.county_end_pick inp = None →
         series_max (col df "Date") = Ts end_date)
      ∧ CountyView3Cols.py_int (Qmin_list (numbers (col df "year"))) = Done lo
      ∧ CountyView3Cols.py_int (Qmax_list (numbers (col df "year"))) = Done hi
      ∧ if decide (lo = hi) then
          CountyView3Cols.county_view (inr csv) to_datetime to_numeric None inp page
          = (Raised StreamlitAPIException, page ++ line_part)
        else
          ∃ year,
            (lo ≤ year ≤ hi)%Z
            ∧ (CountyView3Cols.map_year_pick inp = None → year = lo)
            ∧ let map_df :=
                loc df (λ r, cell_eq_num (at_ r "year") (inject_Z year)
                             && CountyView3Cols.isin (at_ r "Parish") selected_parishes) in
              CountyView3Cols.county_view (inr csv) to_datetime to_numeric None inp page
              = (Done tt,
                 page ++ line_part
                 ++ [match rows map_df with
                     | [] => warning "No parish data available for the selected year."
                     | _ :: _ =>
                         choropleth (metric +:+ " by Parish in " +:+ pretty year)
                           (col map_df "fips") (col map_df metric)
                     end]).
Proof.
  intros _ Hload HD Hts Hdef metric Hm _.
  destruct (loaded_rows _ _ _ _ _ _ Hload) as [->|(-> & Hcols & _ & h & Hrows & Hat)];
    [by apply elem_of_nil in HD|].
  assert (HP : "Parish" ∈ columns df) by (apply Hcols; [done|done|]; do 2 right; by left).
  assert (HY : "year" ∈ columns df) by (apply Hcols; [done|done|]; right; by left).
  assert (HF : "fips" ∈ columns df) by (apply Hcols; [done|done|]; by left).
  assert (HDF : "Date" ∈ columns (read_frame csv)).
  { apply Hcols in HD; [|done|done]. by destruct HD as [?|[?|[?|?]]]. }
  assert (Hne : empty df = false).
  { unfold empty. destruct (columns df); [by apply elem_of_nil in HD|].
    destruct (rows df) eqn:Hr; [|done]. unfold col in Hts. by rewrite Hr in Hts. }
  assert (Hyears : numbers (col df "year") ≠ []).
  { destruct (timestamps (col df "Date")) as [|t ts] eqn:Ht; [done|].
    assert (H : t ∈ timestamps (col df "Date")) by (rewrite Ht; by left).
    unfold timestamps in H. apply list_elem_of_omap in H as (c & Hc & Heq).
    destruct c as [| | |t']; try done. injection Heq as ->.
    unfold col in Hc. apply list_elem_of_fmap in Hc as (r & Hr & Hin).
    assert (Hy : at_ r "year" = Num (inject_Z (ts_year t))).
    { rewrite Hrows in Hin. apply list_elem_of_fmap in Hin as (r0 & -> & _).
      destruct (Hat r0) as (_ & _ & Hy & _ & _ & Hdate).
      rewrite decide_True in Hy by done. by rewrite <- (Hdate HDF), <- Hr in Hy. }
    intros Hnil.
    assert (Hn : inject_Z (ts_year t) ∈ numbers (col df "year")).
    { unfold numbers. apply list_elem_of_omap. exists (Num (inject_Z (ts_year t))).
      split; [|done]. unfold col. apply list_elem_of_fmap. by exists r. }
    rewrite Hnil in Hn. by apply elem_of_nil in Hn. }
  destruct (series_range _ Hts) as (lo & hi & Hlo & Hhi & Hlohi).
  destruct (date_input_returns lo lo hi (CountyView3Cols.county_start_pick inp) page)
    as (sd & Hsd & _ & _ & Hsn & _); [apply ts_le_refl|done|].
  destruct (date_input_returns hi lo hi (CountyView3Cols.county_end_pick inp) page)
    as (ed & Hed & _ & _ & Hen & _); [done|apply ts_le_refl|].
  destruct (year_bounds _ Hyears) as (ylo & yhi & Hylo & Hyhi & Hyle & _).
  set (parishes := CountyView3Cols.sorted_unique (col df "Parish")).
  set (defaults := ["St. Tammany"; "Tangipahoa"; "Livingston"; "Washington"; "St. Helena"])
    in *.
  set (picked := match CountyView3Cols.county_pick inp with
                 | Some l => List.filter
                               (λ o, bool_decide (o ∈ "Select All Parishes" :: parishes)) l
                 | None => defaults
                 end).
  assert (Hms : ∀ page0,
            CountyView3Cols.multiselect ("Select All Parishes" :: parishes) defaults
              (CountyView3Cols.county_pick inp) page0 = (Done picked, page0)).
  { intros page0. apply multiselect_run. eapply Forall_impl; [exact Hdef|].
    intros d Hd. right. by apply elem_of_sorted_unique. }
  set (selected := if decide ("Select All Parishes" ∈ picked) then parishes else picked).
  set (line_df := loc df (λ r, CountyView3Cols.isin (at_ r "Parish") selected
                               && cell_ge (at_ r "Date") sd
                               && cell_le (at_ r "Date") ed)).
  destruct (getitems_three line_df "Date" "Parish" metric) as (shown & Hshown & Hsc);
    [done|done|done|].
  set (traces := (λ parish,
                    let df_parish :=
                      loc line_df (λ r, bool_decide (at_ r "Parish" = Str parish)) in
                    mkScatter parish (col df_parish "Date") (col df_parish metric))
                   <$> selected).
  set (line_part := match rows line_df with
                    | [] => [warning "No data available for selected filters."]
                    | _ :: _ => [plotly_chart traces; dataframe shown;
                                 download_button "Download CSV" line_df]
                    end).
  assert (Hline : ∀ page0,
            (if empty line_df then st (warning "No data available for selected filters.")
             else
               let* fig := CountyView3Cols.fig_line line_df selected metric in
               let* _ := st (plotly_chart fig) in
               let* shown := lift (getitems line_df ["Date"; "Parish"; metric]) in
               let* _ := st (dataframe shown) in
               st (download_button "Download CSV" line_df)) page0
            = (Done tt, page0 ++ line_part)).
  { intros page0. unfold line_part.
    assert (He : empty line_df = match rows line_df with [] => true | _ => false end).
    { unfold empty. change (columns line_df) with (columns df).
      unfold empty in Hne. by destruct (columns df). }
    rewrite He. destruct (rows line_df) as [|r0 l] eqn:Hr; [done|].
    unfold CountyView3Cols.fig_line.
    erewrite bind_run_Done by (by apply (fig_line_run line_df selected metric page0)).
    cbv beta. rewrite app_nil_l. fold traces.
    unfold bind at 1. unfold st at 1.
    erewrite bind_run_Done by (unfold lift; by rewrite Hshown).
    cbv beta. unfold bind, st. by rewrite <- !app_assoc. }
  assert (Hrun : ∀ out,
            bind (slider ylo yhi ylo (CountyView3Cols.map_year_pick inp))
              (λ selected_year,
                 let filtered_map_df :=
                   loc df (λ r, cell_eq_num (at_ r "year") (inject_Z selected_year)
                                && CountyView3Cols.isin (at_ r "Parish") selected) in
                 if empty filtered_map_df
                 then st (warning "No parish data available for the selected year.")
                 else
                   let* z := lift (getitem filtered_map_df metric) in
                   let* locations := lift (getitem filtered_map_df "fips") in
                   st (choropleth (metric +:+ " by Parish in " +:+ pretty selected_year)
                         locations z))
              (page ++ line_part) = out →
            CountyView3Cols.county_view (inr csv) to_datetime to_numeric None inp page
            = out).
  { intros out <-.
    unfold CountyView3Cols.county_view. erewrite bind_run_Done by exact Hload.
    rewrite Hne.
    erewrite bind_run_Done by (unfold lift, getitem; by rewrite decide_True).
    cbv beta. fold parishes. fold defaults.
    erewrite bind_run_Done by apply Hms.
    cbv beta. fold selected.
    erewrite bind_run_Done by (unfold lift, getitem; by rewrite decide_True).
    cbv beta.
    erewrite bind_run_Done by (unfold lift, getitem; by rewrite decide_True).
    cbv beta. rewrite Hlo, Hhi.
    erewrite bind_run_Done by exact Hsd. cbv beta.
    erewrite bind_run_Done by exact Hed. cbv beta.
    fold line_df. fold metric.
    erewrite bind_run_Done by apply Hline. cbv beta.
    erewrite bind_run_Done by (unfold lift, getitem; by rewrite decide_True).
    cbv beta. erewrite bind_run_Done by (unfold lift; by rewrite Hylo).
    cbv beta. erewrite bind_run_Done by (unfold lift; by rewrite Hyhi).
    reflexivity. }
  exists selected, sd, ed, ylo, yhi. cbv zeta. exists shown. fold line_part.
  split; [done|]. split.
  { intros Hp. unfold selected, picked. rewrite Hp. rewrite decide_False; [done|].
    unfold defaults. rewrite !elem_of_cons, elem_of_nil. naive_solver. }
  split; [intros Hp; by rewrite (Hsn Hp)|].
  split; [intros Hp; by rewrite (Hen Hp)|].
  split; [done|]. split; [done|].
  destruct (decide (ylo = yhi)) as [Hsame|Hsame].
  - apply Hrun. erewrite bind_run_Raised; [reflexivity|]. apply slider_refuses. lia.
  - destruct (slider_range ylo yhi (CountyView3Cols.map_year_pick inp) (page ++ line_part))
      as (y & Hy & Hrange & Hnone & _); [lia|].
    exists y. split; [done|]. split; [done|].
    apply Hrun. erewrite bind_run_Done by exact Hy. cbv beta zeta.
    set (map_df := loc df (λ r, cell_eq_num (at_ r "year") (inject_Z y)
                                && CountyView3Cols.isin (at_ r "Parish") selected)).
    assert (He : empty map_df = match rows map_df with [] => true | _ => false end).
    { unfold empty. change (columns map_df) with (columns df).
      unfold empty in Hne. by destruct (columns df). }
    rewrite He. destruct (rows map_df) as [|r0 l] eqn:Hr.
    + unfold st. by rewrite <- app_assoc.
    + erewrite bind_run_Done by (unfold lift, getitem; by rewrite decide_True).
      cbv beta. erewrite bind_run_Done by (unfold lift, getitem; by rewrite decide_True).
      unfold st. by rewrite <- app_assoc.
Qed.

Lemma county_view_3cols_completes_witness :
  ∃ selected_parishes start_date end_date lo hi,
    let line_df :=
      loc Samples.loaded_dates_full
        (λ r, CountyView3Cols.isin (at_ r "Parish") selected_parishes
              && cell_ge (at_ r "Date") start_date
              && cell_le (at_ r "Date") end_date) in
    let traces :=
      (λ parish,
         let df_parish := loc line_df (λ r, bool_decide (at_ r "Parish" = Str parish)) in
         mkScatter parish (col df_parish "Date") (col df_parish "Unemployment Rate"))
        <$> selected_parishes in
    ∃ shown,
      let line_part :=
        match rows line_df with
        | [] => [warning "No data available for selected filters."]
        | _ :: _ => [plotly_chart traces; dataframe shown;
                     download_button "Download CSV" line_df]
        end in
      columns shown = ["Date"; "Parish"; "Unemployment Rate"]
      ∧ (@None (list string) = None →
         selected_parishes
         = ["St. Tammany"; "Tangipahoa"; "Livingston"; "Washington"; "St. Helena"])
      ∧ (@None Timestamp = None →
         series_min (col Samples.loaded_dates_full "Date") = Ts start_date)
      ∧ (@None Timestamp = None →
         series_max (col Samples.loaded_dates_full "Date") = Ts end_date)
      ∧ CountyView3Cols.py_int (Qmin_list (numbers (col Samples.loaded_dates_full "year")))
        = Done lo
      ∧ CountyView3Cols.py_int (Qmax_list (numbers (col Samples.loaded_dates_full "year")))
        = Done hi
      ∧ if decide (lo = hi) then
          CountyView3Cols.county_view (inr Samples.csv_dates_full) Samples.to_datetime
            Samples.to_numeric None (CountyView3Cols.mkInputs 0 None None None None) []
          = (Raised StreamlitAPIException, [] ++ line_part)
        else
          ∃ year,
            (lo ≤ year ≤ hi)%Z
            ∧ (@None Z = None → year = lo)
            ∧ let map_df :=
                loc Samples.loaded_dates_full
                  (λ r, cell_eq_num (at_ r "year") (inject_Z year)
                        && CountyView3Cols.isin (at_ r "Parish") selected_parishes) in
              CountyView3Cols.county_view (inr Samples.csv_dates_full) Samples.to_datetime
                Samples.to_numeric None (CountyView3Cols.mkInputs 0 None None None None) []
              = (Done tt,
                 [] ++ line_part
                 ++ [match rows map_df with
                     | [] => warning "No parish data available for the selected year."
                     | _ :: _ =>
                         choropleth ("Unemployment Rate" +:+ " by Parish in " +:+ pretty year)
                           (col map_df "fips") (col map_df "Unemployment Rate")
                     end]).
Proof.
  apply (county_view_3cols_completes Samples.csv_dates_full Samples.to_datetime
           Samples.to_numeric (CountyView3Cols.mkInputs 0 None None None None) []
           Samples.loaded_dates_full []).
  - apply (bool_decide_unpack _). by vm_compute.
  - by vm_compute.
  - apply (bool_decide_unpack _). by vm_compute.
  - intros H. by vm_compute in H.
  - apply (bool_decide_unpack _). by vm_compute.
  - apply (bool_decide_unpack _). by vm_compute.
  - apply (bool_decide_unpack _). by vm_compute.
Defined.

Section MissingMetric.

Lemma fig_line_skip df parishes metric page :
  metric ∉ columns df →
  CountyView3Cols.fig_line df parishes metric page = (Done [], page).
Proof.
  intros Hm. unfold CountyView3Cols.fig_line. generalize (@nil Scatter).
  induction parishes as [|p l IH]; intros acc; [done|].
  cbn [for_]. erewrite bind_run_Done.
  2:{ cbv zeta. cbn [columns loc]. by rewrite decide_False. }
  apply IH.
Qed.

End MissingMetric.

(** X21.  The same section when the selected metric is not a column of the
    dataset.  No trace and no map is ever drawn.  When the filters keep
    rows, the section stops after an empty chart with the [KeyError] of
    the table, which names the metric as the label not found.  When they
    keep none, the warning of the chart is shown and the year slider
    follows: with one year in the dataset Streamlit refuses the slider;
    otherwise the section stops with [KeyError] on the metric when the map
    has rows, and ends without an exception, on its second warning, when
    the map has none. *)
Theorem county_view_3cols_missing_metric
    (csv : CsvFile) (to_datetime : cell → option Timestamp)
    (to_numeric : cell → option Q) (inp : CountyView3Cols.Inputs)
    (page : list element) (df : DataFrame) (page' : list element) :
  distinct_labels csv →
  load_county_data (inr csv) to_datetime to_numeric page = (Done df, page') →
  "Date" ∈ columns df →
  timestamps (col df "Date") ≠ [] →
  Forall (λ d, Str d ∈ col df "Parish")
         ["St. Tammany"; "Tangipahoa"; "Livingston"; "Washington"; "St. Helena"] →
  let metric :=
    CountyView3Cols.selectbox CountyView3Cols.metric_options
      (CountyView3Cols.metric_index inp) in
  metric ∉ columns df →
  ∃ selected_parishes start_date end_date lo hi,
    let line_df :=
      loc df (λ r, CountyView3Cols.isin (at_ r "Parish") selected_parishes
                   && cell_ge (at_ r "Date") start_date
                   && cell_le (at_ r "Date") end_date) in
    CountyView3Cols.py_int (Qmin_list (numbers (col df "year"))) = Done lo
    ∧ CountyView3Cols.py_int (Qmax_list (numbers (col df "year"))) = Done hi
    ∧ match rows line_df with
      | _ :: _ =>
          CountyView3Cols.county_view (inr csv) to_datetime to_numeric None inp page
          = (Raised (KeyError_not_found [metric]), page ++ [plotly_chart []])
      | [] =>
          if decide (lo = hi) then
            CountyView3Cols.county_view (inr csv) to_datetime to_numeric None inp page
            = (Raised StreamlitAPIException,
               page ++ [warning "No data available for selected filters."])
          else
            ∃ year,
              (lo ≤ year ≤ hi)%Z
              ∧ (CountyView3Cols.map_year_pick inp = None → year = lo)
              ∧ let map_df :=
                  loc df (λ r, cell_eq_num (at_ r "year") (inject_Z year)
                               && CountyView3Cols.isin (at_ r "Parish") selected_parishes) in
                CountyView3Cols.county_view (inr csv) to_datetime to_numeric None inp page
                = match rows map_df with
                  | _ :: _ =>
                      (Raised (KeyError metric),
                       page ++ [warning "No data available for selected filters."])
                  | [] =>
                      (Done tt,
                       page ++ [warning "No data available for selected filters.";
                                warning "No parish data available for the selected year."])
                  end
      end.
Proof.
  intros _ Hload HD Hts Hdef metric Hm.
  destruct (loaded_rows _ _ _ _ _ _ Hload) as [->|(-> & Hcols & _ & h & Hrows & Hat)];
    [by apply elem_of_nil in HD|].
  assert (HP : "Parish" ∈ columns df) by (apply Hcols; [done|done|]; do 2 right; by left).
  assert (HY : "year" ∈ columns df) by (apply Hcols; [done|done|]; right; by left).
  assert (HDF : "Date" ∈ columns (read_frame csv)).
  { apply Hcols in HD; [|done|done]. by destruct HD as [?|[?|[?|?]]]. }
  assert (Hne : empty df = false).
  { unfold empty. destruct (columns df); [by apply elem_of_nil in HD|].
    destruct (rows df) eqn:Hr; [|done]. unfold col in Hts. by rewrite Hr in Hts. }
  assert (Hyears : numbers (col df "year") ≠ []).
  { destruct (timestamps (col df "Date")) as [|t ts] eqn:Ht; [done|].
    assert (H : t ∈ timestamps (col df "Date")) by (rewrite Ht; by left).
    unfold timestamps in H. apply list_elem_of_omap in H as (c & Hc & Heq).
    destruct c as [| | |t']; try done. injection Heq as ->.
    unfold col in Hc. apply list_elem_of_fmap in Hc as (r & Hr & Hin).
    assert (Hy : at_ r "year" = Num (inject_Z (ts_year t))).
    { rewrite Hrows in Hin. apply list_elem_of_fmap in Hin as (r0 & -> & _).
      destruct (Hat r0) as (_ & _ & Hy & _ & _ & Hdate).
      rewrite decide_True in Hy by done. by rewrite <- (Hdate HDF), <- Hr in Hy. }
    intros Hnil.
    assert (Hn : inject_Z (ts_year t) ∈ numbers (col df "year")).
    { unfold numbers. apply list_elem_of_omap. exists (Num (inject_Z (ts_year t))).
      split; [|done]. unfold col. apply list_elem_of_fmap. by exists r. }
    rewrite Hnil in Hn. by apply elem_of_nil in Hn. }
  destruct (series_range _ Hts) as (lo & hi & Hlo & Hhi & Hlohi).
  destruct (date_input_returns lo lo hi (CountyView3Cols.county_start_pick inp) page)
    as (sd & Hsd & _); [apply ts_le_refl|done|].
  destruct (date_input_returns hi lo hi (CountyView3Cols.county_end_pick inp) page)
    as (ed & Hed & _); [done|apply ts_le_refl|].
  destruct (year_bounds _ Hyears) as (ylo & yhi & Hylo & Hyhi & Hyle & _).
  set (parishes := CountyView3Cols.sorted_unique (col df "Parish")).
  set (defaults := ["St. Tammany"; "Tangipahoa"; "Livingston"; "Washington"; "St. Helena"])
    in *.
  set (picked := match CountyView3Cols.county_pick inp with
                 | Some l => List.filter
                               (λ o, bool_decide (o ∈ "Select All Parishes" :: parishes)) l
                 | None => defaults
                 end).
  assert (Hms : ∀ page0,
            CountyView3Cols.multiselect ("Select All Parishes" :: parishes) defaults
              (CountyView3Cols.county_pick inp) page0 = (Done picked, page0)).
  { intros page0. apply multiselect_run. eapply Forall_impl; [exact Hdef|].
    intros d Hd. right. by apply elem_of_sorted_unique. }
  set (selected := if decide ("Select All Parishes" ∈ picked) then parishes else picked).
  set (line_df := loc df (λ r, CountyView3Cols.isin (at_ r "Parish") selected
                               && cell_ge (at_ r "Date") sd
                               && cell_le (at_ r "Date") ed)).
  assert (Hitems : getitems line_df ["Date"; "Parish"; metric]
                   = Raised (KeyError_not_found [metric])).
  { unfold getitems. cbn [List.filter]. cbn [columns line_df loc].
    rewrite (bool_decide_true ("Date" ∈ columns df)) by done.
    rewrite (bool_decide_true ("Parish" ∈ columns df)) by done.
    by rewrite (bool_decide_false (metric ∈ columns df)) by done. }
  assert (He : empty line_df = match rows line_df with [] => true | _ => false end).
  { unfold empty. change (columns line_df) with (columns df).
    unfold empty in Hne. by destruct (columns df). }
  assert (Hrun : ∀ out,
            bind (if empty line_df
                  then st (warning "No data available for selected filters.")
                  else
                    let* fig := CountyView3Cols.fig_line line_df selected metric in
                    let* _ := st (plotly_chart fig) in
                    let* shown := lift (getitems line_df ["Date"; "Parish"; metric]) in
                    let* _ := st (dataframe shown) in
                    st (download_button "Download CSV" line_df))
              (λ _,
                 let* selected_year :=
                   slider ylo yhi ylo (CountyView3Cols.map_year_pick inp) in
                 let filtered_map_df :=
                   loc df (λ r, cell_eq_num (at_ r "year") (inject_Z selected_year)
                                && CountyView3Cols.isin (at_ r "Parish") selected) in
                 if empty filtered_map_df
                 then st (warning "No parish data available for the selected year.")
                 else
                   let* z := lift (getitem filtered_map_df metric) in
                   let* locations := lift (getitem filtered_map_df "fips") in
                   st (choropleth (metric +:+ " by Parish in " +:+ pretty selected_year)
                         locations z))
              page = out →
            CountyView3Cols.county_view (inr csv) to_datetime to_numeric None inp page
            = out).
  { intros out <-.
    unfold CountyView3Cols.county_view. erewrite bind_run_Done by exact Hload.
    rewrite Hne.
    erewrite bind_run_Done by (unfold lift, getitem; by rewrite decide_True).
    cbv beta. fold parishes. fold defaults.
    erewrite bind_run_Done by apply Hms.
    cbv beta. fold selected.
    erewrite bind_run_Done by (unfold lift, getitem; by rewrite decide_True).
    cbv beta.
    erewrite bind_run_Done by (unfold lift, getitem; by rewrite decide_True).
    cbv beta. rewrite Hlo, Hhi.
    erewrite bind_run_Done by exact Hsd. cbv beta.
    erewrite bind_run_Done by exact Hed. cbv beta.
    fold line_df. fold metric.
    destruct (empty line_df).
    - erewrite !(bind_run_Done (st _)) by reflexivity. cbv beta.
      erewrite bind_run_Done by (unfold lift, getitem; by rewrite decide_True).
      cbv beta. erewrite bind_run_Done by (unfold lift; by rewrite Hylo).
      cbv beta. erewrite bind_run_Done by (unfold lift; by rewrite Hyhi).
      reflexivity.
    - assert (Hraise : ∀ B (k : unit → App B),
                bind (let* fig := CountyView3Cols.fig_line line_df selected metric in
                      let* _ := st (plotly_chart fig) in
                      let* shown := lift (getitems line_df ["Date"; "Parish"; metric]) in
                      let* _ := st (dataframe shown) in
                      st (download_button "Download CSV" line_df)) k page
                = (Raised (KeyError_not_found [metric]), page ++ [plotly_chart []])).
      { intros B k. erewrite bind_run_Raised; [done|].
        erewrite bind_run_Done by (by apply fig_line_skip).
        cbv beta. unfold bind at 1. unfold st at 1.
        erewrite bind_run_Raised; [done|]. unfold lift. by rewrite Hitems. }
      by rewrite !Hraise. }
  exists selected, sd, ed, ylo, yhi. cbv zeta. fold line_df.
  split; [done|]. split; [done|].
  rewrite He in Hrun.
  destruct (rows line_df) as [|r0 l] eqn:Hr.
  - destruct (decide (ylo = yhi)) as [Hsame|Hsame].
    + apply Hrun. erewrite bind_run_Done by reflexivity. cbv beta.
      erewrite bind_run_Raised; [reflexivity|]. apply slider_refuses. lia.
    + destruct (slider_range ylo yhi (CountyView3Cols.map_year_pick inp)
                  (page ++ [warning "No data available for selected filters."]))
        as (y & Hy & Hrange & Hnone & _); [lia|].
      exists y. split; [done|]. split; [done|].
      apply Hrun. erewrite bind_run_Done by reflexivity. cbv beta.
      erewrite bind_run_Done by exact Hy. cbv beta zeta.
      set (map_df := loc df (λ r, cell_eq_num (at_ r "year") (inject_Z y)
                                  && CountyView3Cols.isin (at_ r "Parish") selected)).
      assert (He' : empty map_df = match rows map_df with [] => true | _ => false end).
      { unfold empty. change (columns map_df) with (columns df).
        unfold empty in Hne. by destruct (columns df). }
      rewrite He'. destruct (rows map_df) as [|r1 l1] eqn:Hr1.
      * unfold st. by rewrite <- app_assoc.
      * erewrite bind_run_Raised; [done|].
        unfold lift, getitem. cbn [columns map_df loc]. by rewrite decide_False.
  - apply Hrun. erewrite bind_run_Raised; [done|].
    erewrite bind_run_Done by (by apply fig_line_skip).
    cbv beta. unfold bind at 1. unfold st at 1.
    erewrite bind_run_Raised; [done|]. unfold lift. by rewrite Hitems.
Qed.

Lemma county_view_3cols_missing_metric_witness :
  ∃ selected_parishes start_date end_date lo hi,
    let line_df :=
      loc Samples.loaded_dates_full
        (λ r, CountyView3Cols.isin (at_ r "Parish") selected_parishes
              && cell_ge (at_ r "Date") start_date
              && cell_le (at_ r "Date") end_date) in
    CountyView3Cols.py_int (Qmin_list (numbers (col Samples.loaded_dates_full "year")))
    = Done lo
    ∧ CountyView3Cols.py_int (Qmax_list (numbers (col Samples.loaded_dates_full "year")))
      = Done hi
    ∧ match rows line_df with
      | _ :: _ =>
          CountyView3Cols.county_view (inr Samples.csv_dates_full) Samples.to_datetime
            Samples.to_numeric None (CountyView3Cols.mkInputs 1 None None None None) []
          = (Raised (KeyError_not_found ["Labor force size"]), [] ++ [plotly_chart []])
      | [] =>
          if decide (lo = hi) then
            CountyView3Cols.county_view (inr Samples.csv_dates_full) Samples.to_datetime
              Samples.to_numeric None (CountyView3Cols.mkInputs 1 None None None None) []
            = (Raised StreamlitAPIException,
               [] ++ [warning "No data available for selected filters."])
          else
            ∃ year,
              (lo ≤ year ≤ hi)%Z
              ∧ (@None Z = None → year = lo)
              ∧ let map_df :=
                  loc Samples.loaded_dates_full
                    (λ r, cell_eq_num (at_ r "year") (inject_Z year)
                          && CountyView3Cols.isin (at_ r "Parish") selected_parishes) in
                CountyView3Cols.county_view (inr Samples.csv_dates_full)
                  Samples.to_datetime Samples.to_numeric None
                  (CountyView3Cols.mkInputs 1 None None None None) []
                = match rows map_df with
                  | _ :: _ =>
                      (Raised (KeyError "Labor force size"),
                       [] ++ [warning "No data available for selected filters."])
                  | [] =>
                      (Done tt,
                       [] ++ [warning "No data available for selected filters.";
                              warning "No parish data available for the selected year."])
                  end
      end.
Proof.
  apply (county_view_3cols_missing_metric Samples.csv_dates_full Samples.to_datetime
           Samples.to_numeric (CountyView3Cols.mkInputs 1 None None None None) []
           Samples.loaded_dates_full []).
  - apply (bool_decide_unpack _). by vm_compute.
  - by vm_compute.
  - apply (bool_decide_unpack _). by vm_compute.
  - intros H. by vm_compute in H.
  - apply (bool_decide_unpack _). by vm_compute.
  - apply (bool_decide_unpack _). by vm_compute.
Defined.

(** ** The locations of the state maps *)

Section StateCodes.

(** Every state of [STATE_SERIES_IDS] has a code in [state_abbr]. *)
Lemma state_abbr_covers (s : string) :
  is_Some (STATE_SERIES_IDS !! s) → is_Some (Dashboard3Cols.state_abbr !! s).
Proof.
  assert (H : map_Forall (λ s _, is_Some (Dashboard3Cols.state_abbr !! s)) STATE_SERIES_IDS).
  { apply (bool_decide_unpack _). by vm_compute. }
  intros [id Hid]. by apply (H s id).
Qed.

Lemma state_map_data_sublist dfy states_selected :
  (Dashboard3Cols.state_map_data dfy states_selected).*1 `sublist_of` states_selected.
Proof.
  induction states_selected as [|s states IH]; [done|].
  cbn [Dashboard3Cols.state_map_data].
  destruct (_ && _); [by apply sublist_skip|by apply sublist_cons].
Qed.

Lemma latest_values_sublist df d states_selected :
  (DashboardMap.latest_values df d states_selected).*1 `sublist_of` states_selected.
Proof.
  induction states_selected as [|s states IH]; [done|].
  cbn [DashboardMap.latest_values].
  destruct (DashboardMap.latest_rate df d s); [by apply sublist_skip|by apply sublist_cons].
Qed.

Lemma codes_of_sublist (l states_selected : list string) :
  l `sublist_of` states_selected →
  Forall (λ s, is_Some (STATE_SERIES_IDS !! s)) states_selected →
  Forall2 (λ s location, ∃ a, Dashboard3Cols.state_abbr !! s = Some a ∧ location = Str a)
          l (Dashboard3Cols.state_code <$> l).
Proof.
  intros Hsub Hall. apply Forall2_fmap_r, Forall_Forall2_diag.
  apply Forall_forall. intros s Hs.
  assert (Hin : s ∈ states_selected) by by eapply elem_of_sublist.
  rewrite Forall_forall in Hall.
  destruct (state_abbr_covers s (Hall s Hin)) as [a Ha].
  exists a. split; [done|]. cbn. unfold Dashboard3Cols.state_code. by rewrite Ha.
Qed.

End StateCodes.

(** X22.  On a selection the state multiselect can return, both state maps
    show selected states only, in the order of the selection, and every
    location is the code [state_abbr] gives to its state: no location is
    missing. *)
Theorem map_locations_are_state_codes
    (states_selected : list string) (df : DataFrame) (latest_date : cell) :
  selectable states_selected →
  let data3 := Dashboard3Cols.state_map_data df states_selected in
  let data1 := DashboardMap.latest_values df latest_date states_selected in
  data3.*1 `sublist_of` states_selected
  ∧ Forall2 (λ s location, ∃ a, Dashboard3Cols.state_abbr !! s = Some a ∧ location = Str a)
            data3.*1 (Dashboard3Cols.state_code <$> data3.*1)
  ∧ data1.*1 `sublist_of` states_selected
  ∧ Forall2 (λ s location, ∃ a, Dashboard3Cols.state_abbr !! s = Some a ∧ location = Str a)
            data1.*1 (Dashboard3Cols.state_code <$> data1.*1).
Proof.
  intros [_ Hall] data3 data1.
  pose proof (state_map_data_sublist df states_selected) as H3.
  pose proof (latest_values_sublist df latest_date states_selected) as H1.
  split; [done|]. split; [by eapply codes_of_sublist|].
  split; [done|]. by eapply codes_of_sublist.
Qed.

Lemma map_locations_are_state_codes_witness :
  let data3 := Dashboard3Cols.state_map_data Samples.table ["Texas"; "Louisiana"] in
  let data1 := DashboardMap.latest_values Samples.table (Ts (Samples.month 2021 1))
                 ["Texas"; "Louisiana"] in
  data3.*1 `sublist_of` ["Texas"; "Louisiana"]
  ∧ Forall2 (λ s location, ∃ a, Dashboard3Cols.state_abbr !! s = Some a ∧ location = Str a)
            data3.*1 (Dashboard3Cols.state_code <$> data3.*1)
  ∧ data1.*1 `sublist_of` ["Texas"; "Louisiana"]
  ∧ Forall2 (λ s location, ∃ a, Dashboard3Cols.state_abbr !! s = Some a ∧ location = Str a)
            data1.*1 (Dashboard3Cols.state_code <$> data1.*1).
Proof.
  apply (map_locations_are_state_codes ["Texas"; "Louisiana"] Samples.table
           (Ts (Samples.month 2021 1))).
  split; [apply (bool_decide_unpack _); by vm_compute|]. repeat constructor; by eexists.
Defined.
